(** * frappe_whatsapp: a shallow embedding of the notification, template and
    webhook code, and the properties of its specification.

    Python values are modelled as the code uses them:
    - a [str] is a list of Unicode code points ([N]);
    - [None], strings and other objects are the constructors of [pyvalue];
    - decoded JSON (request bodies, provider answers) is the tree [json];
    - exceptions are the constructors of [exn], results are [Ok] or [Raise];
    - documents, logs and remote calls live in explicit state records.

    What Python takes from the Unicode database (case mapping, the digit
    classes behind [\d], [int] and [str.isdigit]) is fixed on ASCII and
    left as a parameter on the other code points.  [json.loads] and the
    framework calls are parameters as well. *)

From Stdlib Require Import List NArith ZArith Bool String Ascii Lia DecimalN.
Import ListNotations.

(* ================================================================== *)
(** * Python strings *)
(* ================================================================== *)

Module PyStr.

Local Open Scope N_scope.

Definition char := N.
Definition str := list char.

(** A literal: the code points of an ASCII string. *)
Fixpoint lit (s : string) : str :=
  match s with
  | EmptyString => []
  | String a t => N_of_ascii a :: lit t
  end.

Definition NL : char := 10.
Definition CR : char := 13.
Definition TAB : char := 9.
Definition SP : char := 32.
Definition QUOTE : char := 34.
Definition COMMA : char := 44.
Definition HYPHEN : char := 45.
Definition DOT : char := 46.
Definition LBRACKET : char := 91.
Definition RBRACKET : char := 93.
Definition UNDERSCORE : char := 95.
Definition LBRACE : char := 123.
Definition PIPE : char := 124.
Definition RBRACE : char := 125.

Definition str_eqb (a b : str) : bool :=
  if list_eq_dec N.eq_dec a b then true else false.

(** [bool(s)]: a string is true when it is not empty. *)
Definition nonempty (s : str) : bool :=
  match s with [] => false | _ => true end.

(** The code points [str.isspace], [str.strip()] and the pattern [\s]
    treat as white space. *)
Definition isspace (c : char) : bool :=
  ((9 <=? c) && (c <=? 13)) || ((28 <=? c) && (c <=? 32))
  || (c =? 133) || (c =? 160) || (c =? 5760)
  || ((8192 <=? c) && (c <=? 8202))
  || (c =? 8232) || (c =? 8233) || (c =? 8239) || (c =? 8287)
  || (c =? 12288).

Definition is_ascii (c : char) : bool := c <? 128.
Definition is_az (c : char) : bool := (97 <=? c) && (c <=? 122).
Definition is_AZ (c : char) : bool := (65 <=? c) && (c <=? 90).
Definition is_09 (c : char) : bool := (48 <=? c) && (c <=? 57).

(** [s.replace(old, new)] for one-character [old] and [new]. *)
Definition replace_char (old new : char) (s : str) : str :=
  map (fun c => if c =? old then new else c) s.

(** [s.lstrip(chars)], [s.rstrip(chars)], [s.strip(chars)]: the characters
    to remove are those for which [p] holds. *)
Fixpoint lstrip_by (p : char -> bool) (s : str) : str :=
  match s with
  | [] => []
  | c :: t => if p c then lstrip_by p t else s
  end.

Fixpoint rstrip_by (p : char -> bool) (s : str) : str :=
  match s with
  | [] => []
  | c :: t =>
      match rstrip_by p t with
      | [] => if p c then [] else [c]
      | t' => c :: t'
      end
  end.

Definition strip_by (p : char -> bool) (s : str) : str :=
  rstrip_by p (lstrip_by p s).

(** [s.strip()] *)
Definition strip (s : str) : str := strip_by isspace s.

(** [s.split(sep)] for a one-character separator: never empty. *)
Fixpoint split (sep : char) (s : str) : list str :=
  match s with
  | [] => [[]]
  | c :: t =>
      if c =? sep then [] :: split sep t
      else match split sep t with
           | [] => [[c]]
           | piece :: rest => (c :: piece) :: rest
           end
  end.

Definition startswith (c : char) (s : str) : bool :=
  match s with
  | c' :: _ => c' =? c
  | [] => false
  end.

Definition endswith (c : char) (s : str) : bool :=
  match rev s with
  | c' :: _ => c' =? c
  | [] => false
  end.

(** [c in s] for a one-character [c]. *)
Definition contains (c : char) (s : str) : bool := existsb (N.eqb c) s.

(** ASCII case mapping; Python agrees with it on ASCII-only strings. *)
Definition ascii_lower (c : char) : char := if is_AZ c then c + 32 else c.
Definition ascii_upper (c : char) : char := if is_az c then c - 32 else c.

(** What Python reads in the Unicode database for text that is not ASCII:
    [str.lower] and [str.upper] of such a string, [str.isdigit] of such a
    character, and its value as a decimal digit (the class behind [\d] and
    [int]), if it is one. *)
Record unicode_db := {
  u_lower : str -> str;
  u_upper : str -> str;
  u_isdigit : char -> bool;
  u_decimal : char -> option N
}.

(** [s.lower()], [s.upper()] *)
Definition lower (U : unicode_db) (s : str) : str :=
  if forallb is_ascii s then map ascii_lower s else u_lower U s.

Definition upper (U : unicode_db) (s : str) : str :=
  if forallb is_ascii s then map ascii_upper s else u_upper U s.

(** [c.isdigit()] *)
Definition isdigit (U : unicode_db) (c : char) : bool :=
  if is_ascii c then is_09 c else u_isdigit U c.

(** The decimal value of [c] when [\d] matches it. *)
Definition decimal (U : unicode_db) (c : char) : option N :=
  if is_ascii c then (if is_09 c then Some (c - 48) else None)
  else u_decimal U c.

Definition is_decimal (U : unicode_db) (c : char) : bool :=
  match decimal U c with Some _ => true | None => false end.

(** A database that knows nothing beyond ASCII, for running the code on
    ASCII examples (where it is never consulted). *)
Definition ascii_only : unicode_db :=
  {| u_lower := fun s => s; u_upper := fun s => s;
     u_isdigit := fun _ => false; u_decimal := fun _ => None |}.

End PyStr.

Import PyStr.

(** [None], a string, or another object (a number, a date, a list...), of
    which the code only takes [str(value)]: [PObj] carries that rendering. *)
Inductive pyvalue :=
| PNone
| PStr (s : str)
| PObj (rendering : str).

(** [str(value)] *)
Definition py_str (v : pyvalue) : str :=
  match v with
  | PNone => lit "None"
  | PStr s => s
  | PObj r => r
  end.

(* ================================================================== *)
(** * whatsapp_notification.py: the parameter sanitizer *)
(* ================================================================== *)

Module Notification.

(** [re.sub(r' {5,}', '    ', text)]: the pattern is greedy, so each
    maximal run of five or more spaces is matched whole and replaced by
    four spaces; shorter runs are left alone.  [run] counts the spaces
    read since the last other character. *)
Definition flush_run (run : nat) : str :=
  if Nat.leb 5 run then repeat SP 4 else repeat SP run.

Fixpoint collapse_from (run : nat) (s : str) : str :=
  match s with
  | [] => flush_run run
  | c :: t =>
      if N.eqb c SP then collapse_from (S run) t
      else flush_run run ++ c :: collapse_from 0 t
  end.

Definition collapse_spaces (s : str) : str := collapse_from 0 s.

(** [value in (None, "")] *)
Definition is_none_or_empty (v : pyvalue) : bool :=
  match v with
  | PNone => true
  | PStr [] => true
  | _ => false
  end.

(** The three [replace] calls. *)
Definition replaced (v : pyvalue) : str :=
  let text := py_str v in
  replace_char TAB SP (replace_char CR SP (replace_char NL SP text)).

(** The text after the substitution and the [strip]. *)
Definition cleaned (v : pyvalue) : str :=
  let text := replaced v in
  let text := collapse_spaces text in
  strip text.

Definition sanitize_whatsapp_param (value : pyvalue) : str :=
  if is_none_or_empty value then lit "-"
  else
    let text := cleaned value in
    if nonempty text then text else lit "-".

(** Vocabulary of the specification: [s] has [n] consecutive spaces
    somewhere. *)
Definition has_space_run (n : nat) (s : str) : Prop :=
  exists pre post, s = pre ++ repeat SP n ++ post.

(** The same as a check: [k] spaces stand immediately before [s], and no
    run reaches five. *)
Fixpoint short_runs_from (k : nat) (s : str) : bool :=
  match s with
  | [] => true
  | c :: t =>
      if N.eqb c SP then Nat.ltb (S k) 5 && short_runs_from (S k) t
      else short_runs_from 0 t
  end.

End Notification.

(* ================================================================== *)
(** * Exceptions and results *)
(* ================================================================== *)

Inductive exn :=
| KeyError
| IndexError
| TypeError
| AttributeError
| ValidationError (msg : str)   (* frappe.throw *)
| OtherError (msg : str).       (* any other Exception, with str(e) *)

Inductive result (A : Type) :=
| Ok (a : A)
| Raise (e : exn).
Arguments Ok {A} a.
Arguments Raise {A} e.

(** Code that reads and writes a state [S] and may raise. *)
Definition M (S A : Type) : Type := S -> result A * S.

Definition ret {S A} (a : A) : M S A := fun st => (Ok a, st).
Definition raise {S A} (e : exn) : M S A := fun st => (Raise e, st).
Definition bind {S A B} (m : M S A) (f : A -> M S B) : M S B :=
  fun st =>
    match m st with
    | (Ok a, st') => f a st'
    | (Raise e, st') => (Raise e, st')
    end.
Definition modify {S} (f : S -> S) : M S unit := fun st => (Ok tt, f st).
Definition gets {S A} (f : S -> A) : M S A := fun st => (Ok (f st), st).
Definition when_ {S} (b : bool) (m : M S unit) : M S unit :=
  if b then m else ret tt.

(** [try: m except Exception as e: h e] *)
Definition try_except {S A} (m : M S A) (h : exn -> M S A) : M S A :=
  fun st =>
    match m st with
    | (Ok a, st') => (Ok a, st')
    | (Raise e, st') => h e st'
    end.

Declare Scope py_scope.
Delimit Scope py_scope with py.
Notation "x <- m ;; k" := (bind m (fun x => k))
  (at level 61, m at next level, right associativity) : py_scope.
Notation "m ;; k" := (bind m (fun _ => k))
  (at level 61, right associativity) : py_scope.

(** [bool(x)] for a field that holds [None] or a string. *)
Definition truthy (o : option str) : bool :=
  match o with
  | Some (_ :: _) => true
  | _ => false
  end.

(** [x in ["A", "B", ...]] for such a field. *)
Definition in_strs (o : option str) (l : list str) : bool :=
  match o with
  | Some s => existsb (str_eqb s) l
  | None => false
  end.

(* ================================================================== *)
(** * whatsapp_templates.py *)
(* ================================================================== *)

Module Templates.

Local Open Scope N_scope.

(** ** sanitize_template_name *)

(** [re.sub(pattern+, r, s)] for a one-character class [p]: each maximal
    run of characters of the class becomes one [r]. *)
Fixpoint sub_runs_from (in_run : bool) (p : char -> bool) (r : char) (s : str) : str :=
  match s with
  | [] => []
  | c :: t =>
      if p c then
        if in_run then sub_runs_from true p r t
        else r :: sub_runs_from true p r t
      else c :: sub_runs_from false p r t
  end.

Definition sub_runs (p : char -> bool) (r : char) (s : str) : str :=
  sub_runs_from false p r s.

(** The class [[\s\-\.]] *)
Definition is_separator (c : char) : bool :=
  isspace c || (c =? HYPHEN) || (c =? DOT).

(** The class [[a-z0-9_]] *)
Definition is_word (c : char) : bool :=
  is_az c || is_09 c || (c =? UNDERSCORE).

(** The class [[a-z0-9]] *)
Definition is_alnum (c : char) : bool := is_az c || is_09 c.

Definition is_underscore (c : char) : bool := c =? UNDERSCORE.

(** The name after the four substitutions and [strip('_')]. *)
Definition cleaned_name (U : unicode_db) (name : str) : str :=
  let sanitized := lower U name in
  let sanitized := sub_runs is_separator UNDERSCORE sanitized in
  let sanitized := filter is_word sanitized in
  let sanitized := sub_runs is_underscore UNDERSCORE sanitized in
  strip_by is_underscore sanitized.

Definition sanitize_template_name (U : unicode_db) (name : str) : str :=
  if negb (nonempty name) then []
  else
    let sanitized := cleaned_name U name in
    let sanitized :=
      match sanitized with
      | c :: _ => if isdigit U c then UNDERSCORE :: sanitized else sanitized
      | [] => sanitized
      end in
    if negb (nonempty sanitized)
    then lit "template_" ++ firstn 20 (filter is_alnum (lower U name))
    else sanitized.

(** [re.match(r'^[a-z][a-z0-9_]*$', s)]: [$] also matches just before a
    final newline. *)
Definition matches_name_pattern (s : str) : bool :=
  match s with
  | [] => false
  | c :: t =>
      is_az c &&
      (forallb is_word t
       || match rev t with
          | l :: r => (l =? NL) && forallb is_word r
          | [] => false
          end)
  end.

(** ** get_parameter_count *)

(** The longest prefix of decimal digits, and what follows it. *)
Fixpoint take_decimals (U : unicode_db) (s : str) : str * str :=
  match s with
  | [] => ([], [])
  | c :: t =>
      if is_decimal U c then
        let (ds, rest) := take_decimals U t in (c :: ds, rest)
      else ([], s)
  end.

(** The pattern [\{\{(\d+)\}\}] matched at the start of [s]: the group.
    [\d+] is greedy, and giving digits back cannot help, because what
    follows a shorter run of digits is a digit and not a brace. *)
Definition match_placeholder (U : unicode_db) (s : str) : option str :=
  match s with
  | a :: b :: rest =>
      if (a =? LBRACE) && (b =? LBRACE) then
        match take_decimals U rest with
        | (d :: ds, x :: y :: _) =>
            if (x =? RBRACE) && (y =? RBRACE) then Some (d :: ds) else None
        | _ => None
        end
      else None
  | _ => None
  end.

(** [re.findall]: matches are searched from left to right and do not
    overlap; [skip] characters still belong to the last match. *)
Fixpoint findall_from (U : unicode_db) (skip : nat) (s : str) : list str :=
  match s with
  | [] => []
  | _ :: t =>
      match skip with
      | S k => findall_from U k t
      | O =>
          match match_placeholder U s with
          | Some ds => ds :: findall_from U (3 + List.length ds) t
          | None => findall_from U 0 t
          end
      end
  end.

Definition findall_placeholders (U : unicode_db) (s : str) : list str :=
  findall_from U 0 s.

(** [int(m)] for a string of decimal digits. *)
Definition int_of_digits (U : unicode_db) (ds : str) : N :=
  fold_left
    (fun acc c => acc * 10 + match decimal U c with Some d => d | None => 0 end)
    ds 0.

(** [max(...)] of non-negative numbers. *)
Definition max_of (l : list N) : N := fold_right N.max 0 l.

Definition get_parameter_count (U : unicode_db) (template : option str) : N :=
  if negb (truthy template) then 0
  else
    match template with
    | None => 0
    | Some text =>
        let matches := findall_placeholders U text in
        match matches with
        | [] => 0
        | _ => max_of (map (int_of_digits U) matches)
        end
    end.

(** Vocabulary of the specification: [s] starts with the placeholder
    [{{ds}}], and [text] holds a placeholder [{{n}}] somewhere. *)
Definition placeholder_here (U : unicode_db) (s ds : str) : Prop :=
  ds <> [] /\ forallb (is_decimal U) ds = true /\
  exists post, s = LBRACE :: LBRACE :: ds ++ RBRACE :: RBRACE :: post.

Definition placeholder_in (U : unicode_db) (text : str) (n : N) : Prop :=
  exists pre ds post,
    text = pre ++ LBRACE :: LBRACE :: ds ++ RBRACE :: RBRACE :: post /\
    ds <> [] /\ forallb (is_decimal U) ds = true /\
    int_of_digits U ds = n.

(** Vocabulary of the specification, independent of [int_of_digits]: the
    number that a string of ASCII digits writes, as the Standard Library
    reads decimal numbers ([N.of_uint]); and a text that holds the
    placeholder [{{ds}}]. *)
Fixpoint as_uint (ds : str) : Decimal.uint :=
  match ds with
  | [] => Decimal.Nil
  | c :: t =>
      match c with
      | 48 => Decimal.D0 (as_uint t)
      | 49 => Decimal.D1 (as_uint t)
      | 50 => Decimal.D2 (as_uint t)
      | 51 => Decimal.D3 (as_uint t)
      | 52 => Decimal.D4 (as_uint t)
      | 53 => Decimal.D5 (as_uint t)
      | 54 => Decimal.D6 (as_uint t)
      | 55 => Decimal.D7 (as_uint t)
      | 56 => Decimal.D8 (as_uint t)
      | 57 => Decimal.D9 (as_uint t)
      | _ => as_uint t
      end
  end.

Definition decimal_value (ds : str) : N := N.of_uint (as_uint ds).

Definition holds_placeholder (text ds : str) : Prop :=
  exists pre post,
    text = pre ++ LBRACE :: LBRACE :: ds ++ RBRACE :: RBRACE :: post.

(** ** _parse_sample_values *)

(** What [json.loads] returned: a list, or something else. *)
Inductive parsed :=
| ParsedList (items : list pyvalue)
| ParsedOther.

(** [json.loads]: [None] stands for [JSONDecodeError] or [ValueError]. *)
Definition json_decoder := str -> option parsed.

(** [[x.strip() for x in pieces if x.strip()]] *)
Definition stripped_nonempty (pieces : list str) : list str :=
  filter nonempty (map strip pieces).

Definition _parse_sample_values (json_loads : json_decoder)
    (sample_values_str : option str) (expected_count : option N) : list str :=
  match sample_values_str with
  | None => []
  | Some raw =>
      if negb (nonempty raw) || negb (nonempty (strip raw)) then []
      else
        let s := strip raw in
        let from_json :=
          if startswith LBRACKET s && endswith RBRACKET s then
            match json_loads s with
            | Some (ParsedList items) =>
                Some (stripped_nonempty (map py_str items))
            | _ => None
            end
          else None in
        match from_json with
        | Some l => l
        | None =>
            let from_pipes :=
              if contains PIPE s then
                let sample_list := stripped_nonempty (split PIPE s) in
                match expected_count with
                | None => Some sample_list
                | Some n =>
                    if N.of_nat (List.length sample_list) =? n
                    then Some sample_list else None
                end
              else None in
            match from_pipes with
            | Some l => l
            | None => stripped_nonempty (split COMMA s)
            end
        end
  end.

(** ** The template document and validate *)

(** The fields of a WhatsApp Templates document that [validate] reads or
    writes; a field holds [None] or a string.  [is_new] is
    [self.is_new()], [provider_id] is [self.id]. *)
Record template_doc := {
  is_new : bool;
  whatsapp_account : option str;
  language : option str;
  language_code : option str;
  template_name : option str;
  actual_name : option str;
  header_type : option str;
  sample : option str;
  template : option str;
  category : option str;
  header : option str;
  footer : option str;
  sample_values : option str;
  provider_id : option str;
  status : option str
}.

Definition with_whatsapp_account (v : option str) (d : template_doc) :=
  {| is_new := is_new d; whatsapp_account := v; language := language d;
     language_code := language_code d; template_name := template_name d;
     actual_name := actual_name d; header_type := header_type d;
     sample := sample d; template := template d; category := category d;
     header := header d; footer := footer d;
     sample_values := sample_values d; provider_id := provider_id d;
     status := status d |}.

Definition with_language_code (v : option str) (d : template_doc) :=
  {| is_new := is_new d; whatsapp_account := whatsapp_account d;
     language := language d;
     language_code := v; template_name := template_name d;
     actual_name := actual_name d; header_type := header_type d;
     sample := sample d; template := template d; category := category d;
     header := header d; footer := footer d;
     sample_values := sample_values d; provider_id := provider_id d;
     status := status d |}.

Definition with_actual_name (v : option str) (d : template_doc) :=
  {| is_new := is_new d; whatsapp_account := whatsapp_account d;
     language := language d;
     language_code := language_code d; template_name := template_name d;
     actual_name := v; header_type := header_type d;
     sample := sample d; template := template d; category := category d;
     header := header d; footer := footer d;
     sample_values := sample_values d; provider_id := provider_id d;
     status := status d |}.

(** The calls to the provider that [validate] can issue. *)
Inductive remote_call :=
| UploadSession                       (* get_session_id: POST .../uploads *)
| UploadMedia                         (* get_media_id: POST the file *)
| UpdateTemplate (id : option str).   (* update_template: POST .../<id> *)

(** A method that calls the provider completes, or raises before the
    request is sent (settings, file access), or raises after it (the
    request failed, the answer lacks a key). *)
Inductive io_outcome :=
| Completes
| FailsBeforeCall (e : exn)
| FailsAfterCall (e : exn).

(** What [validate] obtains from the framework and the provider. *)
Record environment := {
  default_account : option str;      (* get_whatsapp_account(), its name *)
  language_changed : bool;           (* self.has_value_changed("language") *)
  language_lookup : option str;      (* frappe.db.get_value("Language", ...) *)
  get_session_id_outcome : io_outcome;
  get_media_id_outcome : io_outcome;
  update_template_outcome : io_outcome
}.

Record vstate := {
  doc : template_doc;
  remote_calls : list remote_call;       (* oldest first *)
  error_log : list (str * exn)           (* frappe.log_error: title, error *)
}.

Definition initial (d : template_doc) : vstate :=
  {| doc := d; remote_calls := []; error_log := [] |}.

Definition update_doc (f : template_doc -> template_doc) (st : vstate) :=
  {| doc := f (doc st); remote_calls := remote_calls st;
     error_log := error_log st |}.

Definition add_call (c : remote_call) (st : vstate) :=
  {| doc := doc st; remote_calls := remote_calls st ++ [c];
     error_log := error_log st |}.

Definition log_error (title : str) (e : exn) (st : vstate) :=
  {| doc := doc st; remote_calls := remote_calls st;
     error_log := error_log st ++ [(title, e)] |}.

Local Open Scope py_scope.

(** [frappe.throw(..., title=...)]: the error carries the title, or the
    message when the call gives no title. *)
Definition throw {A} (title : string) : M vstate A :=
  raise (ValidationError (lit title)).

Definition remote (c : remote_call) (o : io_outcome) : M vstate unit :=
  match o with
  | Completes => modify (add_call c)
  | FailsBeforeCall e => raise e
  | FailsAfterCall e => modify (add_call c) ;; raise e
  end.

Definition set_whatsapp_account (env : environment) : M vstate unit :=
  d <- gets doc ;;
  if negb (truthy (whatsapp_account d)) then
    match default_account env with
    | None => throw "Please set a default outgoing WhatsApp Account or Select available WhatsApp Account"
    | Some name => modify (update_doc (with_whatsapp_account (Some name)))
    end
  else ret tt.

Definition set_language_code (env : environment) : M vstate unit :=
  d <- gets doc ;;
  when_ (negb (truthy (language_code d)) || language_changed env)
    (let lang_code :=
       match language_lookup env with
       | Some (c :: t) => c :: t
       | _ => lit "en"
       end in
     modify (update_doc
       (with_language_code (Some (replace_char HYPHEN UNDERSCORE lang_code))))).

Definition check_template_name (U : unicode_db) : M vstate unit :=
  d <- gets doc ;;
  match template_name d with
  | Some (c :: t) =>
      let name := c :: t in
      let sanitized := sanitize_template_name U name in
      let plain := replace_char SP UNDERSCORE (lower U name) in
      when_ (negb (str_eqb sanitized plain)
             && (negb (truthy (actual_name d))
                 || match actual_name d with
                    | Some a => str_eqb a plain
                    | None => false
                    end))
        (modify (update_doc (with_actual_name (Some sanitized)))) ;;
      when_ (negb (matches_name_pattern sanitized))
        (throw "Invalid Template Name")
  | _ => ret tt
  end.

Definition upload_sample (env : environment) : M vstate unit :=
  d <- gets doc ;;
  when_ (in_strs (header_type d) [lit "IMAGE"; lit "DOCUMENT"] && truthy (sample d))
    (remote UploadSession (get_session_id_outcome env) ;;
     remote UploadMedia (get_media_id_outcome env)).

Definition len (o : option str) : N :=
  match o with
  | Some s => N.of_nat (List.length s)
  | None => 0
  end.

Definition check_body_limit : M vstate unit :=
  d <- gets doc ;;
  when_ (truthy (template d))
    (let BODY_LIMIT :=
       if in_strs (category d) [lit "AUTHENTICATION"; lit "OTP"] then 1024
       else if in_strs (header_type d) [lit "IMAGE"; lit "VIDEO"; lit "DOCUMENT"] then 1024
       else 4096 in
     when_ (BODY_LIMIT <? len (template d))
       (throw "Character Limit Exceeded")).

Definition check_header_limit : M vstate unit :=
  d <- gets doc ;;
  when_ (in_strs (header_type d) [lit "TEXT"] && truthy (header d))
    (when_ (60 <? len (header d)) (throw "Character Limit Exceeded")).

Definition check_footer_limit : M vstate unit :=
  d <- gets doc ;;
  when_ (truthy (footer d))
    (when_ (60 <? len (footer d)) (throw "Character Limit Exceeded")).

(** Lines 102-125: the sample values of a template with parameters. *)
Definition check_sample_values (U : unicode_db) (json_loads : json_decoder)
    : M vstate unit :=
  d <- gets doc ;;
  when_ (truthy (template d))
    (let param_count := get_parameter_count U (template d) in
     when_ (0 <? param_count)
       (if negb (truthy (sample_values d)) then
          throw "Sample Values Required"
        else
          let sample_list :=
            _parse_sample_values json_loads (sample_values d) (Some param_count) in
          when_ (negb (N.of_nat (List.length sample_list) =? param_count))
            (throw "Sample Values Mismatch"))).

(** [update_template]: the request to the provider, and what it raises. *)
Definition update_template (env : environment) : M vstate unit :=
  d <- gets doc ;;
  remote (UpdateTemplate (provider_id d)) (update_template_outcome env).

(** Lines 127-141: the update is tried only for a saved template that has
    an id and whose status is not one of the three. *)
Definition update_if_allowed (U : unicode_db) (env : environment)
    : M vstate unit :=
  d <- gets doc ;;
  when_ (negb (is_new d) && truthy (provider_id d))
    (if truthy (status d)
        && in_strs (option_map (upper U) (status d))
             [lit "PENDING"; lit "APPROVED"; lit "REJECTED"]
     then ret tt
     else
       try_except (update_template env)
         (fun e => modify (log_error (lit "WhatsApp Template Update") e))).

Definition validate (U : unicode_db) (json_loads : json_decoder)
    (env : environment) : M vstate unit :=
  set_whatsapp_account env ;;
  set_language_code env ;;
  check_template_name U ;;
  upload_sample env ;;
  check_body_limit ;;
  check_header_limit ;;
  check_footer_limit ;;
  check_sample_values U json_loads ;;
  update_if_allowed U env.

(** [m] raises from the state [st]: the save is aborted. *)
Definition aborts {A} (m : M vstate A) (st : vstate) : Prop :=
  exists e st', m st = (Raise e, st').

(** What the steps of [validate] before the update leave as it was: the
    body, the sample values, the provider id, the status and the
    saved-or-new flag; and they call the provider only to upload. *)
Definition frame (st st' : vstate) : Prop :=
  template (doc st') = template (doc st)
  /\ sample_values (doc st') = sample_values (doc st)
  /\ provider_id (doc st') = provider_id (doc st)
  /\ status (doc st') = status (doc st)
  /\ is_new (doc st') = is_new (doc st)
  /\ forall c, In c (remote_calls st') ->
       In c (remote_calls st) \/ c = UploadSession \/ c = UploadMedia.

Definition stable {A} (m : M vstate A) : Prop :=
  forall st, frame st (snd (m st)).

(** Documents and an environment for running [validate] on examples: a
    template named "greeting" of the account "Main", and a framework in
    which every call completes. *)
Definition example_doc (new : bool) (body : str) (samples id st : option str)
    : template_doc :=
  {| is_new := new; whatsapp_account := Some (lit "Main");
     language := Some (lit "English"); language_code := Some (lit "en");
     template_name := Some (lit "greeting"); actual_name := None;
     header_type := None; sample := None; template := Some body;
     category := Some (lit "UTILITY"); header := None; footer := None;
     sample_values := samples; provider_id := id; status := st |}.

Definition example_env : environment :=
  {| default_account := Some (lit "Main"); language_changed := false;
     language_lookup := Some (lit "en");
     get_session_id_outcome := Completes;
     get_media_id_outcome := Completes;
     update_template_outcome := Completes |}.

(** Vocabulary of the specification: the stripped input is written as a
    JSON array, and [json.loads] gives the list [items] for it. *)
Definition decodes_to_list (json_loads : json_decoder) (s : str)
    (items : list pyvalue) : Prop :=
  startswith LBRACKET s = true /\ endswith RBRACKET s = true /\
  json_loads s = Some (ParsedList items).

(** A decoder for running the parser on examples: it reads the arrays of
    string literals that have no escape sequence, as [json.loads] does, and
    refuses every other text. *)
Inductive scan_state :=
| BeforeArray
| AfterOpen
| InString (acc : str)
| AfterString
| AfterComma
| Closed
| Failed.

Definition json_space (c : char) : bool :=
  (c =? SP) || (c =? TAB) || (c =? NL) || (c =? CR).

Definition scan_step (st : scan_state * list str) (c : char)
    : scan_state * list str :=
  let (state, items) := st in
  match state with
  | BeforeArray =>
      if json_space c then st
      else if c =? LBRACKET then (AfterOpen, items) else (Failed, items)
  | AfterOpen =>
      if json_space c then st
      else if c =? RBRACKET then (Closed, items)
      else if c =? QUOTE then (InString [], items) else (Failed, items)
  | InString acc =>
      if c =? QUOTE then (AfterString, items ++ [rev acc])
      else if (c =? 92) || (c <? 32) then (Failed, items)
      else (InString (c :: acc), items)
  | AfterString =>
      if json_space c then st
      else if c =? COMMA then (AfterComma, items)
      else if c =? RBRACKET then (Closed, items) else (Failed, items)
  | AfterComma =>
      if json_space c then st
      else if c =? QUOTE then (InString [], items) else (Failed, items)
  | Closed => if json_space c then st else (Failed, items)
  | Failed => st
  end.

Definition json_loads_flat : json_decoder :=
  fun s =>
    match fold_left scan_step s (BeforeArray, []) with
    | (Closed, items) => Some (ParsedList (map PStr items))
    | _ => None
    end.

(** [json.dumps] of a list of such strings. *)
Fixpoint json_items (l : list str) : str :=
  match l with
  | [] => []
  | [x] => QUOTE :: x ++ [QUOTE]
  | x :: rest => QUOTE :: x ++ [QUOTE; COMMA; SP] ++ json_items rest
  end.

Definition json_array (l : list str) : str :=
  LBRACKET :: json_items l ++ [RBRACKET].

End Templates.

(* ================================================================== *)
(** * Decoded JSON, as Python handles it *)
(* ================================================================== *)

Module Json.

(** A request body or a provider answer once decoded: [None], a bool, a
    number, a string, a list, or a dict with string keys (in order). *)
#[warnings="-register-all"]
Inductive json :=
| JNull
| JBool (b : bool)
| JNum (n : Z)
| JStr (s : str)
| JList (items : list json)
| JDict (fields : list (str * json)).

(** [bool(v)] *)
Definition json_truthy (v : json) : bool :=
  match v with
  | JNull => false
  | JBool b => b
  | JNum n => negb (Z.eqb n 0)
  | JStr s => nonempty s
  | JList l => match l with [] => false | _ => true end
  | JDict d => match d with [] => false | _ => true end
  end.

Fixpoint lookup (k : str) (d : list (str * json)) : option json :=
  match d with
  | [] => None
  | (k', v) :: rest => if str_eqb k' k then Some v else lookup k rest
  end.

(** [v[key]] for a string key. *)
Definition getitem (v : json) (key : string) : result json :=
  match v with
  | JDict d =>
      match lookup (lit key) d with
      | Some x => Ok x
      | None => Raise KeyError
      end
  | _ => Raise TypeError
  end.

(** [v[0]]: a dict has no key 0. *)
Definition getitem0 (v : json) : result json :=
  match v with
  | JDict _ => Raise KeyError
  | JList (x :: _) => Ok x
  | JList [] => Raise IndexError
  | JStr (c :: _) => Ok (JStr [c])
  | JStr [] => Raise IndexError
  | _ => Raise TypeError
  end.

(** [v.get(key, default)]: only a dict has [get]. *)
Definition get_or (v : json) (key : string) (default : json) : result json :=
  match v with
  | JDict d =>
      match lookup (lit key) d with
      | Some x => Ok x
      | None => Ok default
      end
  | _ => Raise AttributeError
  end.

(** [v.get(key)] *)
Definition get_key (v : json) (key : string) : result json :=
  get_or v key JNull.

(** [v[k]] and [v.get(k)] when the key [k] is itself a decoded value: a
    string is looked up, a list or a dict cannot be hashed, and no other
    value is a key of a decoded dict. *)
Definition getitem_dyn (v k : json) : result json :=
  match v with
  | JDict d =>
      match k with
      | JStr key =>
          match lookup key d with
          | Some x => Ok x
          | None => Raise KeyError
          end
      | JList _ | JDict _ => Raise TypeError
      | _ => Raise KeyError
      end
  | _ => Raise TypeError
  end.

Definition get_dyn (v k : json) : result json :=
  match v with
  | JDict d =>
      match k with
      | JStr key =>
          match lookup key d with
          | Some x => Ok x
          | None => Ok JNull
          end
      | JList _ | JDict _ => Raise TypeError
      | _ => Ok JNull
      end
  | _ => Raise AttributeError
  end.

(** [a or b] *)
Definition or_else (a b : json) : json := if json_truthy a then a else b.

(** [for x in v]: the items of a list, the keys of a dict, the characters
    of a string. *)
Definition iterate (v : json) : result (list json) :=
  match v with
  | JList l => Ok l
  | JDict d => Ok (map (fun kv => JStr (fst kv)) d)
  | JStr s => Ok (map (fun c => JStr [c]) s)
  | _ => Raise TypeError
  end.

(** [v == "text"] *)
Definition is_str (v : json) (s : string) : bool :=
  match v with
  | JStr x => str_eqb x (lit s)
  | _ => false
  end.

Fixpoint is_prefix (p s : str) : bool :=
  match p, s with
  | [], _ => true
  | a :: p', b :: s' => N.eqb a b && is_prefix p' s'
  | _ :: _, [] => false
  end.

Fixpoint is_infix (p s : str) : bool :=
  is_prefix p s ||
  match s with
  | [] => false
  | _ :: t => is_infix p t
  end.

(** ["key" in v]: a key of a dict, an item of a list, a part of a
    string. *)
Definition contains_str (key : string) (v : json) : result bool :=
  match v with
  | JDict d => Ok (match lookup (lit key) d with Some _ => true | None => false end)
  | JList l => Ok (existsb (fun x => is_str x key) l)
  | JStr s => Ok (is_infix (lit key) s)
  | _ => Raise TypeError
  end.

(** Results in sequence, outside any state. *)
Definition and_then {A B} (r : result A) (f : A -> result B) : result B :=
  match r with
  | Ok a => f a
  | Raise e => Raise e
  end.

End Json.

Notation "x <~ r ;; k" := (Json.and_then r (fun x => k))
  (at level 61, r at next level, right associativity) : py_scope.

(* ================================================================== *)
(** * utils/webhook.py *)
(* ================================================================== *)

Module Webhook.
Import Json.
Local Open Scope string_scope.
Local Open Scope list_scope.
Local Open Scope py_scope.

(** ** get *)

(** [werkzeug.wrappers.Response(body, status=...)] *)
Record response := {
  body : option str;
  status_code : N
}.

(** The query parameters: [frappe.form_dict.get(name)]. *)
Fixpoint form_get (form : list (str * str)) (name : str) : option str :=
  match form with
  | [] => None
  | (k, v) :: rest => if str_eqb k name then Some v else form_get rest name
  end.

Definition option_str_eqb (a b : option str) : bool :=
  match a, b with
  | None, None => true
  | Some x, Some y => str_eqb x y
  | _, _ => false
  end.

(** [get_value] is [frappe.db.get_value('WhatsApp Account', name,
    'webhook_verify_token')]: the secret of the account of that name. *)
Definition get (form : list (str * str))
    (get_value : option str -> option str) : result response :=
  let hub_challenge := form_get form (lit "hub.challenge") in
  let verify_token := form_get form (lit "hub.verify_token") in
  let webhook_verify_token := get_value verify_token in
  if negb (truthy webhook_verify_token) then
    Raise (ValidationError (lit "No matching WhatsApp account"))
  else if negb (option_str_eqb (form_get form (lit "hub.verify_token"))
                  webhook_verify_token) then
    Raise (ValidationError (lit "Verify token does not match"))
  else Ok {| body := hub_challenge; status_code := 200 |}.

(** The stored WhatsApp Account documents, for running [get]: a document
    has a name and a [webhook_verify_token]. *)
Record account_row := {
  account_name : str;
  secret : option str
}.

(** [frappe.db.get_value('WhatsApp Account', name,
    'webhook_verify_token')] over these documents: the field of the
    document of that name, [None] when there is no such document. *)
Fixpoint secret_of_named (accounts : list account_row) (name : str)
    : option str :=
  match accounts with
  | [] => None
  | a :: rest =>
      if str_eqb (account_name a) name then secret a
      else secret_of_named rest name
  end.

Definition get_value (accounts : list account_row) (name : option str)
    : option str :=
  match name with
  | Some n => secret_of_named accounts n
  | None => None
  end.

(** The query of a verification request. *)
Definition verification (challenge token : str) : list (str * str) :=
  [(lit "hub.mode", lit "subscribe");
   (lit "hub.challenge", challenge);
   (lit "hub.verify_token", token)].

(** ** post *)

(** What the handler writes: documents inserted ([frappe.get_doc({...})
    .insert()], with their fields), error-log entries, and updates of
    existing rows. *)
Inductive record :=
| Insert (doctype : string) (fields : list (string * json))
| ErrorLog (title : string)
| AttachFile (file_name file_url : str)   (* the File document saved *)
| SetAttach (file_url : str)              (* message_doc.attach = ...; save() *)
| MessageStatus (name : str) (status conversation : json)
| TemplateStatusById (id : json) (status : str)
| TemplateStatusByName (name : json) (status : str)
| TemplateIdSet (name id : json).

Definition store := list record.   (* oldest first *)

Definition emit (r : record) : M store unit := modify (fun st => st ++ [r]).
Definition lift {A} (r : result A) : M store A := fun st => (r, st).

(** Fetching a media file from the provider (lines 116-128, the two
    [requests.get]): it raises, or one of the answers is not a 200, or the
    content is there and gets the file name [<hash>.<extension>]. *)
Inductive media_outcome :=
| MediaRaises (e : exn)
| MediaUnavailable
| MediaFetched (file_name : str).

(** What [update_template_status] finds for a template id and name. *)
Record template_rows := {
  exists_by_id : json -> bool;
  exists_by_name : json -> bool;
  id_missing : json -> bool       (* the template of that name has no id *)
}.

(** The framework and the provider, as [post] sees them. *)
Record environment := {
  get_whatsapp_account : json -> option str;   (* the account's name *)
  get_password : result unit;                  (* the account's token *)
  insert_message : result unit;       (* the insert() of a WhatsApp Message *)
  fetch_media : json -> media_outcome;
  save_file : str -> result str;      (* the File document's save(): its file_url *)
  save_message : result unit;         (* message_doc.save() *)
  message_name : json -> option str;  (* WhatsApp Message of a message id *)
  templates : template_rows;
  unicode : unicode_db;
  render : json -> str                (* str(v) for a value that is no string *)
}.

Definition only_key_error (e : exn) : bool :=
  match e with KeyError => true | _ => false end.

Definition structure_error (e : exn) : bool :=
  match e with KeyError | IndexError | TypeError => true | _ => false end.

(** Line 46 *)
Definition read_messages (data : json) : result json :=
  entry <~ getitem data "entry" ;;
  entry0 <~ getitem0 entry ;;
  changes <~ getitem entry0 "changes" ;;
  change0 <~ getitem0 changes ;;
  value <~ getitem change0 "value" ;;
  get_or value "messages" (JList []).

(** Line 47 *)
Definition read_phone_id (data : json) : result json :=
  entry <~ get_or data "entry" (JList [JDict []]) ;;
  entry0 <~ getitem0 entry ;;
  changes <~ get_or entry0 "changes" (JList [JDict []]) ;;
  change0 <~ getitem0 changes ;;
  value <~ get_or change0 "value" (JDict []) ;;
  metadata <~ get_or value "metadata" (JDict []) ;;
  get_key metadata "phone_number_id".

(** Line 49 *)
Definition read_messages_alternate (data : json) : result json :=
  entry <~ getitem data "entry" ;;
  changes <~ getitem entry "changes" ;;
  change0 <~ getitem0 changes ;;
  value <~ getitem change0 "value" ;;
  get_or value "messages" (JList []).

(** Lines 43-49: the messages and the phone id; [except KeyError] alone
    leads to the alternate shape, read without a guard. *)
Definition read_envelope (data : json) : result (json * json) :=
  match (messages <~ read_messages data ;;
         phone_id <~ read_phone_id data ;;
         Ok (messages, phone_id)) with
  | Ok found => Ok found
  | Raise e =>
      if only_key_error e then
        messages <~ read_messages_alternate data ;;
        Ok (messages, JNull)
      else Raise e
  end.

(** Lines 50-58: the generator stops at the first contact; [next] turns
    only its exhaustion into [None]. *)
Definition contact_name (contact : json) : result json :=
  profile <~ get_or contact "profile" (JDict []) ;;
  get_key profile "name".

Fixpoint scan_changes (changes : list json) : option (result json) :=
  match changes with
  | [] => None
  | change :: rest =>
      match (value <~ get_or change "value" (JDict []) ;;
             contacts <~ get_or value "contacts" (JList []) ;;
             iterate contacts) with
      | Raise e => Some (Raise e)
      | Ok (contact :: _) => Some (contact_name contact)
      | Ok [] => scan_changes rest
      end
  end.

Fixpoint scan_entries (entries : list json) : option (result json) :=
  match entries with
  | [] => None
  | entry :: rest =>
      match (changes <~ get_or entry "changes" (JList []) ;;
             iterate changes) with
      | Raise e => Some (Raise e)
      | Ok changes =>
          match scan_changes changes with
          | Some found => Some found
          | None => scan_entries rest
          end
      end
  end.

Definition sender_profile_name (data : json) : result json :=
  entries <~ (entry <~ get_or data "entry" (JList []) ;; iterate entry) ;;
  match scan_entries entries with
  | Some found => found
  | None => Ok JNull
  end.

(** Lines 65-180: one incoming message.  Inserting its document can
    raise, and then stores nothing. *)
Definition incoming (env : environment) (fields : list (string * json))
    : M store unit :=
  lift (insert_message env) ;;
  emit (Insert "WhatsApp Message"
          (("doctype", JStr (lit "WhatsApp Message"))
           :: ("type", JStr (lit "Incoming")) :: fields)).

Definition is_media (message_type : json) : bool :=
  is_str message_type "image" || is_str message_type "audio"
  || is_str message_type "video" || is_str message_type "document".

(** Lines 107-156, a media message: the message document is inserted
    first; the file is saved and attached to it afterwards, and each of
    these two saves can raise. *)
Definition handle_media (env : environment) (account : str)
    (sender : json) (message message_type : json) (is_reply : bool)
    (reply_to_message_id : json) : M store unit :=
  lift (get_password env) ;;
  media_id <- lift (m <~ getitem_dyn message message_type ;; getitem m "id") ;;
  match fetch_media env media_id with
  | MediaRaises e => raise e
  | MediaUnavailable => ret tt
  | MediaFetched file_name =>
      from <- lift (getitem message "from") ;;
      id <- lift (getitem message "id") ;;
      caption <- lift (m <~ getitem_dyn message message_type ;;
                       get_or m "caption" (JStr (lit "/files/" ++ file_name))) ;;
      incoming env [("from", from); ("message_id", id);
                ("reply_to_message_id", reply_to_message_id);
                ("is_reply", JBool is_reply); ("message", caption);
                ("content_type", message_type);
                ("profile_name", sender); ("whatsapp_account", JStr account)] ;;
      file_url <- lift (save_file env file_name) ;;
      emit (AttachFile file_name file_url) ;;
      lift (save_message env) ;;
      emit (SetAttach file_url)
  end.

Definition handle_message (env : environment) (account : str)
    (sender : json) (message : json) : M store unit :=
  message_type <- lift (getitem message "type") ;;
  is_reply <- lift (context <~ get_key message "context" ;;
                    if json_truthy context then
                      forwarded <~ contains_str "forwarded" context ;;
                      Ok (negb forwarded)
                    else Ok false) ;;
  reply_to_message_id <-
    lift (if is_reply then
            context <~ getitem message "context" ;; getitem context "id"
          else Ok JNull) ;;
  if is_str message_type "text" then
    from <- lift (getitem message "from") ;;
    text <- lift (t <~ getitem message "text" ;; getitem t "body") ;;
    id <- lift (getitem message "id") ;;
    incoming env [("from", from); ("message", text); ("message_id", id);
              ("reply_to_message_id", reply_to_message_id);
              ("is_reply", JBool is_reply); ("content_type", message_type);
              ("profile_name", sender); ("whatsapp_account", JStr account)]
  else if is_str message_type "reaction" then
    from <- lift (getitem message "from") ;;
    emoji <- lift (r <~ getitem message "reaction" ;; getitem r "emoji") ;;
    target <- lift (r <~ getitem message "reaction" ;; getitem r "message_id") ;;
    id <- lift (getitem message "id") ;;
    incoming env [("from", from); ("message", emoji);
              ("reply_to_message_id", target); ("message_id", id);
              ("content_type", JStr (lit "reaction"));
              ("profile_name", sender); ("whatsapp_account", JStr account)]
  else if is_str message_type "interactive" then
    from <- lift (getitem message "from") ;;
    flow <- lift (i <~ getitem message "interactive" ;;
                  n <~ getitem i "nfm_reply" ;; getitem n "response_json") ;;
    id <- lift (getitem message "id") ;;
    incoming env [("from", from); ("message", flow); ("message_id", id);
              ("reply_to_message_id", reply_to_message_id);
              ("is_reply", JBool is_reply);
              ("content_type", JStr (lit "flow"));
              ("profile_name", sender); ("whatsapp_account", JStr account)]
  else if is_media message_type then
    handle_media env account sender message message_type is_reply
      reply_to_message_id
  else if is_str message_type "button" then
    from <- lift (getitem message "from") ;;
    text <- lift (b <~ getitem message "button" ;; getitem b "text") ;;
    id <- lift (getitem message "id") ;;
    incoming env [("from", from); ("message", text); ("message_id", id);
              ("reply_to_message_id", reply_to_message_id);
              ("is_reply", JBool is_reply); ("content_type", message_type);
              ("profile_name", sender); ("whatsapp_account", JStr account)]
  else
    from <- lift (getitem message "from") ;;
    id <- lift (getitem message "id") ;;
    content <- lift (m <~ getitem_dyn message message_type ;;
                     get_dyn m message_type) ;;
    incoming env [("from", from); ("message_id", id); ("message", content);
              ("content_type", message_type);
              ("profile_name", sender); ("whatsapp_account", JStr account)].

Fixpoint for_each {A} (f : A -> M store unit) (l : list A) : M store unit :=
  match l with
  | [] => ret tt
  | x :: rest => f x ;; for_each f rest
  end.

(** Lines 224-299: everything happens inside [try ... except Exception],
    which logs. *)
Definition update_template_status (env : environment) (data : json)
    : M store unit :=
  try_except
    (event <- lift (a <~ get_key data "event" ;; b <~ get_key data "status" ;;
                    Ok (or_else a b)) ;;
     message_template_id <-
       lift (a <~ get_key data "message_template_id" ;; b <~ get_key data "id" ;;
             Ok (or_else a b)) ;;
     if negb (json_truthy event) then
       emit (ErrorLog "Template status update error")
     else if negb (json_truthy message_template_id) then
       emit (ErrorLog "Template status update error")
     else
       let status :=
         upper (unicode env)
           (match event with JStr s => s | _ => render env event end) in
       if exists_by_id (templates env) message_template_id then
         emit (TemplateStatusById message_template_id status)
       else
         template_name <- lift (get_key data "message_template_name") ;;
         if json_truthy template_name
            && exists_by_name (templates env) template_name then
           when_ (id_missing (templates env) template_name)
             (emit (TemplateIdSet template_name message_template_id)) ;;
           emit (TemplateStatusByName template_name status)
         else emit (ErrorLog "Template status update error"))
    (fun _ => emit (ErrorLog "Template status update error")).

(** Lines 301-312: no guard. *)
Definition update_message_status (env : environment) (data : json)
    : M store unit :=
  id <- lift (s <~ getitem data "statuses" ;; s0 <~ getitem0 s ;;
              getitem s0 "id") ;;
  status <- lift (s <~ getitem data "statuses" ;; s0 <~ getitem0 s ;;
                  getitem s0 "status") ;;
  conversation <-
    lift (s <~ getitem data "statuses" ;; s0 <~ getitem0 s ;;
          c <~ get_or s0 "conversation" (JDict []) ;; get_key c "id") ;;
  match message_name env id with
  | None => raise (OtherError (lit "WhatsApp Message not found"))
  | Some name =>
      emit (MessageStatus name status
              (if json_truthy conversation then conversation else JNull))
  end.

(** Lines 196-222 *)
Definition update_status (env : environment) (data : json) : M store unit :=
  if negb (json_truthy data) then ret tt
  else
    field <- lift (get_key data "field") ;;
    if is_str field "message_template_status_update" then
      value <- lift (get_key data "value") ;;
      if json_truthy value then update_template_status env value
      else emit (ErrorLog "Webhook template status error")
    else if is_str field "messages" then
      value <- lift (get_key data "value") ;;
      if json_truthy value then update_message_status env value
      else emit (ErrorLog "Webhook message status error")
    else ret tt.

(** Lines 183-193: here the three errors of a wrong shape are caught, a
    second time for the alternate shape, and then logged. *)
Definition read_changes (data : json) : result json :=
  entry <~ getitem data "entry" ;;
  entry0 <~ getitem0 entry ;;
  changes <~ getitem entry0 "changes" ;;
  getitem0 changes.

Definition read_changes_alternate (data : json) : result json :=
  entry <~ getitem data "entry" ;;
  changes <~ getitem entry "changes" ;;
  getitem0 changes.

Definition handle_changes (env : environment) (data : json) : M store unit :=
  match read_changes data with
  | Ok changes => when_ (json_truthy changes) (update_status env changes)
  | Raise e =>
      if structure_error e then
        match read_changes_alternate data with
        | Ok changes => when_ (json_truthy changes) (update_status env changes)
        | Raise e' =>
            if structure_error e' then emit (ErrorLog "Webhook structure error")
            else raise e'
        end
      else raise e
  end.

Definition post (env : environment) (data : json) : M store unit :=
  emit (Insert "WhatsApp Notification Log"
          [("doctype", JStr (lit "WhatsApp Notification Log"));
           ("template", JStr (lit "Webhook")); ("meta_data", data)]) ;;
  found <- lift (read_envelope data) ;;
  let (messages, phone_id) := found : json * json in
  sender <- lift (sender_profile_name data) ;;
  match (if json_truthy phone_id then get_whatsapp_account env phone_id
         else None) with
  | None => ret tt
  | Some account =>
      if json_truthy messages then
        items <- lift (iterate messages) ;;
        for_each (handle_message env account sender) items
      else handle_changes env data
  end.

(** Payloads for the examples: a status notification, and the same
    without its [statuses]. *)
Definition envelope (value : json) : json :=
  JDict [(lit "object", JStr (lit "whatsapp_business_account"));
         (lit "entry",
          JList [JDict [(lit "id", JStr (lit "1029"));
                        (lit "changes",
                         JList [JDict [(lit "field", JStr (lit "messages"));
                                       (lit "value", value)]])]])].

Definition metadata : str * json :=
  (lit "metadata", JDict [(lit "phone_number_id", JStr (lit "555"))]).

Definition raw_log (data : json) : record :=
  Insert "WhatsApp Notification Log"
    [("doctype", JStr (lit "WhatsApp Notification Log"));
     ("template", JStr (lit "Webhook")); ("meta_data", data)].

(** An environment for examples: one account, for the phone id "555". *)
Definition example_env : environment :=
  {| get_whatsapp_account :=
       fun phone_id => if is_str phone_id "555" then Some (lit "Main") else None;
     get_password := Ok tt;
     insert_message := Ok tt;
     fetch_media := fun _ => MediaUnavailable;
     save_file := fun file_name => Ok (lit "/files/" ++ file_name);
     save_message := Ok tt;
     message_name := fun _ => Some (lit "MSG-0001");
     templates := {| exists_by_id := fun _ => true;
                     exists_by_name := fun _ => false;
                     id_missing := fun _ => false |};
     unicode := ascii_only;
     render := fun _ => [] |}.



End Webhook.

(* ================================================================== *)
(** * whatsapp_notification.py: notify *)
(* ================================================================== *)

Module Notify.
Import Json.
Local Open Scope string_scope.
Local Open Scope list_scope.
Local Open Scope py_scope.

(** The [requests] response kept in [frappe.flags.integration_request]:
    the code tests it ([if frappe.flags.integration_request:]) and reads
    its [json()], which raises when the body is no JSON.  Which responses
    test true is the HTTP library's matter; here it is a field.  In
    [requests] a response tests true when its status is below 400, so a
    response for which [raise_for_status] raises tests false. *)
Record http_response := {
  truth : bool;
  json_body : option json
}.

(** [make_post_request]: it stores the response and returns its decoded
    body; or the answer is no JSON, and it returns the text or [None]; or
    it raises, leaving some response, or none, in the flag. *)
Inductive post_outcome :=
| Answered (truth : bool) (body : json)
| AnsweredOther (r : http_response) (returned : option str)
| Failed (e : exn) (kept : option http_response).

Record account := {
  name : str;
  token : result str        (* get_password("token") *)
}.

(** The fields of the notification ([self]) that [notify] reads. *)
Record notification := {
  template : json;
  set_property_after_alert : option str;
  property_value : option str
}.

Record environment := {
  account_named : str -> option account;  (* frappe.get_doc; None: it raises *)
  default_outgoing : option account;      (* get_whatsapp_account('outgoing') *)
  make_post_request : post_outcome;
  save_message : result unit;             (* frappe.get_doc(new_doc).save() *)
  property_field : result (option bool);  (* meta.get_field: is it numeric? *)
  describe : exn -> str;                  (* str(e) *)
  render : json -> str                    (* str(v) *)
}.

Inductive record :=
| MessageDoc (fields : list (string * json))
| NotificationLog (template meta_data : json)
| Msgprint (text : string) (detail : json)
| SetValue (doctype docname : json) (fieldname value : str) (numeric : bool).

Record state := {
  records : list record;                       (* oldest first *)
  integration_request : option http_response;  (* frappe.flags *)
  content_type : option str                    (* self.content_type *)
}.

Definition emit (r : record) : M state unit :=
  modify (fun st =>
    {| records := records st ++ [r];
       integration_request := integration_request st;
       content_type := content_type st |}).

Definition set_flag (r : option http_response) : M state unit :=
  modify (fun st =>
    {| records := records st; integration_request := r;
       content_type := content_type st |}).

Definition set_content_type (v : option str) : M state unit :=
  modify (fun st =>
    {| records := records st;
       integration_request := integration_request st;
       content_type := v |}).

Definition lift {A} (r : result A) : M state A := fun st => (r, st).

Definition is_log (r : record) : bool :=
  match r with NotificationLog _ _ => true | _ => false end.

(** The outcome records written so far. *)
Definition logs (st : state) : list record := filter is_log (records st).

(** Steps that touch neither the flag nor the outcome records. *)
Definition quiet {A} (m : M state A) : Prop :=
  forall st, integration_request (snd (m st)) = integration_request st
             /\ logs (snd (m st)) = logs st.

(** Lines 407-413 *)
Definition resolve_account (env : environment) (template_account : option str)
    : result account :=
  match template_account with
  | Some (c :: t) =>
      match account_named env (c :: t) with
      | Some a => Ok a
      | None => Raise (OtherError (lit "DoesNotExistError"))
      end
  | _ =>
      match default_outgoing env with
      | Some a => Ok a
      | None =>
          Raise (ValidationError
                   (lit "Please set a default outgoing WhatsApp Account"))
      end
  end.

Definition call_provider (env : environment) : M state json :=
  match make_post_request env with
  | Answered t body =>
      set_flag (Some {| truth := t; json_body := Some body |}) ;; ret body
  | AnsweredOther r returned =>
      set_flag (Some r) ;;
      ret (match returned with Some text => JStr text | None => JNull end)
  | Failed e kept => set_flag kept ;; raise e
  end.

Fixpoint map_result {A B} (f : A -> result B) (l : list A) : result (list B) :=
  match l with
  | [] => Ok []
  | x :: rest => y <~ f x ;; ys <~ map_result f rest ;; Ok (y :: ys)
  end.

(** Lines 431-434; the list stands for its [json.dumps]. *)
Definition template_parameters (data : json) : result json :=
  tpl <~ getitem data "template" ;;
  components <~ getitem tpl "components" ;;
  if json_truthy components then
    tpl <~ getitem data "template" ;;
    components <~ getitem tpl "components" ;;
    body <~ getitem0 components ;;
    parameters <~ getitem body "parameters" ;;
    items <~ iterate parameters ;;
    texts <~ map_result (fun param => getitem param "text") items ;;
    Ok (JList texts)
  else Ok JNull.

Definition opt_json (o : option str) : json :=
  match o with Some s => JStr s | None => JNull end.

(** Lines 428-471: the [try] body after the request. *)
Definition record_message (env : environment) (self : notification)
    (data doc_data : json) (acc : account) (response : json) : M state unit :=
  ct <- gets content_type ;;
  when_ (negb (truthy ct)) (set_content_type (Some (lit "text"))) ;;
  parameters <- lift (template_parameters data) ;;
  message <- lift (getitem data "template") ;;
  to <- lift (getitem data "to") ;;
  message_id <- lift (m <~ getitem response "messages" ;;
                      m0 <~ getitem0 m ;; getitem m0 "id") ;;
  ct <- gets content_type ;;
  let new_doc :=
    [("doctype", JStr (lit "WhatsApp Message"));
     ("type", JStr (lit "Outgoing"));
     ("message", JStr (render env message)); ("to", to);
     ("message_type", JStr (lit "Template")); ("message_id", message_id);
     ("content_type", opt_json ct); ("use_template", JNum 1);
     ("template", template self); ("template_parameters", parameters);
     ("whatsapp_account", JStr (name acc))] in
  new_doc <-
    (if json_truthy doc_data then
       doctype <- lift (get_key doc_data "doctype") ;;
       docname <- lift (get_key doc_data "name") ;;
       ret (new_doc ++ [("reference_doctype", doctype);
                        ("reference_name", docname)])
     else ret new_doc) ;;
  lift (save_message env) ;;
  emit (MessageDoc new_doc) ;;
  when_ (json_truthy doc_data && truthy (set_property_after_alert self)
         && truthy (property_value self))
    (doctype <- lift (get_key doc_data "doctype") ;;
     docname <- lift (get_key doc_data "name") ;;
     when_ (json_truthy doctype && json_truthy docname)
       (df <- lift (property_field env) ;;
        match df, set_property_after_alert self, property_value self with
        | Some numeric, Some fieldname, Some value =>
            emit (SetValue doctype docname fieldname value numeric)
        | _, _, _ => ret tt
        end)) ;;
  emit (Msgprint "WhatsApp Message Triggered" JNull).

Definition attempt (env : environment) (self : notification)
    (data doc_data : json) (acc : account) : M state unit :=
  response <- call_provider env ;;
  record_message env self data doc_data acc response.

(** Lines 473-478: the handler up to [msgprint].  It returns how the
    handler ends and the value of [error_message] at that point, which
    the [finally] block reads. *)
Definition failure_message (env : environment)
    (flag : option http_response) (e : exn) : result unit * json :=
  let error_message := JStr (describe env e) in
  match flag with
  | Some r =>
      if truth r then
        match json_body r with
        | None => (Raise (OtherError (lit "JSONDecodeError")), error_message)
        | Some body =>
            match get_or body "error" (JDict []) with
            | Raise x => (Raise x, error_message)
            | Ok response =>
                if json_truthy response then
                  match (fallback <~ get_key response "message" ;;
                         get_or response "Error" fallback) with
                  | Ok found => (Ok tt, found)
                  | Raise x => (Raise x, error_message)
                  end
                else (Ok tt, error_message)
            end
        end
      else (Ok tt, error_message)
  | None => (Ok tt, error_message)
  end.

(** Lines 485-494: the [finally] block. *)
Definition log_outcome (self : notification) (meta : json) : M state unit :=
  emit (NotificationLog (template self) meta).

Definition log_success (self : notification) : M state unit :=
  flag <- gets integration_request ;;
  match flag with
  | None => raise AttributeError
  | Some r =>
      match json_body r with
      | None => raise (OtherError (lit "JSONDecodeError"))
      | Some meta => log_outcome self meta
      end
  end.

(** Lines 421-494: [try], [except Exception], [finally]. *)
Definition send (env : environment) (self : notification)
    (data doc_data : json) (acc : account) : M state unit :=
  fun st =>
    match attempt env self data doc_data acc st with
    | (Ok _, st1) => log_success self st1
    | (Raise e, st1) =>
        let (ending, error_message) :=
          failure_message env (integration_request st1) e in
        let meta := JDict [(lit "error", error_message)] in
        match ending with
        | Ok _ =>
            (emit (Msgprint "Failed to trigger whatsapp message" error_message) ;;
             log_outcome self meta) st1
        | Raise x =>
            (* the handler raised: [finally] still runs, then [x] goes on *)
            (log_outcome self meta ;; raise x) st1
        end
    end.

Definition notify (env : environment) (self : notification)
    (data doc_data : json) (template_account : option str) : M state unit :=
  acc <- lift (resolve_account env template_account) ;;
  lift (token acc) ;;
  send env self data doc_data acc.

(** The error the handler takes from a provider error object: its
    ['Error'] member, else its ["message"] member, else [None]. *)
Definition provider_error (err : list (str * json)) : json :=
  match lookup (lit "Error") err with
  | Some found => found
  | None =>
      match lookup (lit "message") err with
      | Some found => found
      | None => JNull
      end
  end.

(** For examples: a notification of the template "order_ready", the
    payload of a template message without components, one account, and a
    provider that refuses the request with a reason in a JSON body. *)
Definition example_notification : notification :=
  {| template := JStr (lit "order_ready");
     set_property_after_alert := None; property_value := None |}.

Definition example_data : json :=
  JDict [(lit "messaging_product", JStr (lit "whatsapp"));
         (lit "to", JStr (lit "15550001111"));
         (lit "type", JStr (lit "template"));
         (lit "template",
          JDict [(lit "name", JStr (lit "order_ready"));
                 (lit "language", JDict [(lit "code", JStr (lit "en"))]);
                 (lit "components", JList [])])].

Definition example_account : account :=
  {| name := lit "Main"; token := Ok (lit "secret") |}.

Definition refusal : json :=
  JDict [(lit "error",
          JDict [(lit "message", JStr (lit "Invalid parameter"));
                 (lit "code", JNum 100)])].

Definition example_env (outcome : post_outcome) : environment :=
  {| account_named := fun _ => Some example_account;
     default_outgoing := Some example_account;
     make_post_request := outcome;
     save_message := Ok tt;
     property_field := Ok None;
     describe := fun _ => lit "request failed";
     render :=
       fun _ =>
         lit "{'name': 'order_ready', 'language': {'code': 'en'}, 'components': []}" |}.

Definition start : state :=
  {| records := []; integration_request := None; content_type := None |}.

End Notify.

(* ================================================================== *)
(** * whatsapp_templates.py: what validate guarantees *)
(* ================================================================== *)

Module ValidateSpec.
Import Templates.

(** A step leaves the field [f] of the document as it was. *)
Definition keeps {X A} (f : template_doc -> X) (m : M vstate A) : Prop :=
  forall st, f (doc (snd (m st))) = f (doc st).

(** A step changes nothing at all. *)
Definition inert {A} (m : M vstate A) : Prop :=
  forall st, snd (m st) = st.

(** The same framework with another fate for [update_template]. *)
Definition with_update_outcome (o : io_outcome) (env : environment)
    : environment :=
  {| default_account := default_account env;
     language_changed := language_changed env;
     language_lookup := language_lookup env;
     get_session_id_outcome := get_session_id_outcome env;
     get_media_id_outcome := get_media_id_outcome env;
     update_template_outcome := o |}.

(** For examples: a new template with a name and a body. *)
Definition named_doc (name body : str) : template_doc :=
  {| is_new := true; whatsapp_account := Some (lit "Main");
     language := None; language_code := Some (lit "en");
     template_name := Some name; actual_name := None;
     header_type := None; sample := None;
     template := Some body; category := None;
     header := None; footer := None; sample_values := None;
     provider_id := None; status := None |}.

(** For examples: a new template with a text header and a footer. *)
Definition framed_doc (header_text body footer_text : str) : template_doc :=
  {| is_new := true; whatsapp_account := Some (lit "Main");
     language := None; language_code := Some (lit "en");
     template_name := Some (lit "order_update"); actual_name := None;
     header_type := Some (lit "TEXT"); sample := None;
     template := Some body; category := Some (lit "UTILITY");
     header := Some header_text; footer := Some footer_text;
     sample_values := None; provider_id := None; status := None |}.

End ValidateSpec.

(* ================================================================== *)
(** * utils/webhook.py: what the handlers write *)
(* ================================================================== *)

Module WebhookSpec.
Import Json Webhook.
Local Open Scope string_scope.
Local Open Scope list_scope.

(** [m] only appends to the store, and what it appends satisfies [P]. *)
Definition writes (P : record -> Prop) {A} (m : M store A) : Prop :=
  forall st, exists added, snd (m st) = st ++ added /\ Forall P added.




(** An incoming message stored for [account], received from [sender]. *)
Definition tagged (account : str) (sender : json) (r : record) : Prop :=
  match r with
  | Insert doctype fields =>
      doctype = "WhatsApp Message"
      /\ In ("type", JStr (lit "Incoming")) fields
      /\ In ("profile_name", sender) fields
      /\ In ("whatsapp_account", JStr account) fields
  | AttachFile _ _ => True
  | SetAttach _ => True
  | _ => False
  end.

Definition not_structure_error (r : record) : Prop :=
  r <> ErrorLog "Webhook structure error".

Definition is_message_status (r : record) : Prop :=
  match r with MessageStatus _ _ _ => True | _ => False end.

End WebhookSpec.

(* ================================================================== *)
(** * whatsapp_notification.py: what notify writes *)
(* ================================================================== *)

Module NotifySpec.
Import Json Notify.
Local Open Scope string_scope.
Local Open Scope list_scope.

(** [response['messages'][0]['id']] *)
Definition message_id_of (response : json) : result json :=
  and_then (getitem response "messages")
    (fun m => and_then (getitem0 m) (fun m0 => getitem m0 "id")).

Definition is_message_doc (r : record) : bool :=
  match r with MessageDoc _ => true | _ => false end.

(** The state after a failed request that was handled: the flag is what
    the request left, and two records are added. *)
Definition after_failure (st : state) (kept : option http_response)
    (self : notification) (error_message : json) : state :=
  {| records :=
       records st
       ++ [Msgprint "Failed to trigger whatsapp message" error_message;
           NotificationLog (template self)
             (JDict [(lit "error", error_message)])];
     integration_request := kept;
     content_type := content_type st |}.

(** [m] only appends records, and what it appends satisfies [P]. *)
Definition adds (P : record -> Prop) {A} (m : M state A) : Prop :=
  forall st, exists added,
    records (snd (m st)) = records st ++ added /\ Forall P added.

(** A message document that carries the id found in [response] and the
    name of the account. *)
Definition carries_id (response : json) (acc : account) (r : record) : Prop :=
  match r with
  | MessageDoc fields =>
      exists id, message_id_of response = Ok id
                 /\ In ("message_id", id) fields
                 /\ In ("whatsapp_account", JStr (name acc)) fields
  | _ => True
  end.

(** A message document that carries the id of the provider's answer. *)
Definition from_provider (env : environment) (r : record) : Prop :=
  match r with
  | MessageDoc fields =>
      exists t body id,
        make_post_request env = Answered t body
        /\ message_id_of body = Ok id
        /\ In ("message_id", id) fields
  | _ => True
  end.

(** An answer with a message id, for examples. *)
Definition accepted : json :=
  JDict [(lit "messages", JList [JDict [(lit "id", JStr (lit "wamid.1"))]])].

End NotifySpec.

(* ================================================================== *)
(** * whatsapp_templates.py: the methods behind create and update *)
(* ================================================================== *)

Module TemplateMethods.
Import Json Templates.
Local Open Scope N_scope.

(** [str(n)] for a non-negative integer. *)
Fixpoint digits (u : Decimal.uint) : str :=
  match u with
  | Decimal.Nil => []
  | Decimal.D0 r => 48 :: digits r
  | Decimal.D1 r => 49 :: digits r
  | Decimal.D2 r => 50 :: digits r
  | Decimal.D3 r => 51 :: digits r
  | Decimal.D4 r => 52 :: digits r
  | Decimal.D5 r => 53 :: digits r
  | Decimal.D6 r => 54 :: digits r
  | Decimal.D7 r => 55 :: digits r
  | Decimal.D8 r => 56 :: digits r
  | Decimal.D9 r => 57 :: digits r
  end.

Definition str_of_N (n : N) : str := digits (N.to_uint n).

(** ** _validate_sample_value_lengths *)

(** [f"{{{{{idx}}}}}"] *)
Definition placeholder (idx : N) : str :=
  LBRACE :: LBRACE :: str_of_N idx ++ [RBRACE; RBRACE].

(** [self.header_type == "TEXT" and self.header and placeholder in
    self.header] *)
Definition header_has_param (d : template_doc) (idx : N) : bool :=
  in_strs (header_type d) [lit "TEXT"] && truthy (header d)
  && match header d with
     | Some h => is_infix (placeholder idx) h
     | None => false
     end.

Definition HEADER_PARAM_LIMIT : N := 60.
Definition BODY_PARAM_LIMIT : N := 1000.

(** The loop over [enumerate(sample_list, start=idx)]. *)
Fixpoint validate_lengths_from (d : template_doc) (idx : N) (l : list str)
    : result unit :=
  match l with
  | [] => Ok tt
  | value :: rest =>
      let value_len := N.of_nat (List.length value) in
      if header_has_param d idx then
        if HEADER_PARAM_LIMIT <? value_len
        then Raise (ValidationError (lit "Character Limit Exceeded"))
        else validate_lengths_from d (idx + 1) rest
      else
        if BODY_PARAM_LIMIT <? value_len
        then Raise (ValidationError (lit "Character Limit Exceeded"))
        else validate_lengths_from d (idx + 1) rest
  end.

Definition _validate_sample_value_lengths (d : template_doc)
    (sample_list : list str) : result unit :=
  validate_lengths_from d 1 sample_list.

(** The limit that applies to the value of parameter [idx]. *)
Definition limit_of (d : template_doc) (idx : N) : N :=
  if header_has_param d idx then HEADER_PARAM_LIMIT else BODY_PARAM_LIMIT.

(** ** The body text sent to the provider (lines 346-348, 529-531) *)

(** [s.replace('\r\n', '\n')] *)
Fixpoint replace_crlf (s : str) : str :=
  match s with
  | [] => []
  | c :: t =>
      match t with
      | c' :: t' =>
          if (c =? CR) && (c' =? NL) then NL :: replace_crlf t'
          else c :: replace_crlf t
      | [] => [c]
      end
  end.

Definition is_line_end (c : char) : bool := (c =? NL) || (c =? CR).

Definition body_text (template : option str) : str :=
  let template_text :=
    match template with
    | Some (c :: t) => replace_char CR NL (replace_crlf (c :: t))
    | _ => []
    end in
  rstrip_by is_line_end template_text.

(** ** The example values of the body (lines 355-375, 538-554) *)

(** [[f"Sample {i}" for i in range(1, param_count + 1)]] *)
Definition generated_samples (param_count : N) : list str :=
  map (fun i => lit "Sample " ++ str_of_N (N.of_nat i))
      (seq 1 (N.to_nat param_count)).

(** [update_template]: too few values are padded with "Sample", too many
    are cut; [None] when the body has no parameter. *)
Definition update_example (U : unicode_db) (json_loads : json_decoder)
    (d : template_doc) : option (list str) :=
  let param_count := get_parameter_count U (template d) in
  if 0 <? param_count then
    if truthy (sample_values d) then
      let sample_list :=
        _parse_sample_values json_loads (sample_values d) (Some param_count) in
      let n := N.to_nat param_count in
      if Nat.ltb (List.length sample_list) n then
        Some (sample_list
              ++ repeat (lit "Sample") (n - List.length sample_list))
      else if Nat.ltb n (List.length sample_list) then
        Some (firstn n sample_list)
      else Some sample_list
    else Some (generated_samples param_count)
  else None.

(** [after_insert]: a wrong number of values, or a value that is too long,
    raises. *)
Definition insert_example (U : unicode_db) (json_loads : json_decoder)
    (d : template_doc) : result (option (list str)) :=
  let param_count := get_parameter_count U (template d) in
  if 0 <? param_count then
    if truthy (sample_values d) then
      let sample_list :=
        _parse_sample_values json_loads (sample_values d) (Some param_count) in
      if negb (N.of_nat (List.length sample_list) =? param_count) then
        Raise (ValidationError (lit "Sample Values Mismatch"))
      else
        match _validate_sample_value_lengths d sample_list with
        | Raise e => Raise e
        | Ok _ => Ok (Some sample_list)
        end
    else Ok (Some (generated_samples param_count))
  else Ok None.

(** The body component: its text and, when there are parameters, the
    example. *)
Definition body_component (d : template_doc) (example : option (list str))
    : json :=
  JDict ([(lit "type", JStr (lit "body"));
          (lit "text", JStr (body_text (template d)))]
         ++ match example with
            | Some sample_list =>
                [(lit "example",
                  JDict [(lit "body_text",
                          JList [JList (map JStr sample_list)])])]
            | None => []
            end).

(** ** _check_template_exists_on_whatsapp *)

(** [v == field] for a decoded value and a document field. *)
Definition equals_field (v : json) (field : option str) : bool :=
  match v, field with
  | JStr s, Some f => str_eqb s f
  | JNull, None => true
  | _, _ => false
  end.

(** The loop over [response.get("data", [])]: the first template with the
    name and the language. *)
Fixpoint find_template (d : template_doc) (items : list json)
    : result (option json) :=
  match items with
  | [] => Ok None
  | item :: rest =>
      match get_key item "name" with
      | Raise e => Raise e
      | Ok name =>
          if equals_field name (actual_name d) then
            match get_key item "language" with
            | Raise e => Raise e
            | Ok language =>
                if equals_field language (language_code d) then Ok (Some item)
                else find_template d rest
            end
          else find_template d rest
      end
  end.

(** [listing] is what [make_request("GET", ...?name=...)] returns or
    raises; every exception gives [None]. *)
Definition _check_template_exists_on_whatsapp (d : template_doc)
    (listing : result json) : option json :=
  match and_then listing (fun response =>
          and_then (get_or response "data" (JList [])) (fun data =>
          and_then (iterate data) (find_template d))) with
  | Ok found => found
  | Raise _ => None
  end.

End TemplateMethods.

(* ================================================================== *)
(** * whatsapp_templates.py: after_insert and on_trash *)
(* ================================================================== *)

Module TemplateLifecycle.
Import Json Templates TemplateMethods.
Local Open Scope N_scope.
Local Open Scope py_scope.

(** A row of [self.buttons]. *)
Record button := {
  button_type : option str;
  button_label : option str;
  website_url : option str;
  url_type : option str;
  example_url : option str;
  phone_number : option str
}.

(** What the methods do to the outside: the requests they make (made, not
    necessarily answered), the database update, the messages shown and the
    errors logged. *)
Inductive event :=
| ListTemplates (name : option str)   (* GET .../message_templates?name= *)
| CreateTemplate (payload : json)     (* POST .../message_templates *)
| DeleteTemplate (name : option str)  (* DELETE .../message_templates?name= *)
| DbUpdate                            (* self.db_update() *)
| Msgprint (text : string)
| LogError (label : string).          (* frappe.log_error, its second argument *)

(** What the framework and the provider give.  A request is answered or
    fails as in [Notify.post_outcome], which also says what it leaves in
    [frappe.flags.integration_request]. *)
Record environment := {
  skip_whatsapp_api : bool;              (* frappe.flags.skip_whatsapp_api *)
  get_settings : result unit;            (* self.get_settings() *)
  list_request : Notify.post_outcome;
  create_request : Notify.post_outcome;
  delete_request : Notify.post_outcome;
  db_update : result unit;
  share_key : result unit;               (* get_document_share_key, get_pdf_link *)
  media_id : option json;                (* self._media_id, when it is set *)
  render : json -> str                   (* str(v) *)
}.

(** The document, the values given to [self.id] and [self.status] (none
    yet: the field is as in the document), the flag, and the events,
    oldest first. *)
Record lstate := {
  ldoc : template_doc;
  assigned_id : option json;
  assigned_status : option json;
  integration_request : option Notify.http_response;
  events : list event
}.

Definition emit (ev : event) : M lstate unit :=
  modify (fun st =>
    {| ldoc := ldoc st; assigned_id := assigned_id st;
       assigned_status := assigned_status st;
       integration_request := integration_request st;
       events := events st ++ [ev] |}).

Definition set_flag (r : option Notify.http_response) : M lstate unit :=
  modify (fun st =>
    {| ldoc := ldoc st; assigned_id := assigned_id st;
       assigned_status := assigned_status st;
       integration_request := r;
       events := events st |}).

Definition assign_id (v : json) : M lstate unit :=
  modify (fun st =>
    {| ldoc := ldoc st; assigned_id := Some v;
       assigned_status := assigned_status st;
       integration_request := integration_request st;
       events := events st |}).

Definition assign_status (v : json) : M lstate unit :=
  modify (fun st =>
    {| ldoc := ldoc st; assigned_id := assigned_id st;
       assigned_status := Some v;
       integration_request := integration_request st;
       events := events st |}).

Definition set_actual_name (v : option str) : M lstate unit :=
  modify (fun st =>
    {| ldoc := with_actual_name v (ldoc st); assigned_id := assigned_id st;
       assigned_status := assigned_status st;
       integration_request := integration_request st;
       events := events st |}).

Definition lift {A} (r : result A) : M lstate A := fun st => (r, st).

(** What a request returns or raises, and the response it leaves in the
    flag. *)
Definition returned (o : Notify.post_outcome) : result json :=
  match o with
  | Notify.Answered _ body => Ok body
  | Notify.AnsweredOther _ text =>
      Ok (match text with Some s => JStr s | None => JNull end)
  | Notify.Failed e _ => Raise e
  end.

Definition left_in_flag (o : Notify.post_outcome)
    : option Notify.http_response :=
  match o with
  | Notify.Answered t body =>
      Some {| Notify.truth := t; Notify.json_body := Some body |}
  | Notify.AnsweredOther r _ => Some r
  | Notify.Failed _ kept => kept
  end.

Definition request (ev : event) (o : Notify.post_outcome) : M lstate json :=
  emit ev ;;
  set_flag (left_in_flag o) ;;
  lift (returned o).

(** ** get_header *)

(** [s.split(sep)] for a separator of several characters; [skip] counts
    the characters of a separator that are still to pass. *)
Fixpoint split_on (sep : str) (skip : nat) (s : str) : list str :=
  match s with
  | [] => [[]]
  | c :: t =>
      match skip with
      | S k => split_on sep k t
      | O =>
          if is_prefix sep s then [] :: split_on sep (List.length sep - 1) t
          else
            match split_on sep O t with
            | piece :: rest => (c :: piece) :: rest
            | [] => [[c]]
            end
      end
  end.

Definition get_header (env : environment) (d : template_doc) : result json :=
  let header_fields :=
    [(lit "type", JStr (lit "header"));
     (lit "format", Notify.opt_json (header_type d))] in
  if in_strs (header_type d) [lit "TEXT"] then
    let header_fields :=
      header_fields ++ [(lit "text", Notify.opt_json (header d))] in
    match sample d with
    | Some (c :: t) =>
        let samples := split_on (lit ", ") O (c :: t) in
        Ok (JDict (header_fields
                   ++ [(lit "example",
                        JDict [(lit "header_text",
                                JList (map JStr samples))])]))
    | _ => Ok (JDict header_fields)
    end
  else
    _ <~ (if negb (truthy (sample d)) then share_key env else Ok tt) ;;
    match media_id env with
    | None => Raise AttributeError
    | Some handle =>
        Ok (JDict (header_fields
                   ++ [(lit "example",
                        JDict [(lit "header_handle", JList [handle])])]))
    end.

(** ** The buttons *)

Definition button_json (btn : button) : json :=
  let text := (lit "text", Notify.opt_json (button_label btn)) in
  if in_strs (button_type btn) [lit "Visit Website"] then
    JDict ([(lit "type", JStr (lit "URL")); text;
            (lit "url", Notify.opt_json (website_url btn))]
           ++ match example_url btn with
              | Some (c :: t) =>
                  if in_strs (url_type btn) [lit "Dynamic"] then
                    [(lit "example", JList (map JStr (split COMMA (c :: t))))]
                  else []
              | _ => []
              end)
  else if in_strs (button_type btn) [lit "Call Phone"] then
    JDict [(lit "type", JStr (lit "PHONE_NUMBER")); text;
           (lit "phone_number", Notify.opt_json (phone_number btn))]
  else if in_strs (button_type btn) [lit "Quick Reply"] then
    JDict [(lit "type", JStr (lit "QUICK_REPLY")); text]
  else
    JDict [(lit "type", Notify.opt_json (button_type btn)); text].

(** The components after the body: header, footer, buttons. *)
Definition other_components (env : environment) (d : template_doc)
    (buttons : list button) : result (list json) :=
  header_part <~ (if truthy (header_type d)
                  then h <~ get_header env d ;; Ok [h]
                  else Ok []) ;;
  let footer_part :=
    if truthy (footer d)
    then [JDict [(lit "type", JStr (lit "footer"));
                 (lit "text", Notify.opt_json (footer d))]]
    else [] in
  let button_part :=
    match buttons with
    | [] => []
    | _ => [JDict [(lit "type", JStr (lit "buttons"));
                   (lit "buttons", JList (map button_json buttons))]]
    end in
  Ok (header_part ++ footer_part ++ button_part).

(** ** after_insert *)

(** The first listed template with the document's id or its name. *)
Fixpoint find_synced (d : template_doc) (items : list json)
    : result (option json) :=
  match items with
  | [] => Ok None
  | item :: rest =>
      id <~ get_key item "id" ;;
      if equals_field id (provider_id d) then Ok (Some item)
      else
        name <~ get_key item "name" ;;
        if equals_field name (actual_name d) then Ok (Some item)
        else find_synced d rest
  end.

Definition _sync_existing_template (env : environment) : M lstate unit :=
  try_except
    (lift (get_settings env) ;;
     d <- gets ldoc ;;
     response <- request (ListTemplates (actual_name d)) (list_request env) ;;
     found <- lift (data <~ get_or response "data" (JList []) ;;
                    items <~ iterate data ;;
                    find_synced d items) ;;
     match found with
     | Some template =>
         new_status <- lift (get_or template "status"
                               (Notify.opt_json (status d))) ;;
         assign_status new_status ;;
         lift (db_update env) ;;
         emit DbUpdate ;;
         emit (Msgprint "Template synced from WhatsApp. Status: {0}")
     | None =>
         emit (Msgprint "Template '{0}' not found on WhatsApp. It may have been deleted or belongs to a different account.")
     end)
    (fun _ => emit (LogError "WhatsApp Template Sync")).

Definition _sync_from_whatsapp_template (env : environment) (template : json)
    : M lstate unit :=
  id <- lift (get_key template "id") ;;
  assign_id id ;;
  new_status <- lift (get_or template "status" (JStr (lit "PENDING"))) ;;
  assign_status new_status ;;
  emit (Msgprint "Template '{0}' already exists on WhatsApp with status '{1}'. Synced local record.") ;;
  lift (db_update env) ;;
  emit DbUpdate.

(** [_check_template_exists_on_whatsapp] with its request. *)
Definition check_exists (env : environment) : M lstate (option json) :=
  d <- gets ldoc ;;
  emit (ListTemplates (actual_name d)) ;;
  set_flag (left_in_flag (list_request env)) ;;
  ret (_check_template_exists_on_whatsapp d (returned (list_request env))).

(** Lines 415-458: the title that the handler gives to [frappe.throw]. *)
Definition error_title (flag : option Notify.http_response) : json :=
  let default := JStr (lit "Error") in
  match flag with
  | Some r =>
      if Notify.truth r then
        match Notify.json_body r with
        | Some error_response =>
            match (error_details <~ get_or error_response "error" (JDict []) ;;
                   _ <~ get_key error_details "error_user_msg" ;;
                   get_or error_details "error_user_title" default) with
            | Ok title => title
            | Raise _ => default
            end
        | None => default
        end
      else default
  | None => default
  end.

Definition title_text (env : environment) (title : json) : str :=
  match title with
  | JStr s => s
  | v => render env v
  end.

(** Lines 406-458: the request that creates the template, and the handler
    that turns every failure into a [frappe.throw]. *)
Definition create (env : environment) (data : json) : M lstate unit :=
  try_except
    (response <- request (CreateTemplate data) (create_request env) ;;
     id <- lift (getitem response "id") ;;
     assign_id id ;;
     new_status <- lift (getitem response "status") ;;
     assign_status new_status ;;
     lift (db_update env) ;;
     emit DbUpdate)
    (fun _ =>
       flag <- gets integration_request ;;
       emit (LogError "WhatsApp Template API Error") ;;
       raise (ValidationError (title_text env (error_title flag)))).

(** Lines 339-458: the payload, then the request. *)
Definition create_template (U : unicode_db) (json_loads : json_decoder)
    (env : environment) (buttons : list button) : M lstate unit :=
  d <- gets ldoc ;;
  example <- lift (insert_example U json_loads d) ;;
  let body := body_component d example in
  others <- lift (other_components env d buttons) ;;
  let data :=
    JDict [(lit "name", Notify.opt_json (actual_name d));
           (lit "language", Notify.opt_json (language_code d));
           (lit "category", Notify.opt_json (category d));
           (lit "components", JList (body :: others))] in
  create env data.

(** Lines 322-328: the name under which the template is registered. *)
Definition registered_name (U : unicode_db) (d : template_doc) : option str :=
  if truthy (template_name d) then
    if negb (truthy (actual_name d))
    then option_map (sanitize_template_name U) (template_name d)
    else option_map (sanitize_template_name U) (actual_name d)
  else actual_name d.

Definition after_insert (U : unicode_db) (json_loads : json_decoder)
    (env : environment) (buttons : list button) : M lstate unit :=
  if skip_whatsapp_api env then ret tt
  else
    d <- gets ldoc ;;
    if truthy (provider_id d) then _sync_existing_template env
    else
      set_actual_name (registered_name U d) ;;
      lift (get_settings env) ;;
      existing_template <- check_exists env ;;
      match existing_template with
      | Some template =>
          if json_truthy template
          then _sync_from_whatsapp_template env template
          else create_template U json_loads env buttons
      | None => create_template U json_loads env buttons
      end.

(** ** on_trash *)

Definition on_trash (env : environment) : M lstate unit :=
  lift (get_settings env) ;;
  d <- gets ldoc ;;
  try_except
    (request (DeleteTemplate (actual_name d)) (delete_request env) ;; ret tt)
    (fun _ =>
       flag <- gets integration_request ;;
       res <- lift (match flag with
                    | None => Raise AttributeError
                    | Some r =>
                        match Notify.json_body r with
                        | None => Raise (OtherError (lit "JSONDecodeError"))
                        | Some body => get_or body "error" (JDict [])
                        end
                    end) ;;
       title <- lift (get_key res "error_user_title") ;;
       if is_str title "Message Template Not Found" then
         emit (Msgprint "Deleted locally")
       else
         title <- lift (get_or res "error_user_title" (JStr (lit "Error"))) ;;
         raise (ValidationError (title_text env title))).

(** The provider's word for a template it does not have. *)
Definition template_not_found (flag : option Notify.http_response) : bool :=
  match flag with
  | Some r =>
      match Notify.json_body r with
      | Some (JDict body) =>
          match lookup (lit "error") body with
          | Some (JDict res) =>
              match lookup (lit "error_user_title") res with
              | Some title => is_str title "Message Template Not Found"
              | None => false
              end
          | _ => false
          end
      | _ => false
      end
  | None => false
  end.

(** The [CreateTemplate] events among [l]. *)
Definition is_create (ev : event) : bool :=
  match ev with CreateTemplate _ => true | _ => false end.

Definition not_create (ev : event) : Prop := is_create ev = false.

(** Every run of [m] relates the state before and the state after by
    [R]. *)
Definition preserves (R : lstate -> lstate -> Prop) {A} (m : M lstate A)
    : Prop :=
  forall st, R st (snd (m st)).

(** Only events satisfying [P] were added; nothing was removed. *)
Definition extends (P : event -> Prop) (st st' : lstate) : Prop :=
  exists l, events st' = events st ++ l /\ Forall P l.

(** No request to create was made, [self.id] was not assigned, and the
    other fields of the document are the same ([self.status] apart, which
    is kept in [assigned_status]). *)
Definition untouched (st st' : lstate) : Prop :=
  assigned_id st' = assigned_id st /\ ldoc st' = ldoc st
  /\ extends not_create st st'.

(** The document is the same. *)
Definition same_doc (st st' : lstate) : Prop := ldoc st' = ldoc st.


(** For examples. *)
Definition example_env : environment :=
  {| skip_whatsapp_api := false;
     get_settings := Ok tt;
     list_request :=
       Notify.Answered true (JDict [(lit "data", JList [])]);
     create_request :=
       Notify.Answered true
         (JDict [(lit "id", JStr (lit "42"));
                 (lit "status", JStr (lit "PENDING"))]);
     delete_request := Notify.Answered true (JDict [(lit "success", JBool true)]);
     db_update := Ok tt;
     share_key := Ok tt;
     media_id := None;
     render := fun _ => lit "?" |}.

(** The same with a provider that lists the given templates. *)
Definition listing_env (listed : list json) : environment :=
  {| skip_whatsapp_api := false;
     get_settings := Ok tt;
     list_request := Notify.Answered true (JDict [(lit "data", JList listed)]);
     create_request := create_request example_env;
     delete_request := delete_request example_env;
     db_update := Ok tt;
     share_key := Ok tt;
     media_id := None;
     render := render example_env |}.

Definition listed_greeting : json :=
  JDict [(lit "name", JStr (lit "greeting"));
         (lit "language", JStr (lit "en"));
         (lit "id", JStr (lit "7"))].

Definition start (d : template_doc) : lstate :=
  {| ldoc := d; assigned_id := None; assigned_status := None;
     integration_request := None; events := [] |}.

End TemplateLifecycle.

(* ================================================================== *)
(** * whatsapp_notification.py: send_template_message *)
(* ================================================================== *)

Module SendTemplate.
Import Json Notification.
Local Open Scope string_scope.
Local Open Scope list_scope.
Local Open Scope py_scope.

(** An attribute read with [getattr(obj, name, default)]: the object has
    none, or it holds [None] or a string. *)
Inductive attr :=
| Missing
| Holds (v : option str).

Definition getattr (a : attr) (default : option str) : option str :=
  match a with
  | Missing => default
  | Holds v => v
  end.

(** A row of [self.fields]. *)
Record field_row := {
  field_type : attr;
  expression : attr;
  field_name : attr
}.

(** The fields of the template that are read; a button is its
    [button_type] and its [url_type]. *)
Record template_info := {
  actual_name : option str;
  language_code : option str;
  header_type : option str;
  whatsapp_account : option str;
  buttons : list (option str * option str)
}.

(** The fields of the notification ([self]) that are read. *)
Record notification := {
  disabled : bool;
  condition : option str;
  phone_field : option str;             (* self.field_name *)
  template_data_script : option str;
  fields : list field_row;
  attach_document_print : bool;
  custom_attachment : bool;
  file_name : option str;
  button_fields : option str
}.

(** What the framework gives.  A value whose only uses are its truth and
    its [str()] is [None] when it is false and its [str()] otherwise. *)
Record environment := {
  condition_holds : result bool;        (* frappe.safe_eval(self.condition, ...) *)
  stored_template : result template_info;  (* frappe.get_doc("WhatsApp Templates", ...) *)
  path_phone : result (option str);     (* get_value_from_path(doc, self.field_name) *)
  script_result : result (option (list pyvalue));
                                        (* safe_exec, then [result]; None: no list *)
  eval_expression : str -> result pyvalue;  (* safe_exec(f"result = {expression}") *)
  field_value : str -> result pyvalue;  (* lines 276-291: the value, formatted *)
  describe : exn -> str;                (* str(e) *)
  print_link : result (json * json);    (* lines 321-345: url and filename *)
  custom_link : result json;            (* lines 350-362: url *)
  doc_get : str -> json;                (* doc.get(fieldname) *)
  notify_outcome : result unit          (* self.notify(...) *)
}.

Inductive event :=
| LogError (text label : str)           (* frappe.log_error(text, label) *)
| Notify (data : json) (template_account : option str).

Record sstate := {
  content_type : option str;            (* self.content_type *)
  log : list event                      (* oldest first *)
}.

Definition emit (ev : event) : M sstate unit :=
  modify (fun st =>
    {| content_type := content_type st; log := log st ++ [ev] |}).

Definition set_content_type (v : option str) : M sstate unit :=
  modify (fun st => {| content_type := v; log := log st |}).

Definition lift {A} (r : result A) : M sstate A := fun st => (r, st).

(** ** format_number *)

Definition format_number (number : option str) : result str :=
  match number with
  | None => Raise AttributeError        (* None has no startswith *)
  | Some s =>
      match s with
      | c :: rest => if N.eqb c 43 then Ok rest else Ok s   (* "+" *)
      | [] => Ok s
      end
  end.

(** ** The parameters of the body *)

Definition text_param (text : str) : json :=
  JDict [(lit "type", JStr (lit "text")); (lit "text", JStr text)].

(** Lines 223-291: the [try] block of one field, up to its value. *)
Definition field_value_of (env : environment) (f : field_row)
    : result pyvalue :=
  if in_strs (getattr (field_type f) (Some (lit "Field"))) [lit "Expression"]
  then
    match getattr (expression f) None with
    | Some (c :: t) => eval_expression env (c :: t)
    | _ =>
        Raise (ValidationError
                 (lit "Expression is required when Field Type is 'Expression'"))
    end
  else
    match getattr (field_name f) None with
    | Some (c :: t) => field_value env (c :: t)
    | _ =>
        Raise (ValidationError
                 (lit "Field name is required when Field Type is 'Field'"))
    end.

(** [s[:keep] + "..."] when [len(s) > limit]. *)
Definition truncate (limit keep : nat) (s : str) : str :=
  if Nat.ltb limit (List.length s) then firstn keep s ++ lit "..." else s.

(** [getattr(field, 'field_name', None) or getattr(field, 'expression',
    'unknown')] *)
Definition field_identifier (f : field_row) : option str :=
  if truthy (getattr (field_name f) None) then getattr (field_name f) None
  else getattr (expression f) (Some (lit "unknown")).

Definition field_error_text (env : environment) (ident : str) (e : exn)
    : str :=
  lit "Error processing field " ++ truncate 30 27 ident
  ++ lit ": " ++ truncate 80 77 (describe env e).

(** Lines 222-311: one field.  A failure is logged and gives "-"; the
    handler itself raises when the field has no identifier to take the
    length of. *)
Definition field_parameter (env : environment) (f : field_row)
    : M sstate json :=
  match field_value_of env f with
  | Ok value => ret (text_param (sanitize_whatsapp_param value))
  | Raise e =>
      match field_identifier f with
      | None => raise TypeError
      | Some ident =>
          emit (LogError (field_error_text env ident e)
                         (lit "WhatsApp Notification")) ;;
          ret (text_param (lit "-"))
      end
  end.

Fixpoint field_parameters (env : environment) (fs : list field_row)
    : M sstate (list json) :=
  match fs with
  | [] => ret []
  | f :: rest =>
      p <- field_parameter env f ;;
      ps <- field_parameters env rest ;;
      ret (p :: ps)
  end.

(** Lines 208-218: the parameters from the script. *)
Definition script_parameters (env : environment) : M sstate (list json) :=
  let handler (e : exn) : M sstate (list json) :=
    emit (LogError (lit "Error in template_data_script: " ++ describe env e)
                   (lit "WhatsApp Notification")) ;;
    raise (ValidationError
             (lit "Error in Template Data Script: " ++ describe env e)) in
  match script_result env with
  | Ok (Some param_values) =>
      ret (map (fun v => text_param (sanitize_whatsapp_param v)) param_values)
  | Ok None =>
      handler (ValidationError
                 (lit "Template Data Script must set 'result' as a list of values"))
  | Raise e => handler e
  end.

(** Lines 208-311: [None] stands for the variable [parameters] not being
    bound. *)
Definition build_parameters (env : environment) (self : notification)
    : M sstate (option (list json)) :=
  if truthy (template_data_script self) then
    ps <- script_parameters env ;; ret (Some ps)
  else
    match fields self with
    | [] => ret None
    | fs => ps <- field_parameters env fs ;; ret (Some ps)
    end.

(** Lines 313-317 *)
Definition body_components (parameters : option (list json))
    : result (list json) :=
  match parameters with
  | None => Raise (OtherError (lit "UnboundLocalError"))
  | Some [] => Ok []
  | Some ps =>
      Ok [JDict [(lit "type", JStr (lit "body"));
                 (lit "parameters", JList ps)]]
  end.

(** ** The attachment and the header *)

(** Lines 319-362: the url and the file name, when they get bound. *)
Definition attachment (env : environment) (self : notification)
    : result (option (json * json)) :=
  if attach_document_print self then
    a <~ print_link env ;; Ok (Some a)
  else if custom_attachment self then
    url <~ custom_link env ;; Ok (Some (url, Notify.opt_json (file_name self)))
  else Ok None.

(** Lines 364-384 *)
Definition header_components (template : template_info)
    (bound : option (json * json)) : result (list json) :=
  if in_strs (header_type template) [lit "DOCUMENT"] then
    match bound with
    | None => Raise (OtherError (lit "UnboundLocalError"))
    | Some (url, filename) =>
        Ok [JDict [(lit "type", JStr (lit "header"));
                   (lit "parameters",
                    JList [JDict [(lit "type", JStr (lit "document"));
                                  (lit "document",
                                   JDict [(lit "link", url);
                                          (lit "filename", filename)])]])]]
    end
  else if in_strs (header_type template) [lit "IMAGE"] then
    match bound with
    | None => Raise (OtherError (lit "UnboundLocalError"))
    | Some (url, _) =>
        Ok [JDict [(lit "type", JStr (lit "header"));
                   (lit "parameters",
                    JList [JDict [(lit "type", JStr (lit "image"));
                                  (lit "image",
                                   JDict [(lit "link", url)])]])]]
    end
  else Ok [].

(** Line 385: [template.header_type.lower()] *)
Definition lowered_header_type (U : unicode_db) (template : template_info)
    : result str :=
  match header_type template with
  | None => Raise AttributeError
  | Some h => Ok (lower U h)
  end.

(** ** The buttons *)

(** Lines 389-399; [remaining] is [button_fields] as [pop(0)] leaves
    it. *)
Fixpoint button_components (env : environment) (idx : N)
    (btns : list (option str * option str)) (remaining : list str)
    : list json :=
  match btns with
  | [] => []
  | (button_type, url_type) :: rest =>
      if in_strs button_type [lit "Visit Website"]
         && in_strs url_type [lit "Dynamic"]
      then
        match remaining with
        | fieldname :: others =>
            JDict [(lit "type", JStr (lit "button"));
                   (lit "sub_type", JStr (lit "url"));
                   (lit "index", JStr (TemplateMethods.str_of_N idx));
                   (lit "parameters",
                    JList [JDict [(lit "type", JStr (lit "text"));
                                  (lit "text", doc_get env fieldname)]])]
            :: button_components env (idx + 1)%N rest others
        | [] => button_components env (idx + 1)%N rest []
        end
      else button_components env (idx + 1)%N rest remaining
  end.

Definition all_button_components (env : environment) (self : notification)
    (template : template_info) : list json :=
  match buttons template with
  | [] => []
  | btns =>
      let button_fields :=
        match button_fields self with
        | Some (c :: t) => split COMMA (c :: t)
        | _ => []
        end in
      button_components env 0%N btns button_fields
  end.

(** ** The phone number *)

(** Lines 182-191: [None] when the method returns for want of a number.
    [phone_no] is [None] or a string. *)
Definition resolve_phone (env : environment) (self : notification)
    (phone_no : option str) : M sstate (option (option str)) :=
  match phone_field self with
  | Some (c :: t) =>
      phone_number <- (if truthy phone_no then ret phone_no
                       else lift (path_phone env)) ;;
      if negb (truthy phone_number) then
        emit (LogError (lit "Could not resolve phone number from path: "
                        ++ (c :: t))
                       (lit "WhatsApp Notification")) ;;
        ret None
      else ret (Some phone_number)
  | _ => ret (Some phone_no)
  end.

(** ** send_template_message *)

Definition message_data (to : str) (template : template_info)
    (components : list json) : json :=
  JDict [(lit "messaging_product", JStr (lit "whatsapp"));
         (lit "to", JStr to);
         (lit "type", JStr (lit "template"));
         (lit "template",
          JDict [(lit "name", Notify.opt_json (actual_name template));
                 (lit "language",
                  JDict [(lit "code",
                          Notify.opt_json (language_code template))]);
                 (lit "components", JList components)])].

(** Lines 193-402, once the template and the phone number are there. *)
Definition build_and_notify (U : unicode_db) (env : environment)
    (self : notification) (template : template_info)
    (phone_number : option str) : M sstate unit :=
  to <- lift (format_number phone_number) ;;
  parameters <- build_parameters env self ;;
  body <- lift (body_components parameters) ;;
  bound <- lift (attachment env self) ;;
  header <- lift (header_components template bound) ;;
  lowered <- lift (lowered_header_type U template) ;;
  set_content_type (Some lowered) ;;
  let components :=
    body ++ header ++ all_button_components env self template in
  emit (Notify (message_data to template components)
               (whatsapp_account template)) ;;
  lift (notify_outcome env).

(** [default_template] is [None] when the caller gives none (or a false
    value); a stored template document is a true value. *)
Definition send_template_message (U : unicode_db) (env : environment)
    (self : notification) (phone_no : option str)
    (default_template : option template_info) (ignore_condition : bool)
    : M sstate unit :=
  if disabled self then ret tt
  else
    proceed <- (if truthy (condition self) && negb ignore_condition
                then lift (condition_holds env)
                else ret true) ;;
    if negb proceed then ret tt
    else
      template <- match default_template with
                  | Some t => ret t
                  | None => lift (stored_template env)
                  end ;;
      phone <- resolve_phone env self phone_no ;;
      match phone with
      | None => ret tt
      | Some phone_number =>
          build_and_notify U env self template phone_number
      end.

(** ** Vocabulary of the properties *)

(** A text that the provider accepts as a parameter: not empty, no line
    break, no tab, no five spaces in a row. *)
Definition acceptable (text : str) : Prop :=
  text <> [] /\ ~ In NL text /\ ~ In CR text /\ ~ In TAB text
  /\ short_runs_from 0 text = true.

Definition acceptable_param (p : json) : Prop :=
  exists text, p = text_param text /\ acceptable text.

Definition is_notify (ev : event) : bool :=
  match ev with Notify _ _ => true | _ => false end.

(** The field has a name or an expression to report an error under. *)
Definition named (f : field_row) : Prop :=
  exists ident, field_identifier f = Some ident.

(** An error entry whose text has at most [n] characters. *)
Definition short_error (n : nat) (ev : event) : Prop :=
  match ev with
  | LogError text _ => List.length text <= n
  | Notify _ _ => False
  end.


(** The notifications sent so far. *)
Definition sent (st : sstate) : list event := filter is_notify (log st).

(** For examples: a notification with one field, of a template without
    header. *)
Definition example_template (header : option str) : template_info :=
  {| actual_name := Some (lit "order_ready");
     language_code := Some (lit "en");
     header_type := header;
     whatsapp_account := Some (lit "Main");
     buttons := [] |}.

Definition example_notification (fs : list field_row) : notification :=
  {| disabled := false; condition := None;
     phone_field := Some (lit "mobile_no");
     template_data_script := None; fields := fs;
     attach_document_print := false; custom_attachment := false;
     file_name := None; button_fields := None |}.

Definition example_env : environment :=
  {| condition_holds := Ok true;
     stored_template := Ok (example_template (Some (lit "TEXT")));
     path_phone := Ok (Some (lit "+15550001111"));
     script_result := Ok (Some []);
     eval_expression := fun _ => Ok (PStr (lit "7"));
     field_value := fun _ => Ok (PStr (lit "Ann"));
     describe := fun _ => lit "failed";
     print_link := Ok (JStr (lit "https://site/doc.pdf"), JStr (lit "doc.pdf"));
     custom_link := Ok (JStr (lit "https://site/file.png"));
     doc_get := fun _ => JNull;
     notify_outcome := Ok tt |}.

Definition start : sstate := {| content_type := None; log := [] |}.

End SendTemplate.

(* ================================================================== *)
(** * Properties *)
(* ================================================================== *)

Module PyStrFacts.

Lemma str_eqb_eq a b : str_eqb a b = true <-> a = b.
Proof.
  unfold str_eqb. destruct (list_eq_dec N.eq_dec a b); split; congruence.
Qed.

Lemma str_eqb_refl a : str_eqb a a = true.
Proof. now apply str_eqb_eq. Qed.

Lemma nonempty_false s : nonempty s = false -> s = [].
Proof. destruct s; simpl; congruence. Qed.

Section Strip.
Variable p : char -> bool.

Lemma lstrip_by_idem s : lstrip_by p (lstrip_by p s) = lstrip_by p s.
Proof.
  induction s as [|c t IH]; simpl; auto.
  destruct (p c) eqn:E; auto. simpl. now rewrite E.
Qed.

Lemma rstrip_by_cons c t :
  rstrip_by p (c :: t) =
  if nonempty (rstrip_by p t) then c :: rstrip_by p t
  else if p c then [] else [c].
Proof. simpl. destruct (rstrip_by p t); reflexivity. Qed.

Lemma rstrip_by_idem s : rstrip_by p (rstrip_by p s) = rstrip_by p s.
Proof.
  induction s as [|c t IH]; auto.
  rewrite rstrip_by_cons.
  destruct (rstrip_by p t) as [|d u] eqn:E; simpl nonempty; cbv iota.
  - destruct (p c) eqn:Ec; simpl; auto. now rewrite Ec.
  - rewrite rstrip_by_cons, IH. reflexivity.
Qed.

Lemma lstrip_rstrip_comm s :
  lstrip_by p (rstrip_by p s) = rstrip_by p (lstrip_by p s).
Proof.
  induction s as [|c t IH]; auto.
  rewrite rstrip_by_cons. simpl lstrip_by at 2.
  destruct (p c) eqn:Ec.
  - destruct (rstrip_by p t) as [|d u] eqn:E; simpl nonempty; cbv iota.
    + rewrite <- IH. reflexivity.
    + rewrite <- IH. simpl. now rewrite Ec.
  - rewrite rstrip_by_cons.
    destruct (nonempty (rstrip_by p t)); simpl; now rewrite Ec.
Qed.

Lemma strip_by_idem s : strip_by p (strip_by p s) = strip_by p s.
Proof.
  unfold strip_by.
  rewrite lstrip_rstrip_comm, lstrip_by_idem.
  apply rstrip_by_idem.
Qed.

Lemma lstrip_by_incl s c : In c (lstrip_by p s) -> In c s.
Proof.
  induction s as [|d t IH]; simpl; auto.
  destruct (p d); simpl; auto.
Qed.

Lemma rstrip_by_incl s c : In c (rstrip_by p s) -> In c s.
Proof.
  induction s as [|d t IH]; auto.
  rewrite rstrip_by_cons.
  destruct (nonempty (rstrip_by p t)).
  - simpl. intuition.
  - destruct (p d); simpl; intuition.
Qed.

Lemma strip_by_incl s c : In c (strip_by p s) -> In c s.
Proof. intros H. now apply lstrip_by_incl, rstrip_by_incl. Qed.

(** Stripping leaves nothing exactly when every character is removed. *)
Lemma rstrip_by_nil s : rstrip_by p s = [] -> forallb p s = true.
Proof.
  induction s as [|c t IH]; auto.
  rewrite rstrip_by_cons.
  destruct (rstrip_by p t) as [|d u]; simpl nonempty; cbv iota; [|discriminate].
  destruct (p c) eqn:E; [|discriminate]. intros _. simpl. rewrite E. auto.
Qed.

Lemma lstrip_by_all s : forallb p (lstrip_by p s) = true -> forallb p s = true.
Proof.
  induction s as [|c t IH]; auto. simpl.
  destruct (p c) eqn:E; auto.
  simpl. rewrite E. discriminate.
Qed.

Lemma strip_by_nil s : strip_by p s = [] <-> forallb p s = true.
Proof.
  unfold strip_by. split.
  - intros H. now apply lstrip_by_all, rstrip_by_nil.
  - intros H. assert (E : lstrip_by p s = []).
    { induction s as [|c t IH]; auto. simpl in *.
      apply andb_true_iff in H. destruct H as [-> H]. auto. }
    now rewrite E.
Qed.

(** A stripped string neither starts nor ends with a removed character. *)
Lemma lstrip_by_head s c t : lstrip_by p s = c :: t -> p c = false.
Proof.
  induction s as [|d u IH]; simpl; try discriminate.
  destruct (p d) eqn:E; auto. intros [= -> _]. exact E.
Qed.

End Strip.

End PyStrFacts.

Module NotificationFacts.
Import PyStrFacts Notification.

Lemma replace_char_absent old new s :
  old <> new -> ~ In old (replace_char old new s).
Proof.
  intros Hne. unfold replace_char. rewrite in_map_iff.
  intros (c & Hc & _). destruct (N.eqb_spec c old); congruence.
Qed.

Lemma replace_char_in old new s c :
  In c (replace_char old new s) -> c = new \/ In c s.
Proof.
  unfold replace_char. rewrite in_map_iff.
  intros (d & Hd & Hin). destruct (N.eqb_spec d old); subst; auto.
Qed.

Lemma replace_char_id old new s :
  ~ In old s -> replace_char old new s = s.
Proof.
  unfold replace_char. induction s as [|c t IH]; simpl; intros H; auto.
  destruct (N.eqb_spec c old) as [->|_]; [tauto|].
  f_equal. apply IH. tauto.
Qed.

Lemma flush_run_in run c : In c (flush_run run) -> c = SP.
Proof.
  unfold flush_run. destruct (Nat.leb 5 run); intros H;
    now apply repeat_spec in H.
Qed.

Lemma collapse_from_in s : forall run c,
  In c (collapse_from run s) -> c = SP \/ In c s.
Proof.
  induction s as [|d t IH]; simpl; intros run c H.
  - left. eapply flush_run_in; eauto.
  - destruct (N.eqb_spec d SP) as [->|Hd].
    + apply IH in H. tauto.
    + apply in_app_or in H. destruct H as [H|[H|H]].
      * left. eapply flush_run_in; eauto.
      * auto.
      * apply IH in H. tauto.
Qed.

(** ** Runs of spaces *)

Lemma short_runs_from_mono s : forall k k',
  (k' <= k)%nat -> short_runs_from k s = true -> short_runs_from k' s = true.
Proof.
  induction s as [|c t IH]; simpl; intros k k' Hle H; auto.
  destruct (N.eqb c SP); auto.
  apply andb_true_iff in H. destruct H as [H1 H2].
  apply andb_true_iff. split.
  - apply Nat.ltb_lt in H1. apply Nat.ltb_lt. lia.
  - apply IH with (k := S k); auto. lia.
Qed.

Lemma short_runs_from_spaces m : forall k,
  short_runs_from k (repeat SP m) = true -> (m = 0 \/ k + m < 5)%nat.
Proof.
  induction m as [|m IH]; simpl; intros k H; auto.
  right. apply andb_true_iff in H. destruct H as [H1 H2].
  apply Nat.ltb_lt in H1. apply IH in H2. lia.
Qed.

Lemma short_runs_from_app_spaces m post : forall k,
  short_runs_from k (repeat SP m ++ post) = true -> (m = 0 \/ k + m < 5)%nat.
Proof.
  induction m as [|m IH]; simpl; intros k H; auto.
  right. apply andb_true_iff in H. destruct H as [H1 H2].
  apply Nat.ltb_lt in H1. apply IH in H2. lia.
Qed.

Lemma short_runs_no_run s :
  short_runs_from 0 s = true -> ~ has_space_run 5 s.
Proof.
  intros H (pre & post & ->). revert H.
  induction pre as [|c pre IH]; intros H.
  - apply short_runs_from_app_spaces in H. lia.
  - apply IH. cbn [app short_runs_from] in H.
    destruct (N.eqb c SP); auto.
    apply andb_true_iff in H. destruct H as [_ H].
    eapply short_runs_from_mono; [|exact H]. lia.
Qed.

Lemma short_runs_spaces_then c rest m : forall k,
  (k + m <= 4)%nat -> c <> SP ->
  short_runs_from k (repeat SP m ++ c :: rest) = short_runs_from 0 rest.
Proof.
  induction m as [|m IH]; simpl; intros k Hk Hc.
  - destruct (N.eqb_spec c SP); congruence.
  - rewrite IH by (auto; lia).
    replace (Nat.ltb (S k) 5) with true; auto.
    symmetry. apply Nat.ltb_lt. lia.
Qed.

Lemma flush_run_repeat run :
  exists m, flush_run run = repeat SP m /\ (m <= 4)%nat /\ (run <= 4 -> m = run)%nat.
Proof.
  unfold flush_run. destruct (Nat.leb_spec 5 run).
  - exists 4%nat. repeat split; auto; lia.
  - exists run. repeat split; auto; lia.
Qed.

Lemma collapse_from_short_runs s : forall run,
  short_runs_from 0 (collapse_from run s) = true.
Proof.
  induction s as [|c t IH]; simpl; intros run.
  - destruct (flush_run_repeat run) as (m & -> & Hm & _).
    clear -Hm. do 5 (destruct m as [|m]; [reflexivity|]). lia.
  - destruct (N.eqb_spec c SP) as [->|Hc]; auto.
    destruct (flush_run_repeat run) as (m & -> & Hm & _).
    rewrite short_runs_spaces_then by (auto; lia).
    apply IH.
Qed.

Lemma collapse_from_id s : forall run,
  (run <= 4)%nat -> short_runs_from run s = true ->
  collapse_from run s = repeat SP run ++ s.
Proof.
  induction s as [|c t IH]; simpl; intros run Hrun H.
  - destruct (flush_run_repeat run) as (m & -> & _ & Hm).
    rewrite Hm by auto. now rewrite app_nil_r.
  - destruct (N.eqb_spec c SP) as [->|Hc].
    + apply andb_true_iff in H. destruct H as [H1 H2].
      apply Nat.ltb_lt in H1.
      rewrite IH by (auto; lia).
      change (repeat SP (S run)) with (SP :: repeat SP run).
      now rewrite repeat_cons, <- app_assoc.
    + destruct (flush_run_repeat run) as (m & -> & _ & Hm).
      rewrite Hm by auto. rewrite IH by (auto; lia). reflexivity.
Qed.

Lemma lstrip_short_runs p s :
  short_runs_from 0 s = true -> short_runs_from 0 (lstrip_by p s) = true.
Proof.
  induction s as [|c t IH]; cbn [lstrip_by short_runs_from]; intros H; auto.
  destruct (p c); auto. apply IH.
  destruct (N.eqb c SP); auto.
  apply andb_true_iff in H. destruct H as [_ H].
  eapply short_runs_from_mono; [|exact H]. lia.
Qed.

Lemma rstrip_short_runs p s : forall k,
  short_runs_from k s = true -> short_runs_from k (rstrip_by p s) = true.
Proof.
  induction s as [|c t IH]; intros k H; auto.
  rewrite rstrip_by_cons. simpl in H.
  destruct (nonempty (rstrip_by p t)) eqn:E.
  - simpl. destruct (N.eqb c SP); auto.
    apply andb_true_iff in H. destruct H as [H1 H2].
    rewrite H1. simpl. auto.
  - destruct (p c); auto. simpl.
    destruct (N.eqb c SP); auto.
    apply andb_true_iff in H. destruct H as [H1 _]. now rewrite H1.
Qed.

Lemma cleaned_short_runs v : short_runs_from 0 (cleaned v) = true.
Proof.
  unfold cleaned, strip, strip_by, collapse_spaces.
  apply rstrip_short_runs, lstrip_short_runs, collapse_from_short_runs.
Qed.

Lemma cleaned_no_control v c :
  In c [NL; CR; TAB] -> ~ In c (cleaned v).
Proof.
  intros Hc Hin. unfold cleaned, replaced in Hin.
  apply strip_by_incl in Hin.
  apply collapse_from_in in Hin.
  assert (Hsp : c <> SP) by (simpl in Hc; intuition (subst; discriminate)).
  destruct Hin as [Hin|Hin]; [congruence|].
  simpl in Hc. destruct Hc as [<-|[<-|[<-|[]]]].
  - apply replace_char_in in Hin. destruct Hin as [Hin|Hin]; [discriminate|].
    apply replace_char_in in Hin. destruct Hin as [Hin|Hin]; [discriminate|].
    revert Hin. now apply replace_char_absent.
  - apply replace_char_in in Hin. destruct Hin as [Hin|Hin]; [discriminate|].
    revert Hin. now apply replace_char_absent.
  - revert Hin. now apply replace_char_absent.
Qed.

Lemma cleaned_nil v : strip (replaced v) = [] -> cleaned v = [].
Proof.
  unfold cleaned, strip. rewrite !strip_by_nil, !forallb_forall.
  intros H c Hc. apply collapse_from_in in Hc.
  destruct Hc as [->|Hc]; [reflexivity|auto].
Qed.

Lemma sanitize_cases v :
  sanitize_whatsapp_param v = lit "-" \/
  (sanitize_whatsapp_param v = cleaned v /\ cleaned v <> []).
Proof.
  unfold sanitize_whatsapp_param.
  destruct (is_none_or_empty v); auto.
  destruct (cleaned v) eqn:E; simpl; auto.
  right. split; congruence.
Qed.

(** C1. The sanitizer's result never holds a newline, a carriage return or
    a tab, and never five spaces in a row, whatever the value ([None], a
    string or another object); [None], the empty string and every value
    that is empty once replaced and stripped give ["-"]. *)
Theorem sanitize_whatsapp_param_clean :
  forall value : pyvalue,
    (~ In NL (sanitize_whatsapp_param value)
     /\ ~ In CR (sanitize_whatsapp_param value)
     /\ ~ In TAB (sanitize_whatsapp_param value)
     /\ ~ has_space_run 5 (sanitize_whatsapp_param value))
    /\ sanitize_whatsapp_param PNone = lit "-"
    /\ sanitize_whatsapp_param (PStr []) = lit "-"
    /\ (strip (replaced value) = [] ->
        sanitize_whatsapp_param value = lit "-").
Proof.
  intros value. split; [|split; [reflexivity|split; [reflexivity|]]].
  - destruct (sanitize_cases value) as [->|[-> _]].
    + repeat split; try (simpl; intuition discriminate).
      apply short_runs_no_run. reflexivity.
    + repeat split; try (apply cleaned_no_control; simpl; tauto).
      apply short_runs_no_run, cleaned_short_runs.
  - intros E. apply cleaned_nil in E.
    unfold sanitize_whatsapp_param. rewrite E.
    destruct (is_none_or_empty value); reflexivity.
Qed.

(** C10. Sanitizing a sanitized value changes nothing. *)
Theorem sanitize_whatsapp_param_idempotent :
  forall value : pyvalue,
    sanitize_whatsapp_param (PStr (sanitize_whatsapp_param value))
    = sanitize_whatsapp_param value.
Proof.
  intros value.
  destruct (sanitize_cases value) as [->|[-> Hne]]; [reflexivity|].
  assert (Hid : cleaned (PStr (cleaned value)) = cleaned value).
  { unfold cleaned at 1. unfold replaced. simpl py_str.
    rewrite (replace_char_id NL SP) by (apply cleaned_no_control; simpl; tauto).
    rewrite (replace_char_id CR SP) by (apply cleaned_no_control; simpl; tauto).
    rewrite (replace_char_id TAB SP) by (apply cleaned_no_control; simpl; tauto).
    unfold collapse_spaces.
    rewrite collapse_from_id by (auto using cleaned_short_runs; lia).
    simpl. unfold cleaned, strip. apply strip_by_idem. }
  unfold sanitize_whatsapp_param. rewrite Hid.
  destruct (cleaned value) eqn:E; [congruence|]. reflexivity.
Qed.

End NotificationFacts.

Module TemplatesFacts.
Import PyStrFacts Templates.
Local Open Scope N_scope.

(** ** sanitize_template_name *)

Lemma rstrip_by_head p s c t :
  rstrip_by p s = c :: t -> exists t', s = c :: t'.
Proof.
  destruct s as [|d u]; [discriminate|].
  rewrite rstrip_by_cons.
  destruct (nonempty (rstrip_by p u)).
  - intros [= -> _]. eauto.
  - destruct (p d); [discriminate|]. intros [= -> _]. eauto.
Qed.

Lemma strip_by_head p s c t : strip_by p s = c :: t -> p c = false.
Proof.
  unfold strip_by. intros H. apply rstrip_by_head in H.
  destruct H as (t' & H). now apply lstrip_by_head in H.
Qed.

Lemma forallb_strip_by q p s :
  forallb q s = true -> forallb q (strip_by p s) = true.
Proof.
  rewrite !forallb_forall. intros H c Hc. apply H.
  now apply strip_by_incl in Hc.
Qed.

Lemma forallb_sub_runs q p r s : forall b,
  q r = true -> forallb q s = true ->
  forallb q (sub_runs_from b p r s) = true.
Proof.
  induction s as [|c t IH]; simpl; intros b Hr H; auto.
  apply andb_true_iff in H. destruct H as [Hc Ht].
  destruct (p c); [destruct b|]; simpl; rewrite ?Hr, ?Hc, IH; auto.
Qed.

Lemma forallb_filter_self (q : char -> bool) s :
  forallb q (filter q s) = true.
Proof.
  apply forallb_forall. intros c Hc. now apply filter_In in Hc.
Qed.

Lemma forallb_firstn (q : char -> bool) n s :
  forallb q s = true -> forallb q (firstn n s) = true.
Proof.
  revert n. induction s as [|c t IH]; intros [|n]; simpl; auto.
  intros H. apply andb_true_iff in H. destruct H as [-> Ht]. simpl. auto.
Qed.

Lemma is_alnum_word s :
  forallb is_alnum s = true -> forallb is_word s = true.
Proof.
  rewrite !forallb_forall. intros H c Hc. apply H in Hc.
  unfold is_word, is_alnum in *. now rewrite Hc.
Qed.

Lemma is_word_cases c :
  is_word c = true ->
  (is_az c = true /\ is_09 c = false /\ c <> UNDERSCORE /\ is_ascii c = true)
  \/ (is_az c = false /\ is_09 c = true /\ c <> UNDERSCORE /\ is_ascii c = true)
  \/ c = UNDERSCORE.
Proof.
  unfold is_word, is_az, is_09, is_ascii, UNDERSCORE.
  destruct (N.eqb_spec c 95) as [->|Hne]; [auto|].
  rewrite orb_false_r. intros H.
  destruct (N.leb_spec 97 c), (N.leb_spec c 122), (N.leb_spec 48 c),
    (N.leb_spec c 57), (N.ltb_spec c 128); simpl in *;
    try discriminate; try lia; auto 10.
Qed.

Lemma cleaned_name_word U name :
  forallb is_word (cleaned_name U name) = true.
Proof.
  unfold cleaned_name.
  apply forallb_strip_by, forallb_sub_runs; [reflexivity|].
  apply forallb_filter_self.
Qed.

Lemma cleaned_name_head U name c t :
  cleaned_name U name = c :: t ->
  is_word c = true /\ c <> UNDERSCORE /\ forallb is_word t = true.
Proof.
  intros E. pose proof (cleaned_name_word U name) as H.
  rewrite E in H. simpl in H. apply andb_true_iff in H. destruct H as [Hc Ht].
  repeat split; auto.
  unfold cleaned_name in E. apply strip_by_head in E.
  unfold is_underscore in E. now apply N.eqb_neq.
Qed.

Lemma isdigit_word U c : is_word c = true -> c <> UNDERSCORE ->
  isdigit U c = is_09 c /\ (is_09 c = false -> is_az c = true).
Proof.
  intros Hw Hne. unfold isdigit.
  destruct (is_word_cases c Hw) as [(Ha & Hd & _ & ->)|[(Ha & Hd & _ & ->)|?]];
    [split; auto|split; auto; congruence|contradiction].
Qed.

(** C2, as the code has it.  For a name that is not empty the result is
    not empty and consists of lowercase letters, digits and underscores.
    Its first character is a lowercase letter, so that it matches
    [^[a-z][a-z0-9_]*$], unless the cleaned name (lowered, separators and
    runs of underscores replaced, other characters dropped, underscores
    stripped) starts with a digit: the result is then an underscore followed
    by that cleaned name. *)
Theorem sanitize_template_name_shape :
  forall (U : unicode_db) (name : str),
    name <> [] ->
    exists c t,
      sanitize_template_name U name = c :: t
      /\ forallb is_word t = true
      /\ match cleaned_name U name with
         | d :: _ =>
             if is_09 d
             then c = UNDERSCORE /\ t = cleaned_name U name
             else is_az c = true
                  /\ matches_name_pattern (sanitize_template_name U name) = true
         | [] =>
             is_az c = true
             /\ matches_name_pattern (sanitize_template_name U name) = true
         end.
Proof.
  intros U name Hne. unfold sanitize_template_name.
  destruct name as [|n0 nt]; [congruence|]. cbn [nonempty negb].
  remember (n0 :: nt) as name eqn:Hname. clear Hname Hne.
  destruct (cleaned_name U name) as [|d r] eqn:E.
  - cbn [nonempty negb].
    assert (Hw : forallb is_word (firstn 20 (filter is_alnum (lower U name))) = true).
    { apply is_alnum_word, forallb_firstn, forallb_filter_self. }
    set (tail := firstn 20 (filter is_alnum (lower U name))) in *.
    assert (Hw' : forallb is_word (lit "emplate_" ++ tail) = true).
    { rewrite forallb_app, Hw. reflexivity. }
    change (lit "template_" ++ tail) with (116 :: (lit "emplate_" ++ tail)).
    exists 116, (lit "emplate_" ++ tail).
    split; [reflexivity|]. split; [exact Hw'|split; [reflexivity|]].
    unfold matches_name_pattern. rewrite Hw'. reflexivity.
  - destruct (cleaned_name_head U name d r E) as (Hw & Hu & Hr).
    destruct (isdigit_word U d Hw Hu) as [-> Haz].
    destruct (is_09 d) eqn:Ed; cbn [nonempty negb].
    + exists UNDERSCORE, (d :: r). split; [reflexivity|].
      split; [|split; reflexivity].
      cbn [forallb]. now rewrite Hw, Hr.
    + exists d, r. repeat split; auto.
      cbn [matches_name_pattern]. now rewrite Haz, Hr by reflexivity.
Qed.

(** C2's witness: the name "Order Update-2". *)
Lemma sanitize_template_name_shape_witness :
  exists c t,
    sanitize_template_name ascii_only (lit "Order Update-2") = c :: t
    /\ forallb is_word t = true
    /\ match cleaned_name ascii_only (lit "Order Update-2") with
       | d :: _ =>
           if is_09 d
           then c = UNDERSCORE /\ t = cleaned_name ascii_only (lit "Order Update-2")
           else is_az c = true
                /\ matches_name_pattern
                     (sanitize_template_name ascii_only (lit "Order Update-2")) = true
       | [] =>
           is_az c = true
           /\ matches_name_pattern
                (sanitize_template_name ascii_only (lit "Order Update-2")) = true
       end.
Proof.
  apply (sanitize_template_name_shape ascii_only (lit "Order Update-2")).
  discriminate.
Defined.

(** C2 as stated fails: the name "1abc" is not empty, and its result
    "_1abc" starts with an underscore, which [^[a-z][a-z0-9_]*$] refuses. *)
Lemma sanitize_template_name_digit_start :
  sanitize_template_name ascii_only (lit "1abc") = lit "_1abc"
  /\ matches_name_pattern (sanitize_template_name ascii_only (lit "1abc")) = false.
Proof. split; reflexivity. Qed.

(** ** validate *)

Lemma frame_refl st : frame st st.
Proof. unfold frame. intuition. Qed.

Lemma frame_trans st1 st2 st3 : frame st1 st2 -> frame st2 st3 -> frame st1 st3.
Proof.
  unfold frame. intros (A1 & A2 & A3 & A4 & A5 & A6) (B1 & B2 & B3 & B4 & B5 & B6).
  repeat split; try congruence.
  intros c Hc. apply B6 in Hc. destruct Hc as [Hc|Hc]; auto.
Qed.

Lemma stable_ret {A} (a : A) : stable (ret a).
Proof. intros st. apply frame_refl. Qed.

Lemma stable_raise {A} e : stable (@raise vstate A e).
Proof. intros st. apply frame_refl. Qed.

Lemma stable_gets {A} (f : vstate -> A) : stable (gets f).
Proof. intros st. apply frame_refl. Qed.

Lemma stable_bind {A B} (m : M vstate A) (f : A -> M vstate B) :
  stable m -> (forall a, stable (f a)) -> stable (bind m f).
Proof.
  intros Hm Hf st. unfold bind. specialize (Hm st).
  destruct (m st) as [[a|e] st']; simpl in *; auto.
  eapply frame_trans; [exact Hm|apply Hf].
Qed.

Lemma stable_when b (m : M vstate unit) : stable m -> stable (when_ b m).
Proof. destruct b; simpl; auto using stable_ret. Qed.

Lemma stable_if {A} (b : bool) (m1 m2 : M vstate A) :
  stable m1 -> stable m2 -> stable (if b then m1 else m2).
Proof. destruct b; auto. Qed.

Lemma stable_modify (f : vstate -> vstate) :
  (forall st, frame st (f st)) -> stable (modify f).
Proof. intros H st. apply H. Qed.

Lemma frame_update_doc f st :
  (forall d, template (f d) = template d /\ sample_values (f d) = sample_values d
             /\ provider_id (f d) = provider_id d /\ status (f d) = status d
             /\ is_new (f d) = is_new d) ->
  frame st (update_doc f st).
Proof.
  intros H. destruct (H (doc st)) as (H1 & H2 & H3 & H4 & H5).
  unfold frame. simpl. intuition.
Qed.

Lemma frame_upload c st :
  c = UploadSession \/ c = UploadMedia -> frame st (add_call c st).
Proof.
  intros Hc. unfold frame. simpl. repeat split; auto.
  intros c' H. apply in_app_or in H. destruct H as [H|[<-|[]]]; auto.
Qed.

Lemma stable_upload c o :
  c = UploadSession \/ c = UploadMedia -> stable (remote c o).
Proof.
  intros Hc. destruct o; simpl.
  - apply stable_modify. intros st. now apply frame_upload.
  - apply stable_raise.
  - apply stable_bind; [|intros; apply stable_raise].
    apply stable_modify. intros st. now apply frame_upload.
Qed.

Ltac stable_step :=
  first
    [ apply stable_bind; [|intros ?]
    | apply stable_when
    | apply stable_if
    | apply stable_gets
    | apply stable_ret
    | apply stable_raise
    | apply stable_upload; tauto
    | apply stable_modify; intros ?; apply frame_update_doc; intros ?;
      simpl; tauto ].

Lemma stable_set_whatsapp_account env : stable (set_whatsapp_account env).
Proof.
  unfold set_whatsapp_account, throw. repeat stable_step.
  destruct (default_account env); repeat stable_step.
Qed.

Lemma stable_set_language_code env : stable (set_language_code env).
Proof. unfold set_language_code. repeat stable_step. Qed.

Lemma stable_check_template_name U : stable (check_template_name U).
Proof.
  unfold check_template_name, throw. repeat stable_step.
  destruct (template_name a) as [[|c t]|]; repeat stable_step.
Qed.

Lemma stable_upload_sample env : stable (upload_sample env).
Proof. unfold upload_sample. repeat stable_step. Qed.

Lemma stable_check_body_limit : stable check_body_limit.
Proof. unfold check_body_limit, throw. repeat stable_step. Qed.

Lemma stable_check_header_limit : stable check_header_limit.
Proof. unfold check_header_limit, throw. repeat stable_step. Qed.

Lemma stable_check_footer_limit : stable check_footer_limit.
Proof. unfold check_footer_limit, throw. repeat stable_step. Qed.

Lemma stable_check_sample_values U jl : stable (check_sample_values U jl).
Proof. unfold check_sample_values, throw. repeat stable_step. Qed.

(** After a stable step, what holds of the rest in every state of the
    frame holds of the whole. *)
Lemma after_stable (m k : M vstate unit) st0 st
    (Q : result unit * vstate -> Prop) :
  stable m -> frame st0 st ->
  (forall e st', frame st0 st' -> Q (Raise e, st')) ->
  (forall st', frame st0 st' -> Q (k st')) ->
  Q (bind m (fun _ => k) st).
Proof.
  intros Hm Hst Hraise Hk. unfold bind. specialize (Hm st).
  destruct (m st) as [[[]|e] st']; simpl in Hm.
  - apply Hk. eapply frame_trans; eauto.
  - apply Hraise. eapply frame_trans; eauto.
Qed.

(** The seven steps before the sample-value check, then [k]. *)
Lemma validate_after_stable U jl env st (Q : result unit * vstate -> Prop) :
  (forall e st', frame st st' -> Q (Raise e, st')) ->
  (forall st', frame st st' ->
     Q (bind (check_sample_values U jl) (fun _ => update_if_allowed U env) st')) ->
  Q (validate U jl env st).
Proof.
  intros Hraise Hk. unfold validate.
  apply after_stable with (st0 := st);
    auto using stable_set_whatsapp_account, frame_refl. intros st1 F1.
  apply after_stable with (st0 := st);
    auto using stable_set_language_code. intros st2 F2.
  apply after_stable with (st0 := st);
    auto using stable_check_template_name. intros st3 F3.
  apply after_stable with (st0 := st);
    auto using stable_upload_sample. intros st4 F4.
  apply after_stable with (st0 := st);
    auto using stable_check_body_limit. intros st5 F5.
  apply after_stable with (st0 := st);
    auto using stable_check_header_limit. intros st6 F6.
  apply after_stable with (st0 := st);
    auto using stable_check_footer_limit.
Qed.

Lemma positive_count_truthy U t :
  0 < get_parameter_count U t -> truthy t = true.
Proof.
  unfold get_parameter_count. destruct (truthy t); auto. simpl. lia.
Qed.

Lemma check_sample_values_required U jl st :
  0 < get_parameter_count U (template (doc st)) ->
  truthy (sample_values (doc st)) = false ->
  check_sample_values U jl st
  = (Raise (ValidationError (lit "Sample Values Required")), st).
Proof.
  intros Hn Hs. unfold check_sample_values, bind, gets.
  rewrite (positive_count_truthy U _ Hn). cbn [when_].
  apply N.ltb_lt in Hn. rewrite Hn, Hs. reflexivity.
Qed.

Lemma check_sample_values_mismatch U jl st :
  0 < get_parameter_count U (template (doc st)) ->
  truthy (sample_values (doc st)) = true ->
  N.of_nat (List.length
    (_parse_sample_values jl (sample_values (doc st))
       (Some (get_parameter_count U (template (doc st))))))
  <> get_parameter_count U (template (doc st)) ->
  check_sample_values U jl st
  = (Raise (ValidationError (lit "Sample Values Mismatch")), st).
Proof.
  intros Hn Hs Hlen. unfold check_sample_values, bind, gets.
  rewrite (positive_count_truthy U _ Hn). cbn [when_].
  apply N.ltb_lt in Hn. rewrite Hn, Hs. cbn [negb].
  apply N.eqb_neq in Hlen. rewrite Hlen. reflexivity.
Qed.

Lemma check_sample_values_pass U jl st :
  truthy (sample_values (doc st)) = true ->
  N.of_nat (List.length
    (_parse_sample_values jl (sample_values (doc st))
       (Some (get_parameter_count U (template (doc st))))))
  = get_parameter_count U (template (doc st)) ->
  check_sample_values U jl st = (Ok tt, st).
Proof.
  intros Hs Hlen. unfold check_sample_values, bind, gets.
  destruct (truthy (template (doc st))); [|reflexivity]. cbn [when_].
  destruct (0 <? get_parameter_count U (template (doc st))); [|reflexivity].
  rewrite Hs. cbn [negb]. apply N.eqb_eq in Hlen. rewrite Hlen. reflexivity.
Qed.

Lemma aborts_validate_of_check U jl env st e :
  (forall st', frame st st' -> check_sample_values U jl st' = (Raise e, st')) ->
  aborts (validate U jl env) st.
Proof.
  intros H. apply validate_after_stable with (Q := fun x => exists e st', x = (Raise e, st')).
  - intros e' st' _. eauto.
  - intros st' F. unfold bind. rewrite (H st' F). eauto.
Qed.

(** C9, as the code has it.  When the parameter count computed from the
    body is positive, [validate] aborts the save if the sample values are
    missing, and if the number of parsed sample values differs from the
    count; when the two agree the sample-value check passes and changes
    nothing. *)
Theorem validate_requires_matching_samples :
  forall (U : unicode_db) (jl : json_decoder) (env : environment) (st : vstate),
    0 < get_parameter_count U (template (doc st)) ->
    (truthy (sample_values (doc st)) = false ->
     aborts (validate U jl env) st)
    /\ (truthy (sample_values (doc st)) = true ->
        N.of_nat (List.length
          (_parse_sample_values jl (sample_values (doc st))
             (Some (get_parameter_count U (template (doc st))))))
        <> get_parameter_count U (template (doc st)) ->
        aborts (validate U jl env) st)
    /\ (truthy (sample_values (doc st)) = true ->
        N.of_nat (List.length
          (_parse_sample_values jl (sample_values (doc st))
             (Some (get_parameter_count U (template (doc st))))))
        = get_parameter_count U (template (doc st)) ->
        check_sample_values U jl st = (Ok tt, st)).
Proof.
  intros U jl env st Hn. split; [|split].
  - intros Hs.
    apply aborts_validate_of_check
      with (e := ValidationError (lit "Sample Values Required")).
    intros st' (Ft & Fs & _). apply check_sample_values_required.
    + now rewrite Ft.
    + now rewrite Fs.
  - intros Hs Hlen.
    apply aborts_validate_of_check
      with (e := ValidationError (lit "Sample Values Mismatch")).
    intros st' (Ft & Fs & _). apply check_sample_values_mismatch.
    + now rewrite Ft.
    + now rewrite Fs.
    + now rewrite Ft, Fs.
  - apply check_sample_values_pass.
Qed.

(** C9's witness: a new template "Hi {{1}}" saved without sample values. *)
Lemma validate_requires_matching_samples_witness :
  0 < get_parameter_count ascii_only
        (template (doc (initial (example_doc true (lit "Hi {{1}}") None None None))))
  /\ aborts (validate ascii_only json_loads_flat example_env)
       (initial (example_doc true (lit "Hi {{1}}") None None None)).
Proof.
  split; [reflexivity|].
  apply (proj1 (validate_requires_matching_samples ascii_only json_loads_flat
                  example_env
                  (initial (example_doc true (lit "Hi {{1}}") None None None))
                  eq_refl)).
  reflexivity.
Defined.

(** The check at work: one value for two parameters is refused, two
    values pass. *)
Example validate_mismatch_example :
  validate ascii_only json_loads_flat example_env
    (initial (example_doc true (lit "{{1}} owes {{2}}") (Some (lit "Ann")) None None))
  = (Raise (ValidationError (lit "Sample Values Mismatch")),
     initial (example_doc true (lit "{{1}} owes {{2}}") (Some (lit "Ann")) None None)).
Proof. reflexivity. Qed.

Example validate_match_example :
  validate ascii_only json_loads_flat example_env
    (initial (example_doc true (lit "{{1}} owes {{2}}") (Some (lit "Ann|5 EUR")) None None))
  = (Ok tt,
     initial (example_doc true (lit "{{1}} owes {{2}}") (Some (lit "Ann|5 EUR")) None None)).
Proof. reflexivity. Qed.

(** C9 as stated fails: the body "Hi {{0}}" holds a placeholder, the
    sample values are missing, and [validate] returns without raising,
    because the computed parameter count is 0. *)
Lemma validate_accepts_placeholder_zero :
  placeholder_in ascii_only (lit "Hi {{0}}") 0
  /\ sample_values (example_doc true (lit "Hi {{0}}") None None None) = None
  /\ validate ascii_only json_loads_flat example_env
       (initial (example_doc true (lit "Hi {{0}}") None None None))
     = (Ok tt, initial (example_doc true (lit "Hi {{0}}") None None None)).
Proof.
  split; [|split; reflexivity].
  exists (lit "Hi "), (lit "0"), []. repeat split. discriminate.
Qed.

Lemma update_if_allowed_closed U env st :
  is_new (doc st) = false ->
  truthy (provider_id (doc st)) = true ->
  truthy (status (doc st)) = true ->
  in_strs (option_map (upper U) (status (doc st)))
    [lit "PENDING"; lit "APPROVED"; lit "REJECTED"] = true ->
  update_if_allowed U env st = (Ok tt, st).
Proof.
  intros Hnew Hid Hst Hin. unfold update_if_allowed, bind, gets.
  rewrite Hnew, Hid, Hst, Hin. reflexivity.
Qed.

Lemma validate_frame U jl env st :
  is_new (doc st) = false ->
  truthy (provider_id (doc st)) = true ->
  truthy (status (doc st)) = true ->
  in_strs (option_map (upper U) (status (doc st)))
    [lit "PENDING"; lit "APPROVED"; lit "REJECTED"] = true ->
  frame st (snd (validate U jl env st)).
Proof.
  intros Hnew Hid Hst Hin.
  apply validate_after_stable with (Q := fun x => frame st (snd x)).
  - intros e st' F. exact F.
  - intros st' F.
    apply after_stable with (st0 := st);
      auto using stable_check_sample_values.
    intros st'' (F1 & F2 & F3 & F4 & F5 & F6).
    rewrite update_if_allowed_closed by congruence.
    unfold frame. auto 10.
Qed.

(** C6. A saved template that has a provider id and whose status is
    PENDING, APPROVED or REJECTED: [validate], whether it returns or
    raises, sends no update to the provider and leaves the provider id as
    it was. *)
Theorem validate_submitted_is_local_only :
  forall (U : unicode_db) (jl : json_decoder) (env : environment)
         (d : template_doc),
    is_new d = false ->
    truthy (provider_id d) = true ->
    In (status d)
       [Some (lit "PENDING"); Some (lit "APPROVED"); Some (lit "REJECTED")] ->
    (forall id,
       ~ In (UpdateTemplate id)
            (remote_calls (snd (validate U jl env (initial d)))))
    /\ provider_id (doc (snd (validate U jl env (initial d)))) = provider_id d.
Proof.
  intros U jl env d Hnew Hid Hst.
  assert (F : frame (initial d) (snd (validate U jl env (initial d)))).
  { apply validate_frame; auto; simpl;
      destruct Hst as [<-|[<-|[<-|[]]]]; reflexivity. }
  destruct F as (_ & _ & Fid & _ & _ & Fcalls). split; [|exact Fid].
  intros id Hin. apply Fcalls in Hin. simpl in Hin.
  destruct Hin as [[]|[Hin|Hin]]; discriminate.
Qed.

(** C6's witness: the approved template "Hi {{1}}" with id "871", edited
    and saved again. *)
Lemma validate_submitted_is_local_only_witness :
  (forall id,
     ~ In (UpdateTemplate id)
          (remote_calls (snd (validate ascii_only json_loads_flat example_env
             (initial (example_doc false (lit "Hi {{1}}") (Some (lit "Ann"))
                         (Some (lit "871")) (Some (lit "APPROVED"))))))))
  /\ provider_id (doc (snd (validate ascii_only json_loads_flat example_env
       (initial (example_doc false (lit "Hi {{1}}") (Some (lit "Ann"))
                   (Some (lit "871")) (Some (lit "APPROVED")))))))
     = Some (lit "871").
Proof.
  apply (validate_submitted_is_local_only ascii_only json_loads_flat example_env
           (example_doc false (lit "Hi {{1}}") (Some (lit "Ann"))
              (Some (lit "871")) (Some (lit "APPROVED")))).
  - reflexivity.
  - reflexivity.
  - simpl. tauto.
Defined.

(** The same template before it is submitted: with no status the update
    is sent. *)
Example validate_draft_updates :
  remote_calls (snd (validate ascii_only json_loads_flat example_env
    (initial (example_doc false (lit "Hi {{1}}") (Some (lit "Ann"))
                (Some (lit "871")) None))))
  = [UpdateTemplate (Some (lit "871"))].
Proof. reflexivity. Qed.

(** ** _parse_sample_values *)

Lemma stripped_nonempty_id l :
  Forall (fun x => x <> [] /\ strip x = x) l -> stripped_nonempty l = l.
Proof.
  unfold stripped_nonempty. induction 1 as [|x l [Hne Hx] _ IH]; simpl; auto.
  rewrite Hx. destruct x; [congruence|]. simpl. now f_equal.
Qed.

Lemma py_str_PStr l : map py_str (map PStr l) = l.
Proof. rewrite map_map. simpl. apply map_id. Qed.

Section ParseSampleValues.
Variable json_loads : json_decoder.

(** C4, as the code has it.  The input is stripped first; a blank input
    gives the empty list.  Every format keeps the stripped values that
    are not empty: of the decoded list when the input is a JSON array (so
    a JSON array of strings that are stripped and not empty gives back
    exactly that list); of the pieces between ['|'] when the input is not
    a JSON array, has a ['|'] and no count is expected or the count fits;
    of the pieces between [','] in every other case. *)
Theorem parse_sample_values_formats :
  forall (raw : str) (expected_count : option N),
    (strip raw = [] ->
     _parse_sample_values json_loads (Some raw) expected_count = [])
    /\ (forall items,
          decodes_to_list json_loads (strip raw) items ->
          _parse_sample_values json_loads (Some raw) expected_count
          = stripped_nonempty (map py_str items))
    /\ (forall l,
          decodes_to_list json_loads (strip raw) (map PStr l) ->
          Forall (fun x => x <> [] /\ strip x = x) l ->
          _parse_sample_values json_loads (Some raw) expected_count = l)
    /\ (strip raw <> [] ->
        (forall items, ~ decodes_to_list json_loads (strip raw) items) ->
        contains PIPE (strip raw) = true ->
        (expected_count = None \/
         expected_count
         = Some (N.of_nat (List.length (stripped_nonempty (split PIPE (strip raw)))))) ->
        _parse_sample_values json_loads (Some raw) expected_count
        = stripped_nonempty (split PIPE (strip raw)))
    /\ (strip raw <> [] ->
        (forall items, ~ decodes_to_list json_loads (strip raw) items) ->
        (contains PIPE (strip raw) = false \/
         exists n, expected_count = Some n /\
           n <> N.of_nat (List.length (stripped_nonempty (split PIPE (strip raw))))) ->
        _parse_sample_values json_loads (Some raw) expected_count
        = stripped_nonempty (split COMMA (strip raw))).
Proof.
  intros raw expected_count.
  assert (Hjson : forall items,
    decodes_to_list json_loads (strip raw) items ->
    _parse_sample_values json_loads (Some raw) expected_count
    = stripped_nonempty (map py_str items)).
  { intros items (Hs & He & Hl). unfold _parse_sample_values.
    destruct raw as [|c t]; [discriminate|].
    destruct (strip (c :: t)) as [|c' t'] eqn:E; [discriminate|].
    cbn [nonempty negb orb]. rewrite Hs, He, Hl. reflexivity. }
  assert (Hother : strip raw <> [] ->
    (forall items, ~ decodes_to_list json_loads (strip raw) items) ->
    _parse_sample_values json_loads (Some raw) expected_count
    = match
        (if contains PIPE (strip raw) then
           match expected_count with
           | None => Some (stripped_nonempty (split PIPE (strip raw)))
           | Some n =>
               if N.of_nat (List.length (stripped_nonempty (split PIPE (strip raw)))) =? n
               then Some (stripped_nonempty (split PIPE (strip raw))) else None
           end
         else None)
      with
      | Some l => l
      | None => stripped_nonempty (split COMMA (strip raw))
      end).
  { intros Hne Hno. unfold _parse_sample_values.
    destruct raw as [|c t]; [now elim Hne|].
    destruct (strip (c :: t)) as [|c' t'] eqn:E; [now elim Hne|].
    cbn [nonempty negb orb].
    destruct (startswith LBRACKET (c' :: t') && endswith RBRACKET (c' :: t')) eqn:Hb;
      [|reflexivity].
    apply andb_true_iff in Hb. destruct Hb as [Hs He].
    destruct (json_loads (c' :: t')) as [[items|]|] eqn:Hl; try reflexivity.
    exfalso. apply (Hno items). now repeat split. }
  split; [|split; [|split; [|split]]].
  - intros E. unfold _parse_sample_values. rewrite E.
    destruct raw; reflexivity.
  - exact Hjson.
  - intros l Hd Hl. rewrite (Hjson _ Hd), py_str_PStr.
    now apply stripped_nonempty_id.
  - intros Hne Hno Hp Hc. rewrite Hother by assumption. rewrite Hp.
    destruct Hc as [->| ->]; [reflexivity|]. now rewrite N.eqb_refl.
  - intros Hne Hno Hc. rewrite Hother by assumption.
    destruct Hc as [->|(n & -> & Hn)]; [reflexivity|].
    destruct (contains PIPE (strip raw)); [|reflexivity].
    destruct (N.eqb_spec (N.of_nat (List.length (stripped_nonempty (split PIPE (strip raw))))) n);
      [congruence|reflexivity].
Qed.

End ParseSampleValues.

(** The three formats on examples, with the decoder of flat arrays. *)
Example parse_json_example :
  decodes_to_list json_loads_flat (strip (json_array [lit "Ann"; lit "7, Main St"]))
    (map PStr [lit "Ann"; lit "7, Main St"])
  /\ _parse_sample_values json_loads_flat
       (Some (json_array [lit "Ann"; lit "7, Main St"])) (Some 2)
     = [lit "Ann"; lit "7, Main St"].
Proof. repeat split. Qed.

Example parse_pipe_example :
  _parse_sample_values json_loads_flat (Some (lit "Ann|7, Main St")) (Some 2)
  = [lit "Ann"; lit "7, Main St"].
Proof. reflexivity. Qed.

Example parse_comma_example :
  _parse_sample_values json_loads_flat (Some (lit "Ann, Bob|Bo, Cy")) (Some 3)
  = [lit "Ann"; lit "Bob|Bo"; lit "Cy"].
Proof. reflexivity. Qed.

(** C4 as stated fails.  The JSON array of the strings " a" and "" does
    not come back as that list but as the one value "a"; and "x| y" comes
    back as "x" and "y", while splitting it on ['|'] gives "x" and " y". *)
Lemma parse_sample_values_strips_and_drops :
  decodes_to_list json_loads_flat (json_array [lit " a"; []])
    (map PStr [lit " a"; []])
  /\ _parse_sample_values json_loads_flat (Some (json_array [lit " a"; []])) None
     = [lit "a"]
  /\ _parse_sample_values json_loads_flat (Some (lit "x| y")) None
     = [lit "x"; lit "y"]
  /\ split PIPE (lit "x| y") = [lit "x"; lit " y"].
Proof. repeat split. Qed.

(** ** get_parameter_count *)

Section ParameterCount.
Variable U : unicode_db.

Lemma brace_not_decimal c :
  c = LBRACE \/ c = RBRACE -> is_decimal U c = false.
Proof. intros [->| ->]; reflexivity. Qed.

Lemma take_decimals_spec s : forall ds r,
  take_decimals U s = (ds, r) ->
  s = ds ++ r /\ forallb (is_decimal U) ds = true.
Proof.
  induction s as [|c t IH]; simpl; intros ds r H.
  - injection H as <- <-. auto.
  - destruct (is_decimal U c) eqn:E.
    + destruct (take_decimals U t) as [ds' r'].
      injection H as <- <-.
      destruct (IH _ _ eq_refl) as [-> Hds]. simpl. now rewrite E.
    + injection H as <- <-. auto.
Qed.

Lemma take_decimals_app ds c r :
  forallb (is_decimal U) ds = true -> is_decimal U c = false ->
  take_decimals U (ds ++ c :: r) = (ds, c :: r).
Proof.
  intros Hds Hc. induction ds as [|d ds IH]; simpl.
  - now rewrite Hc.
  - simpl in Hds. apply andb_true_iff in Hds. destruct Hds as [Hd Hds].
    rewrite Hd, IH by assumption. reflexivity.
Qed.

Lemma match_placeholder_here s ds :
  match_placeholder U s = Some ds <-> placeholder_here U s ds.
Proof.
  split.
  - unfold match_placeholder.
    destruct s as [|a [|b rest]]; try discriminate.
    destruct (N.eqb_spec a LBRACE) as [->|]; try discriminate.
    destruct (N.eqb_spec b LBRACE) as [->|]; try discriminate.
    simpl. destruct (take_decimals U rest) as [[|d ds'] r] eqn:E; try discriminate.
    destruct r as [|x [|y r]]; try discriminate.
    destruct (N.eqb_spec x RBRACE) as [->|]; try discriminate.
    destruct (N.eqb_spec y RBRACE) as [->|]; try discriminate.
    simpl. intros [= <-].
    apply take_decimals_spec in E. destruct E as [-> Hds].
    repeat split; [discriminate|assumption|]. now exists r.
  - intros (Hne & Hds & post & ->).
    unfold match_placeholder. rewrite !N.eqb_refl. cbn [andb].
    rewrite take_decimals_app by (auto using brace_not_decimal).
    destruct ds; [congruence|]. rewrite !N.eqb_refl. reflexivity.
Qed.

Lemma placeholder_here_unique s ds ds' :
  placeholder_here U s ds -> placeholder_here U s ds' -> ds = ds'.
Proof.
  intros H H'. apply match_placeholder_here in H, H'. congruence.
Qed.

(** Inside a placeholder no other placeholder starts. *)
Lemma inside_digits ds post : forall j,
  forallb (is_decimal U) ds = true ->
  (j < List.length ds + 2)%nat ->
  exists c r, skipn j (ds ++ RBRACE :: RBRACE :: post) = c :: r /\ c <> LBRACE.
Proof.
  induction ds as [|d ds IH]; simpl; intros j Hds Hj.
  - destruct j as [|[|j]]; simpl; try lia; eauto 6; do 2 eexists; split;
      try reflexivity; discriminate.
  - apply andb_true_iff in Hds. destruct Hds as [Hd Hds].
    destruct j as [|j]; simpl.
    + exists d. eexists. split; [reflexivity|].
      intros ->. now rewrite brace_not_decimal in Hd by auto.
    + apply IH; auto. lia.
Qed.

Lemma no_overlap s ds k m :
  placeholder_here U s ds ->
  (1 <= k < 4 + List.length ds)%nat ->
  ~ placeholder_here U (skipn k s) m.
Proof.
  intros (Hne & Hds & post & ->) Hk (Hne' & Hm & post' & E).
  destruct k as [|[|j]]; [lia| |].
  - cbn [skipn] in E. destruct ds as [|d ds]; [congruence|].
    cbn [app forallb] in E, Hds. injection E as Hd' _. subst d.
    apply andb_true_iff in Hds. destruct Hds as [Hd _].
    now rewrite brace_not_decimal in Hd by auto.
  - cbn [skipn] in E.
    destruct (inside_digits ds post j Hds) as (c & r & E' & Hc); [lia|].
    rewrite E' in E. congruence.
Qed.

Lemma findall_from_spec s : forall skip m,
  In m (findall_from U skip s) <->
  exists k, (skip <= k)%nat /\ placeholder_here U (skipn k s) m.
Proof.
  induction s as [|c t IH]; intros skip m.
  - simpl. split; [tauto|]. intros (k & _ & _ & _ & post & E).
    rewrite skipn_nil in E. discriminate.
  - cbn [findall_from]. destruct skip as [|skip].
    + destruct (match_placeholder U (c :: t)) as [ds|] eqn:E.
      * apply match_placeholder_here in E. split.
        -- intros [<-|H].
           ++ exists 0%nat. split; [lia|exact E].
           ++ apply IH in H. destruct H as (k & Hk & H).
              exists (S k). split; [lia|exact H].
        -- intros (k & _ & H). destruct k as [|k].
           ++ left. eapply placeholder_here_unique; eauto.
           ++ right. apply IH. exists k. split; [|exact H].
              destruct (Nat.le_gt_cases (3 + List.length ds) k) as [Hle|Hgt]; auto.
              exfalso. eapply (no_overlap (c :: t) ds (S k)); eauto. lia.
      * rewrite IH. split.
        -- intros (k & Hk & H). exists (S k). split; [lia|exact H].
        -- intros (k & _ & H). destruct k as [|k].
           ++ apply match_placeholder_here in H. simpl skipn in H. congruence.
           ++ exists k. split; [lia|exact H].
    + rewrite IH. split.
      * intros (k & Hk & H). exists (S k). split; [lia|exact H].
      * intros (k & Hk & H). destruct k as [|k]; [lia|].
        exists k. split; [lia|exact H].
Qed.

Lemma placeholder_in_findall text n :
  placeholder_in U text n <->
  In n (map (int_of_digits U) (findall_placeholders U text)).
Proof.
  unfold findall_placeholders. rewrite in_map_iff. split.
  - intros (pre & ds & post & -> & Hne & Hds & <-).
    exists ds. split; auto. apply findall_from_spec.
    exists (List.length pre). split; [lia|].
    rewrite skipn_app, skipn_all, Nat.sub_diag. simpl.
    repeat split; auto. now exists post.
  - intros (ds & <- & H). apply findall_from_spec in H.
    destruct H as (k & _ & Hne & Hds & post & E).
    exists (firstn k text), ds, post. repeat split; auto.
    rewrite <- E. symmetry. apply firstn_skipn.
Qed.

Lemma max_of_ge l x : In x l -> x <= max_of l.
Proof.
  induction l as [|y l IH]; simpl; [tauto|].
  intros [->|H]; [lia|]. apply IH in H. lia.
Qed.

Lemma max_of_zero_in l : l <> [] -> In (max_of l) l.
Proof.
  induction l as [|y l IH]; [congruence|]. intros _. simpl.
  destruct l as [|z l].
  - left. simpl. lia.
  - destruct (N.max_spec y (max_of (z :: l))) as [[_ ->]|[_ ->]].
    + right. apply IH. discriminate.
    + now left.
Qed.

Lemma get_parameter_count_some text :
  get_parameter_count U (Some text) =
  max_of (map (int_of_digits U) (findall_placeholders U text)).
Proof.
  unfold get_parameter_count. destruct text as [|c t]; [reflexivity|].
  simpl truthy. cbv iota. simpl negb. cbv iota.
  destruct (findall_placeholders U (c :: t)); reflexivity.
Qed.

(** The count over all placeholders, in the code's own reading of their
    digits. *)
Lemma get_parameter_count_bounds text :
  (forall n, placeholder_in U text n ->
             n <= get_parameter_count U (Some text))
  /\ ((exists n, placeholder_in U text n) ->
      placeholder_in U text (get_parameter_count U (Some text)))
  /\ ((forall n, ~ placeholder_in U text n) ->
      get_parameter_count U (Some text) = 0).
Proof.
  rewrite get_parameter_count_some.
  split; [|split].
  - intros n H. apply placeholder_in_findall in H. now apply max_of_ge.
  - intros (n & H). apply placeholder_in_findall in H.
    apply placeholder_in_findall. apply max_of_zero_in.
    intros E. rewrite E in H. exact H.
  - intros Hnone.
    destruct (map (int_of_digits U) (findall_placeholders U text)) as [|x l] eqn:E;
      [reflexivity|].
    exfalso. apply (Hnone x). apply placeholder_in_findall.
    rewrite E. now left.
Qed.

(** ** [int] on ASCII digits is the decimal reading *)

Lemma digit_cases c :
  is_09 c = true ->
  c = 48 \/ c = 49 \/ c = 50 \/ c = 51 \/ c = 52
  \/ c = 53 \/ c = 54 \/ c = 55 \/ c = 56 \/ c = 57.
Proof.
  unfold is_09. rewrite andb_true_iff, !N.leb_le. lia.
Qed.

Lemma is_09_decimal c : is_09 c = true -> is_decimal U c = true.
Proof.
  intros H. destruct (digit_cases c H) as [->|[->|[->|[->|[->|[->|[->|[->|[->| ->]]]]]]]]];
    reflexivity.
Qed.

Lemma decimal_is_09 c :
  is_ascii c = true -> is_decimal U c = true -> is_09 c = true.
Proof.
  unfold is_decimal, decimal. intros ->. destruct (is_09 c); auto.
Qed.

Lemma decimal_digit c : is_09 c = true -> decimal U c = Some (c - 48).
Proof.
  intros H. unfold decimal. rewrite H.
  destruct (digit_cases c H) as [->|[->|[->|[->|[->|[->|[->|[->|[->| ->]]]]]]]]];
    reflexivity.
Qed.

Lemma horner_pos ds : forall p,
  forallb is_09 ds = true ->
  fold_left
    (fun acc c => acc * 10 + match decimal U c with Some d => d | None => 0 end)
    ds (N.pos p)
  = N.pos (Pos.of_uint_acc (as_uint ds) p).
Proof.
  induction ds as [|c t IH]; intros p H; [reflexivity|].
  cbn [forallb] in H. apply andb_true_iff in H. destruct H as [Hc Ht].
  cbn [fold_left]. rewrite (decimal_digit c Hc).
  destruct (digit_cases c Hc) as [->|[->|[->|[->|[->|[->|[->|[->|[->| ->]]]]]]]]];
    cbn [as_uint Pos.of_uint_acc];
    match goal with
    | |- fold_left _ _ ?a = N.pos (Pos.of_uint_acc _ ?q) =>
        replace a with (N.pos q) by lia
    end;
    now apply IH.
Qed.

Lemma int_of_digits_decimal_value ds :
  forallb is_09 ds = true -> int_of_digits U ds = decimal_value ds.
Proof.
  unfold int_of_digits, decimal_value, N.of_uint.
  induction ds as [|c t IH]; intros H; [reflexivity|].
  cbn [forallb] in H. apply andb_true_iff in H. destruct H as [Hc Ht].
  cbn [fold_left]. rewrite (decimal_digit c Hc).
  destruct (digit_cases c Hc) as [->|[->|[->|[->|[->|[->|[->|[->|[->| ->]]]]]]]]];
    cbn [as_uint Pos.of_uint];
    [ now apply IH | .. ];
    match goal with
    | |- fold_left _ _ ?a = N.pos (Pos.of_uint_acc _ ?q) =>
        replace a with (N.pos q) by lia
    end;
    now apply horner_pos.
Qed.

Lemma digits_written u :
  forallb is_09 (TemplateMethods.digits u) = true
  /\ as_uint (TemplateMethods.digits u) = u.
Proof.
  induction u as [|u [H1 H2]|u [H1 H2]|u [H1 H2]|u [H1 H2]|u [H1 H2]
                  |u [H1 H2]|u [H1 H2]|u [H1 H2]|u [H1 H2]|u [H1 H2]];
    cbn [TemplateMethods.digits forallb as_uint];
    try (split; [exact H1 || (rewrite H1; reflexivity)|now rewrite H2]).
  split; reflexivity.
Qed.

Lemma decimal_value_written n :
  decimal_value (TemplateMethods.str_of_N n) = n.
Proof.
  unfold decimal_value, TemplateMethods.str_of_N.
  rewrite (proj2 (digits_written _)). apply DecimalN.Unsigned.of_to.
Qed.

Lemma written_nonempty n : TemplateMethods.str_of_N n <> [].
Proof.
  unfold TemplateMethods.str_of_N.
  destruct n as [|p]; [discriminate|].
  cbn [N.to_uint]. intros E.
  assert (H : as_uint (TemplateMethods.digits (Pos.to_uint p)) = Decimal.Nil)
    by now rewrite E.
  rewrite (proj2 (digits_written _)) in H.
  pose proof (DecimalPos.Unsigned.of_to p) as Hp.
  rewrite H in Hp. discriminate Hp.
Qed.

Lemma holds_placeholder_in text ds :
  ds <> [] -> forallb is_09 ds = true -> holds_placeholder text ds ->
  placeholder_in U text (decimal_value ds).
Proof.
  intros Hne Hds (pre & post & ->).
  exists pre, ds, post. repeat split; auto.
  - rewrite forallb_forall in *. intros c Hc. apply is_09_decimal. auto.
  - now apply int_of_digits_decimal_value.
Qed.

(** C5. The parameter count of a body is the largest number written in a
    [{{n}}] placeholder of the body.  The number is read independently of
    the code, by the Standard Library's decimal numbers: a placeholder
    holding the usual writing of [n], or any string of ASCII digits of
    value [n] (leading zeros included), makes the count at least [n]; and
    in an ASCII body with a placeholder the count is the value of one of
    its placeholders.  For digits outside ASCII, whose values Python takes
    from the Unicode database, the same holds with the database's values.
    The count is 0 when the body has no placeholder, is empty or is not
    set. *)
Theorem get_parameter_count_is_max :
  forall text : str,
    (forall n, holds_placeholder text (TemplateMethods.str_of_N n) ->
               n <= get_parameter_count U (Some text))
    /\ (forall ds, ds <> [] -> forallb is_09 ds = true ->
                   holds_placeholder text ds ->
                   decimal_value ds <= get_parameter_count U (Some text))
    /\ (forallb is_ascii text = true ->
        (exists n, placeholder_in U text n) ->
        exists ds,
          ds <> [] /\ forallb is_09 ds = true
          /\ holds_placeholder text ds
          /\ decimal_value ds = get_parameter_count U (Some text))
    /\ (forall n, placeholder_in U text n ->
                  n <= get_parameter_count U (Some text))
    /\ ((exists n, placeholder_in U text n) ->
        placeholder_in U text (get_parameter_count U (Some text)))
    /\ ((forall ds, ds <> [] -> forallb (is_decimal U) ds = true ->
                    ~ holds_placeholder text ds) ->
        get_parameter_count U (Some text) = 0)
    /\ get_parameter_count U (Some []) = 0
    /\ get_parameter_count U None = 0.
Proof.
  intros text.
  destruct (get_parameter_count_bounds text) as (Hle & Hmax & Hzero).
  split; [|split; [|split; [|split; [|split; [|split; [|split]]]]]];
    try reflexivity; auto.
  - intros n H. rewrite <- (decimal_value_written n).
    apply Hle, holds_placeholder_in; auto using written_nonempty.
    unfold TemplateMethods.str_of_N. apply digits_written.
  - intros ds Hne Hds H. apply Hle, holds_placeholder_in; auto.
  - intros Hascii Hex.
    destruct (Hmax Hex) as (pre & ds & post & E & Hne & Hds & Hv).
    assert (H09 : forallb is_09 ds = true).
    { rewrite forallb_forall in *. intros c Hc.
      apply decimal_is_09; [|now apply Hds].
      apply Hascii. rewrite E. apply in_or_app. right.
      right. right. apply in_or_app. now left. }
    exists ds. repeat split; auto.
    + exists pre, post. exact E.
    + rewrite <- Hv. symmetry. now apply int_of_digits_decimal_value.
  - intros Hnone. apply Hzero.
    intros n (pre & ds & post & E & Hne & Hds & _).
    apply (Hnone ds Hne Hds). exists pre, post. exact E.
Qed.

(** The count of "{{2}} {{10}} {{3}}" is 10, and leading zeros do not
    matter. *)
Example get_parameter_count_example :
  get_parameter_count ascii_only (Some (lit "{{2}} {{10}} {{3}}")) = 10
  /\ get_parameter_count ascii_only (Some (lit "{{007}} and {{5}}")) = 7.
Proof. split; reflexivity. Qed.

End ParameterCount.

End TemplatesFacts.

Module WebhookFacts.
Import PyStrFacts Json Webhook.

Lemma option_str_eqb_eq a b : option_str_eqb a b = true <-> a = b.
Proof.
  destruct a as [x|], b as [y|]; simpl; try (split; congruence).
  rewrite str_eqb_eq. split; congruence.
Qed.

(** The two tests of [get], for any lookup: it answers with the challenge
    and status 200 exactly when the lookup under the supplied token gives
    a secret and the token equals it. *)
Lemma get_answers_iff_lookup_gives_token :
  forall (form : list (str * str)) (get_value : option str -> option str),
    (Webhook.get form get_value
       = Ok {| body := form_get form (lit "hub.challenge"); status_code := 200 |}
     <-> truthy (get_value (form_get form (lit "hub.verify_token"))) = true
         /\ form_get form (lit "hub.verify_token")
            = get_value (form_get form (lit "hub.verify_token")))
    /\ (forall r, Webhook.get form get_value = Ok r ->
          r = {| body := form_get form (lit "hub.challenge"); status_code := 200 |})
    /\ (truthy (get_value (form_get form (lit "hub.verify_token"))) = false ->
        Webhook.get form get_value
        = Raise (ValidationError (lit "No matching WhatsApp account")))
    /\ (truthy (get_value (form_get form (lit "hub.verify_token"))) = true ->
        form_get form (lit "hub.verify_token")
          <> get_value (form_get form (lit "hub.verify_token")) ->
        Webhook.get form get_value
        = Raise (ValidationError (lit "Verify token does not match"))).
Proof.
  intros form get_value. unfold Webhook.get.
  set (token := form_get form (lit "hub.verify_token")).
  set (secret := get_value token).
  destruct (truthy secret) eqn:Hs; cbn [negb].
  - destruct (option_str_eqb token secret) eqn:He; cbn [negb].
    + apply option_str_eqb_eq in He.
      repeat split; auto; try congruence.
    + assert (Hne : token <> secret).
      { intros E. apply option_str_eqb_eq in E. congruence. }
      repeat split; try discriminate; tauto.
  - repeat split; try discriminate; try tauto.
    intros [E _]. discriminate.
Qed.

Lemma secret_of_named_absent accounts token :
  (forall a, In a accounts -> account_name a <> token) ->
  secret_of_named accounts token = None.
Proof.
  induction accounts as [|a rest IH]; intros H; [reflexivity|].
  cbn [secret_of_named].
  destruct (str_eqb (account_name a) token) eqn:E.
  - apply str_eqb_eq in E. elim (H a); [now left|exact E].
  - apply IH. intros b Hb. apply H. now right.
Qed.

(** C8 fails on the code.  [get] passes the supplied token to
    [frappe.db.get_value] as the *name* of the account, so the secret it
    compares with is that of the account named like the token.  A token
    equal to the secret of the account "Main" is refused ("No matching
    WhatsApp account"), and so is every token that is no account's name,
    whatever the secrets are; the challenge is echoed exactly when an
    account is named like the token and has the token as its secret. *)
Theorem get_looks_account_up_by_token_as_name :
  Webhook.get (verification (lit "1158201444") (lit "s3cret"))
    (get_value [{| account_name := lit "Main";
                   secret := Some (lit "s3cret") |}])
  = Raise (ValidationError (lit "No matching WhatsApp account"))
  /\ (forall accounts challenge token,
        (forall a, In a accounts -> account_name a <> token) ->
        Webhook.get (verification challenge token) (get_value accounts)
        = Raise (ValidationError (lit "No matching WhatsApp account")))
  /\ (forall accounts challenge token,
        Webhook.get (verification challenge token) (get_value accounts)
        = Ok {| body := Some challenge; status_code := 200 |}
        <-> token <> [] /\ secret_of_named accounts token = Some token).
Proof.
  split; [reflexivity|]. split.
  - intros accounts challenge token H.
    unfold Webhook.get, verification. cbn [form_get].
    replace (str_eqb (lit "hub.mode") (lit "hub.verify_token")) with false
      by reflexivity.
    replace (str_eqb (lit "hub.challenge") (lit "hub.verify_token")) with false
      by reflexivity.
    rewrite str_eqb_refl. cbn [get_value].
    rewrite (secret_of_named_absent accounts token H). reflexivity.
  - intros accounts challenge token.
    unfold Webhook.get, verification. cbn [form_get].
    replace (str_eqb (lit "hub.mode") (lit "hub.verify_token")) with false
      by reflexivity.
    replace (str_eqb (lit "hub.challenge") (lit "hub.verify_token")) with false
      by reflexivity.
    replace (str_eqb (lit "hub.mode") (lit "hub.challenge")) with false
      by reflexivity.
    rewrite !str_eqb_refl. cbn [get_value].
    destruct (secret_of_named accounts token) as [[|c s]|] eqn:E;
      cbn [truthy negb option_str_eqb].
    + split; [discriminate|]. intros [Hne [= <-]]. now elim Hne.
    + destruct (str_eqb token (c :: s)) eqn:Et; cbn [negb].
      * apply str_eqb_eq in Et. subst token.
        split; [intros _; split; [discriminate|reflexivity]|reflexivity].
      * split; [discriminate|]. intros [_ [= Hs]].
        rewrite Hs, str_eqb_refl in Et. discriminate Et.
    + split; [discriminate|]. intros [_ H]. discriminate H.
Qed.

(** The handshake succeeds for an account that is named like its secret. *)
Example get_accepts :
  Webhook.get (verification (lit "1158201444") (lit "shop-7"))
    (get_value [{| account_name := lit "Main";
                   secret := Some (lit "s3cret") |};
                {| account_name := lit "shop-7";
                   secret := Some (lit "shop-7") |}])
  = Ok {| body := Some (lit "1158201444"); status_code := 200 |}.
Proof. reflexivity. Qed.

(** A token that names an account but is not its secret. *)
Example get_refuses_other_secret :
  Webhook.get (verification (lit "1158201444") (lit "Main"))
    (get_value [{| account_name := lit "Main";
                   secret := Some (lit "s3cret") |}])
  = Raise (ValidationError (lit "Verify token does not match")).
Proof. reflexivity. Qed.

(** ** post *)

Local Open Scope string_scope.
Local Open Scope list_scope.

(** C3 fails on the code.  A payload without [entry], and one whose
    [entry] list is empty, fit neither shape; [post] stores the raw
    payload and then raises, [KeyError] from the unguarded second read and
    [IndexError] from the first, and writes no error-log entry. *)
Theorem post_raises_on_malformed_payload :
  forall env : environment,
    post env (JDict []) [] = (Raise KeyError, [raw_log (JDict [])])
    /\ post env
         (JDict [(lit "object", JStr (lit "whatsapp_business_account"));
                 (lit "entry", JList [])]) []
       = (Raise IndexError,
          [raw_log
             (JDict [(lit "object", JStr (lit "whatsapp_business_account"));
                     (lit "entry", JList [])])]).
Proof. intros env. split; reflexivity. Qed.

(** The alternate shape, where [entry] is a dict: the messages are read,
    and then the search for the sender's name iterates over the keys of
    that dict and calls [get] on a string. *)
Example post_alternate_shape_raises :
  forall env : environment,
    fst (post env
           (JDict [(lit "entry",
                    JDict [(lit "changes",
                            JList [JDict [(lit "value", JDict [metadata])]])])])
           [])
    = Raise AttributeError.
Proof. intros env. reflexivity. Qed.

(** A change of the field "messages" whose value has no [statuses]:
    [update_message_status] raises. *)
Example post_status_without_statuses_raises :
  fst (post example_env (envelope (JDict [metadata])) []) = Raise KeyError.
Proof. reflexivity. Qed.

(** A well-formed status notification updates the message. *)
Example post_status_update :
  post example_env
    (envelope
       (JDict [metadata;
               (lit "statuses",
                JList [JDict [(lit "id", JStr (lit "wamid.1"));
                              (lit "status", JStr (lit "delivered"))]])]))
    []
  = (Ok tt,
     [raw_log
        (envelope
           (JDict [metadata;
                   (lit "statuses",
                    JList [JDict [(lit "id", JStr (lit "wamid.1"));
                                  (lit "status", JStr (lit "delivered"))]])]));
      MessageStatus (lit "MSG-0001") (JStr (lit "delivered")) JNull]).
Proof. reflexivity. Qed.

(** The guarded reads of lines 183-191 cannot fail where [post] reaches
    them: an account is looked up only for a phone id, and a phone id is
    only found when the first shape was read through. *)
Lemma changes_readable_when_reached data messages phone_id :
  read_envelope data = Ok (messages, phone_id) ->
  json_truthy phone_id = true ->
  exists changes, read_changes data = Ok changes.
Proof.
  unfold read_envelope. intros H Hp.
  destruct (read_messages data) as [m|e] eqn:Hm.
  - clear H. unfold read_messages, read_changes, and_then in *.
    destruct (getitem data "entry") as [entry|]; [|discriminate].
    destruct (getitem0 entry) as [entry0|]; [|discriminate].
    destruct (getitem entry0 "changes") as [changes|]; [|discriminate].
    destruct (getitem0 changes) as [change0|]; [|discriminate].
    eauto.
  - unfold and_then in H. destruct (only_key_error e); [|discriminate].
    destruct (read_messages_alternate data); [|discriminate].
    injection H as _ <-. discriminate.
Qed.

End WebhookFacts.

Module NotifyFacts.
Import Json Notify.
Local Open Scope string_scope.
Local Open Scope list_scope.

Lemma bind_ok_inv {S A B} (m : M S A) (f : A -> M S B) st b st' :
  bind m f st = (Ok b, st') ->
  exists a st1, m st = (Ok a, st1) /\ f a st1 = (Ok b, st').
Proof.
  unfold bind. destruct (m st) as [[a|e] st1]; [eauto|discriminate].
Qed.

Lemma quiet_ret {A} (a : A) : quiet (ret a).
Proof. intros st. auto. Qed.

Lemma quiet_lift {A} (r : result A) : quiet (lift r).
Proof. intros st. auto. Qed.

Lemma quiet_gets {A} (f : state -> A) : quiet (gets f).
Proof. intros st. auto. Qed.

Lemma quiet_bind {A B} (m : M state A) (f : A -> M state B) :
  quiet m -> (forall a, quiet (f a)) -> quiet (bind m f).
Proof.
  intros Hm Hf st. unfold bind. destruct (Hm st) as [H1 H2].
  destruct (m st) as [[a|e] st1]; simpl in *; auto.
  destruct (Hf a st1) as [H3 H4]. split; congruence.
Qed.

Lemma quiet_when b (m : M state unit) : quiet m -> quiet (when_ b m).
Proof. destruct b; simpl; auto using quiet_ret. Qed.

Lemma logs_emit r st :
  logs (snd (emit r st)) = logs st ++ (if is_log r then [r] else []).
Proof. unfold logs. simpl. rewrite filter_app. reflexivity. Qed.

Lemma quiet_emit r : is_log r = false -> quiet (emit r).
Proof.
  intros Hr st. split; [reflexivity|].
  rewrite logs_emit, Hr. apply app_nil_r.
Qed.

Lemma quiet_set_content_type v : quiet (set_content_type v).
Proof. intros st. auto. Qed.

Ltac quiet_step :=
  first
    [ apply quiet_bind; [|intros ?]
    | apply quiet_when
    | apply quiet_gets
    | apply quiet_lift
    | apply quiet_ret
    | apply quiet_set_content_type
    | apply quiet_emit; reflexivity ].

Lemma quiet_record_message env self data doc_data acc response :
  quiet (record_message env self data doc_data acc response).
Proof.
  unfold record_message.
  repeat first
    [ quiet_step
    | match goal with
      | |- quiet (if ?b then _ else _) => destruct b
      | |- quiet (match ?x with _ => _ end) => destruct x
      end ].
Qed.

(** The [try] body ends well only when the answer is a dict. *)
Lemma record_message_ok env self data doc_data acc response st st' :
  record_message env self data doc_data acc response st = (Ok tt, st') ->
  exists fields, response = JDict fields.
Proof.
  unfold record_message. intros H.
  do 5 (apply bind_ok_inv in H; destruct H as (? & ? & _ & H)).
  apply bind_ok_inv in H. destruct H as (id & st6 & H & _).
  unfold lift in H. destruct response; try discriminate. eauto.
Qed.

Lemma attempt_ok env self data doc_data acc st st1 :
  attempt env self data doc_data acc st = (Ok tt, st1) ->
  logs st1 = logs st /\
  exists r meta, integration_request st1 = Some r /\ json_body r = Some meta.
Proof.
  unfold attempt. intros H. apply bind_ok_inv in H.
  destruct H as (response & st0 & Hcall & Hrec).
  destruct (quiet_record_message env self data doc_data acc response st0)
    as [Hflag Hlogs].
  rewrite Hrec in Hflag, Hlogs. simpl in Hflag, Hlogs.
  apply record_message_ok in Hrec. destruct Hrec as (fields & ->).
  unfold call_provider in Hcall.
  destruct (make_post_request env) as [t body|r returned|e kept];
    cbv [bind set_flag modify ret raise] in Hcall.
  - injection Hcall as Hbody Hst. subst st0 body. split; [exact Hlogs|].
    rewrite Hflag. simpl. do 2 eexists. split; reflexivity.
  - destruct returned; discriminate.
  - discriminate.
Qed.

Lemma attempt_raise env self data doc_data acc st e st1 :
  attempt env self data doc_data acc st = (Raise e, st1) ->
  logs st1 = logs st.
Proof.
  unfold attempt, bind. intros H.
  assert (Hcall : logs (snd (call_provider env st)) = logs st).
  { unfold call_provider.
    destruct (make_post_request env) as [t body|r [text|]|e' kept];
      reflexivity. }
  destruct (call_provider env st) as [[response|e'] st0]; simpl in Hcall.
  - destruct (quiet_record_message env self data doc_data acc response st0)
      as [_ Hlogs].
    rewrite H in Hlogs. simpl in Hlogs. congruence.
  - injection H as _ <-. exact Hcall.
Qed.

Lemma send_logs_once env self data doc_data acc st :
  exists meta,
    logs (snd (send env self data doc_data acc st))
    = logs st ++ [NotificationLog (template self) meta].
Proof.
  unfold send.
  destruct (attempt env self data doc_data acc st) as [[[]|e] st1] eqn:Ha.
  - apply attempt_ok in Ha. destruct Ha as (Hlogs & r & meta & Hflag & Hbody).
    exists meta. unfold log_success, bind, gets. rewrite Hflag, Hbody.
    unfold log_outcome. rewrite logs_emit, Hlogs. reflexivity.
  - apply attempt_raise in Ha.
    destruct (failure_message env (integration_request st1) e)
      as [[[]|x] error_message].
    + exists (JDict [(lit "error", error_message)]).
      unfold logs in *. unfold bind, log_outcome, emit, modify. simpl.
      rewrite !filter_app, Ha. simpl. now rewrite app_nil_r.
    + exists (JDict [(lit "error", error_message)]).
      unfold logs in *. unfold bind, log_outcome, emit, modify, raise. simpl.
      rewrite filter_app, Ha. reflexivity.
Qed.

Lemma failure_message_from_body env r e body err :
  truth r = true -> json_body r = Some body ->
  getitem body "error" = Ok (JDict err) -> err <> [] ->
  failure_message env (Some r) e = (Ok tt, provider_error err).
Proof.
  intros Ht Hb Hg Hne. unfold failure_message. rewrite Ht, Hb.
  unfold getitem in Hg. destruct body; try discriminate.
  unfold get_or.
  destruct (lookup (lit "error") fields) as [v|]; [|discriminate].
  injection Hg as ->. destruct err as [|f fs]; [congruence|].
  cbn [json_truthy]. unfold get_key, get_or, and_then, provider_error.
  destruct (lookup (lit "message") (f :: fs)), (lookup (lit "Error") (f :: fs));
    reflexivity.
Qed.

(** What the [finally] block gives.  Once the account and its token are
    resolved, [notify] writes exactly one outcome record, whether the
    request to the provider succeeds or fails, and whether [notify] itself
    returns or raises.  The error of the JSON body is recorded only when
    the request failed and yet left a response that tests true. *)
Lemma notify_logs_one_outcome :
  forall (env : environment) (self : notification) (data doc_data : json)
         (template_account : option str) (st : state) (acc : account)
         (tok : str),
    resolve_account env template_account = Ok acc ->
    token acc = Ok tok ->
    (exists meta,
       logs (snd (notify env self data doc_data template_account st))
       = logs st ++ [NotificationLog (template self) meta])
    /\ (forall e r body err,
          make_post_request env = Failed e (Some r) ->
          truth r = true -> json_body r = Some body ->
          getitem body "error" = Ok (JDict err) -> err <> [] ->
          logs (snd (notify env self data doc_data template_account st))
          = logs st ++ [NotificationLog (template self)
                          (JDict [(lit "error", provider_error err)])]).
Proof.
  intros env self data doc_data template_account st acc tok Hacc Htok.
  assert (Hn : notify env self data doc_data template_account st
               = send env self data doc_data acc st).
  { unfold notify, bind, lift. rewrite Hacc, Htok. reflexivity. }
  rewrite Hn. split; [apply send_logs_once|].
  intros e r body err Hpost Ht Hb Hg Hne.
  unfold send, attempt, bind, call_provider. rewrite Hpost.
  cbn [set_flag modify raise bind integration_request].
  unfold bind. cbn [set_flag modify raise integration_request].
  rewrite (failure_message_from_body env r e body err Ht Hb Hg Hne).
  unfold logs, bind, log_outcome, emit, modify. simpl.
  rewrite !filter_app. simpl. now rewrite app_nil_r.
Qed.

(** With a response that tests true, the reason of the refusal is what the
    outcome record holds. *)
Lemma notify_logs_one_outcome_witness :
  logs (snd (notify
               (example_env
                  (Failed (OtherError (lit "request failed"))
                     (Some {| truth := true; json_body := Some refusal |})))
               example_notification example_data JNull None start))
  = [NotificationLog (JStr (lit "order_ready"))
       (JDict [(lit "error", JStr (lit "Invalid parameter"))])].
Proof.
  apply (proj2 (notify_logs_one_outcome
                  (example_env
                     (Failed (OtherError (lit "request failed"))
                        (Some {| truth := true; json_body := Some refusal |})))
                  example_notification example_data JNull None start
                  example_account (lit "secret") eq_refl eq_refl)
           (OtherError (lit "request failed"))
           {| truth := true; json_body := Some refusal |} refusal
           [(lit "message", JStr (lit "Invalid parameter"));
            (lit "code", JNum 100)]);
    try reflexivity.
  discriminate.
Defined.

(** A request that succeeds: the message and one outcome record. *)
Example notify_success :
  records (snd (notify
    (example_env
       (Answered true
          (JDict [(lit "messages",
                   JList [JDict [(lit "id", JStr (lit "wamid.1"))]])])))
    example_notification example_data JNull None start))
  = [MessageDoc
       [("doctype", JStr (lit "WhatsApp Message"));
        ("type", JStr (lit "Outgoing"));
        ("message",
         JStr (lit "{'name': 'order_ready', 'language': {'code': 'en'}, 'components': []}"));
        ("to", JStr (lit "15550001111"));
        ("message_type", JStr (lit "Template"));
        ("message_id", JStr (lit "wamid.1"));
        ("content_type", JStr (lit "text")); ("use_template", JNum 1);
        ("template", JStr (lit "order_ready"));
        ("template_parameters", JNull);
        ("whatsapp_account", JStr (lit "Main"))];
     Msgprint "WhatsApp Message Triggered" JNull;
     NotificationLog (JStr (lit "order_ready"))
       (JDict [(lit "messages",
                JList [JDict [(lit "id", JStr (lit "wamid.1"))]])])].
Proof. reflexivity. Qed.

(** C7 fails on the code.  The provider refuses the request with a JSON
    error body ("Invalid parameter"); [make_post_request] raises and
    leaves the response in the flag.  That response tests false, so the
    handler's [if frappe.flags.integration_request:] does not open the
    body: the failure shown and the outcome record hold [str(e)], not the
    provider's error.  And with an account whose [get_password] raises,
    [notify] raises before its [try] and writes no outcome record. *)
Theorem notify_misses_the_provider_error :
  notify
    (example_env
       (Failed (OtherError (lit "request failed"))
          (Some {| truth := false; json_body := Some refusal |})))
    example_notification example_data JNull None start
  = (Ok tt,
     {| records :=
          [Msgprint "Failed to trigger whatsapp message"
             (JStr (lit "request failed"));
           NotificationLog (JStr (lit "order_ready"))
             (JDict [(lit "error", JStr (lit "request failed"))])];
        integration_request :=
          Some {| truth := false; json_body := Some refusal |};
        content_type := None |})
  /\ notify
       {| account_named := fun _ => None;
          default_outgoing :=
            Some {| name := lit "Main";
                    token := Raise (OtherError (lit "no password")) |};
          make_post_request :=
            Answered true
              (JDict [(lit "messages",
                       JList [JDict [(lit "id", JStr (lit "wamid.1"))]])]);
          save_message := Ok tt; property_field := Ok None;
          describe := fun _ => lit "request failed";
          render := fun _ => [] |}
       example_notification example_data JNull None start
     = (Raise (OtherError (lit "no password")), start).
Proof. split; reflexivity. Qed.

End NotifyFacts.

Module ValidateFacts.
Import PyStrFacts Templates ValidateSpec.
Local Open Scope N_scope.

Lemma bind_ok {S A B} (m : M S A) (f : A -> M S B) st b st' :
  bind m f st = (Ok b, st') ->
  exists a st1, m st = (Ok a, st1) /\ f a st1 = (Ok b, st').
Proof.
  unfold bind. destruct (m st) as [[a|e] st1]; [eauto|discriminate].
Qed.

(** ** Fields a step keeps *)

Section Keeps.
Context {X : Type} (f : template_doc -> X).

Lemma keeps_ret {A} (a : A) : keeps f (ret a).
Proof. intros st. reflexivity. Qed.

Lemma keeps_raise {A} e : keeps f (@raise vstate A e).
Proof. intros st. reflexivity. Qed.

Lemma keeps_gets {A} (g : vstate -> A) : keeps f (gets g).
Proof. intros st. reflexivity. Qed.

Lemma keeps_bind {A B} (m : M vstate A) (k : A -> M vstate B) :
  keeps f m -> (forall a, keeps f (k a)) -> keeps f (bind m k).
Proof.
  intros Hm Hk st. unfold bind. specialize (Hm st).
  destruct (m st) as [[a|e] st1]; simpl in *; auto.
  rewrite Hk. exact Hm.
Qed.

Lemma keeps_when b (m : M vstate unit) : keeps f m -> keeps f (when_ b m).
Proof. destruct b; simpl; auto using keeps_ret. Qed.

Lemma keeps_update_doc g :
  (forall d, f (g d) = f d) -> keeps f (modify (update_doc g)).
Proof. intros H st. simpl. apply H. Qed.

Lemma keeps_remote c o : keeps f (remote c o).
Proof. intros st. destruct o; reflexivity. Qed.

Lemma keeps_try_except {A} (m : M vstate A) h :
  keeps f m -> (forall e, keeps f (h e)) -> keeps f (try_except m h).
Proof.
  intros Hm Hh st. unfold try_except. specialize (Hm st).
  destruct (m st) as [[a|e] st1]; simpl in *; auto.
  rewrite Hh. exact Hm.
Qed.

Lemma keeps_log_error title e : keeps f (modify (log_error title e)).
Proof. intros st. reflexivity. Qed.

End Keeps.

Ltac keeps_step :=
  first
    [ apply keeps_bind; [|intros ?]
    | apply keeps_when
    | apply keeps_gets
    | apply keeps_ret
    | apply keeps_raise
    | apply keeps_remote
    | apply keeps_log_error
    | apply keeps_try_except; [|intros ?]
    | apply keeps_update_doc; intros ?; reflexivity
    | match goal with
      | |- keeps _ (if ?b then _ else _) => destruct b
      | |- keeps _ (match ?x with _ => _ end) => destruct x
      end ].

Ltac keeps_all :=
  unfold set_whatsapp_account, set_language_code, check_template_name,
    upload_sample, check_body_limit, check_header_limit, check_footer_limit,
    check_sample_values, update_if_allowed, update_template, throw;
  repeat keeps_step.

(** ** Checks change nothing *)

Lemma inert_ret {A} (a : A) : inert (@ret vstate A a).
Proof. intros st. reflexivity. Qed.

Lemma inert_raise {A} e : inert (@raise vstate A e).
Proof. intros st. reflexivity. Qed.

Lemma inert_gets {A} (g : vstate -> A) : inert (gets g).
Proof. intros st. reflexivity. Qed.

Lemma inert_bind {A B} (m : M vstate A) (k : A -> M vstate B) :
  inert m -> (forall a, inert (k a)) -> inert (bind m k).
Proof.
  intros Hm Hk st. unfold bind. specialize (Hm st).
  destruct (m st) as [[a|e] st1]; simpl in *; subst; auto.
  apply Hk.
Qed.

Lemma inert_when b (m : M vstate unit) : inert m -> inert (when_ b m).
Proof. destruct b; simpl; auto using inert_ret. Qed.

Ltac inert_all :=
  unfold check_body_limit, check_header_limit, check_footer_limit,
    check_sample_values, throw;
  repeat first
    [ apply inert_bind; [|intros ?]
    | apply inert_when
    | apply inert_gets
    | apply inert_ret
    | apply inert_raise
    | match goal with
      | |- inert (if ?b then _ else _) => destruct b
      end ].

Lemma inert_check_body_limit : inert check_body_limit.
Proof. inert_all. Qed.

Lemma inert_check_header_limit : inert check_header_limit.
Proof. inert_all. Qed.

Lemma inert_check_footer_limit : inert check_footer_limit.
Proof. inert_all. Qed.

Lemma inert_check_sample_values U jl : inert (check_sample_values U jl).
Proof. inert_all. Qed.

Lemma inert_ok {A} (m : M vstate A) st a st' :
  inert m -> m st = (Ok a, st') -> st' = st.
Proof. intros H E. specialize (H st). rewrite E in H. exact H. Qed.

(** ** The steps of a validation that returns *)

Lemma validate_ok_steps U jl env st st' :
  validate U jl env st = (Ok tt, st') ->
  exists st1 st2 st3 st4,
    set_whatsapp_account env st = (Ok tt, st1)
    /\ set_language_code env st1 = (Ok tt, st2)
    /\ check_template_name U st2 = (Ok tt, st3)
    /\ upload_sample env st3 = (Ok tt, st4)
    /\ check_body_limit st4 = (Ok tt, st4)
    /\ check_header_limit st4 = (Ok tt, st4)
    /\ check_footer_limit st4 = (Ok tt, st4)
    /\ check_sample_values U jl st4 = (Ok tt, st4)
    /\ update_if_allowed U env st4 = (Ok tt, st').
Proof.
  unfold validate. intros H.
  apply bind_ok in H. destruct H as ([] & st1 & H1 & H).
  apply bind_ok in H. destruct H as ([] & st2 & H2 & H).
  apply bind_ok in H. destruct H as ([] & st3 & H3 & H).
  apply bind_ok in H. destruct H as ([] & st4 & H4 & H).
  apply bind_ok in H. destruct H as ([] & st5 & H5 & H).
  apply bind_ok in H. destruct H as ([] & st6 & H6 & H).
  apply bind_ok in H. destruct H as ([] & st7 & H7 & H).
  apply bind_ok in H. destruct H as ([] & st8 & H8 & H).
  pose proof (inert_ok _ _ _ _ inert_check_body_limit H5) as ->.
  pose proof (inert_ok _ _ _ _ inert_check_header_limit H6) as ->.
  pose proof (inert_ok _ _ _ _ inert_check_footer_limit H7) as ->.
  pose proof (inert_ok _ _ _ _ (inert_check_sample_values U jl) H8) as ->.
  exists st1, st2, st3, st4. auto 10.
Qed.

(** The fields that no step before the checks writes. *)
Lemma before_checks_keep {X} (f : template_doc -> X) U env st st1 st2 st3 st4 :
  (forall v d, f (with_whatsapp_account v d) = f d) ->
  (forall v d, f (with_language_code v d) = f d) ->
  (forall v d, f (with_actual_name v d) = f d) ->
  set_whatsapp_account env st = (Ok tt, st1) ->
  set_language_code env st1 = (Ok tt, st2) ->
  check_template_name U st2 = (Ok tt, st3) ->
  upload_sample env st3 = (Ok tt, st4) ->
  f (doc st4) = f (doc st).
Proof.
  intros Ha Hl Hn H1 H2 H3 H4.
  assert (K1 : keeps f (set_whatsapp_account env)).
  { unfold set_whatsapp_account, throw.
    repeat first [ apply keeps_update_doc; intros ?; apply Ha | keeps_step ]. }
  assert (K2 : keeps f (set_language_code env)).
  { unfold set_language_code.
    repeat first [ apply keeps_update_doc; intros ?; apply Hl | keeps_step ]. }
  assert (K3 : keeps f (check_template_name U)).
  { unfold check_template_name, throw.
    repeat first [ apply keeps_update_doc; intros ?; apply Hn | keeps_step ]. }
  assert (K4 : keeps f (upload_sample env)) by keeps_all.
  specialize (K1 st). specialize (K2 st1). specialize (K3 st2). specialize (K4 st3).
  rewrite H1 in K1. rewrite H2 in K2. rewrite H3 in K3. rewrite H4 in K4.
  simpl in *. congruence.
Qed.

Lemma update_if_allowed_returns U env st :
  fst (update_if_allowed U env st) = Ok tt
  /\ doc (snd (update_if_allowed U env st)) = doc st.
Proof.
  unfold update_if_allowed, bind, gets.
  destruct (negb (is_new (doc st)) && truthy (provider_id (doc st)));
    [|split; reflexivity]. cbn [when_].
  destruct (truthy (status (doc st)) &&
            in_strs (option_map (upper U) (status (doc st)))
              [lit "PENDING"; lit "APPROVED"; lit "REJECTED"]);
    [split; reflexivity|].
  unfold try_except, update_template, bind, gets.
  destruct (update_template_outcome env); split; reflexivity.
Qed.

(** A field that the three setters leave alone is the same in the
    document [validate] lets through. *)
Lemma validate_keeps {X} (f : template_doc -> X) U jl env st st' :
  (forall v d, f (with_whatsapp_account v d) = f d) ->
  (forall v d, f (with_language_code v d) = f d) ->
  (forall v d, f (with_actual_name v d) = f d) ->
  validate U jl env st = (Ok tt, st') ->
  f (doc st') = f (doc st).
Proof.
  intros Ha Hl Hn H. apply validate_ok_steps in H.
  destruct H as (st1 & st2 & st3 & st4 & H1 & H2 & H3 & H4 & _ & _ & _ & _ & H9).
  destruct (update_if_allowed_returns U env st4) as [_ Hd].
  rewrite H9 in Hd. simpl in Hd. rewrite Hd.
  eapply before_checks_keep; eauto.
Qed.

(** X1. A template that [validate] lets through has a body of at most 4096
    characters, and of at most 1024 when its category is AUTHENTICATION or
    OTP or its header is an image, a video or a document. *)
Theorem validate_bounds_body :
  forall U jl env st st',
    validate U jl env st = (Ok tt, st') ->
    len (template (doc st')) <= 4096
    /\ (in_strs (category (doc st')) [lit "AUTHENTICATION"; lit "OTP"] = true
        \/ in_strs (header_type (doc st'))
             [lit "IMAGE"; lit "VIDEO"; lit "DOCUMENT"] = true ->
        len (template (doc st')) <= 1024).
Proof.
  intros U jl env st st' H.
  rewrite (validate_keeps template U jl env st st') by (auto; reflexivity).
  rewrite (validate_keeps category U jl env st st') by (auto; reflexivity).
  rewrite (validate_keeps header_type U jl env st st') by (auto; reflexivity).
  apply validate_ok_steps in H.
  destruct H as (st1 & st2 & st3 & st4 & H1 & H2 & H3 & H4 & H5 & _).
  rewrite <- (before_checks_keep template U env st st1 st2 st3 st4)
    by (auto; reflexivity).
  rewrite <- (before_checks_keep category U env st st1 st2 st3 st4)
    by (auto; reflexivity).
  rewrite <- (before_checks_keep header_type U env st st1 st2 st3 st4)
    by (auto; reflexivity).
  assert (Hlen : truthy (template (doc st4)) = false ->
                 len (template (doc st4)) = 0).
  { destruct (template (doc st4)) as [[|c t]|]; simpl; congruence. }
  unfold check_body_limit, bind, gets, throw, raise in H5.
  destruct (truthy (template (doc st4))).
  - cbn [when_] in H5. cbv zeta in H5.
    destruct (in_strs (category (doc st4)) [lit "AUTHENTICATION"; lit "OTP"]);
      [|destruct (in_strs (header_type (doc st4))
                    [lit "IMAGE"; lit "VIDEO"; lit "DOCUMENT"])];
      match type of H5 with
      | context [?l <? ?n] => destruct (N.ltb_spec l n); [discriminate|]
      end;
      (split; [lia|]); intros [E|E]; try discriminate; lia.
  - rewrite Hlen by reflexivity. split; intros; lia.
Qed.

(** X1's witness: the template "{{1}} owes {{2}}". *)
Lemma validate_bounds_body_witness :
  len (Some (lit "{{1}} owes {{2}}")) <= 4096.
Proof.
  exact (proj1 (validate_bounds_body ascii_only json_loads_flat example_env
           (initial (example_doc true (lit "{{1}} owes {{2}}")
                       (Some (lit "Ann|5 EUR")) None None))
           (initial (example_doc true (lit "{{1}} owes {{2}}")
                       (Some (lit "Ann|5 EUR")) None None))
           eq_refl)).
Defined.

(** X2. A template that [validate] lets through has a text header of at
    most 60 characters and a footer of at most 60 characters. *)
Theorem validate_bounds_header_footer :
  forall U jl env st st',
    validate U jl env st = (Ok tt, st') ->
    (in_strs (header_type (doc st')) [lit "TEXT"] = true ->
     len (header (doc st')) <= 60)
    /\ len (footer (doc st')) <= 60.
Proof.
  intros U jl env st st' H.
  rewrite (validate_keeps header U jl env st st') by (auto; reflexivity).
  rewrite (validate_keeps footer U jl env st st') by (auto; reflexivity).
  rewrite (validate_keeps header_type U jl env st st') by (auto; reflexivity).
  apply validate_ok_steps in H.
  destruct H as (st1 & st2 & st3 & st4 & H1 & H2 & H3 & H4 & _ & H6 & H7 & _).
  rewrite <- (before_checks_keep header U env st st1 st2 st3 st4)
    by (auto; reflexivity).
  rewrite <- (before_checks_keep footer U env st st1 st2 st3 st4)
    by (auto; reflexivity).
  rewrite <- (before_checks_keep header_type U env st st1 st2 st3 st4)
    by (auto; reflexivity).
  assert (Hlen : forall o, truthy o = false -> len o = 0).
  { intros [[|c t]|]; simpl; congruence. }
  split.
  - intros Ht. unfold check_header_limit, bind, gets, throw, raise in H6.
    rewrite Ht in H6. destruct (truthy (header (doc st4))) eqn:T.
    + cbn [andb when_] in H6.
      destruct (N.ltb_spec 60 (len (header (doc st4)))); [discriminate|lia].
    + rewrite Hlen by assumption. lia.
  - unfold check_footer_limit, bind, gets, throw, raise in H7.
    destruct (truthy (footer (doc st4))) eqn:T.
    + cbn [when_] in H7.
      destruct (N.ltb_spec 60 (len (footer (doc st4)))); [discriminate|lia].
    + rewrite Hlen by assumption. lia.
Qed.

(** X2's witness: a template with the text header "Your order" and the
    footer "Reply STOP to unsubscribe"; both checks run and pass. *)
Lemma validate_bounds_header_footer_witness :
  len (header (framed_doc (lit "Your order") (lit "It has shipped.")
                 (lit "Reply STOP to unsubscribe"))) <= 60
  /\ len (footer (framed_doc (lit "Your order") (lit "It has shipped.")
                    (lit "Reply STOP to unsubscribe"))) <= 60.
Proof.
  destruct (validate_bounds_header_footer ascii_only json_loads_flat
              example_env
              (initial (framed_doc (lit "Your order") (lit "It has shipped.")
                          (lit "Reply STOP to unsubscribe")))
              (initial (framed_doc (lit "Your order") (lit "It has shipped.")
                          (lit "Reply STOP to unsubscribe")))
              eq_refl) as [Hh Hf].
  split; [apply Hh; reflexivity|exact Hf].
Defined.

(** A header or a footer of 61 characters is refused. *)
Example validate_refuses_long_header_and_footer :
  fst (validate ascii_only json_loads_flat example_env
         (initial (framed_doc (repeat 120 61) (lit "It has shipped.")
                     (lit "Bye"))))
  = Raise (ValidationError (lit "Character Limit Exceeded"))
  /\ fst (validate ascii_only json_loads_flat example_env
            (initial (framed_doc (lit "Your order") (lit "It has shipped.")
                        (repeat 120 61))))
     = Raise (ValidationError (lit "Character Limit Exceeded"))
  /\ fst (validate ascii_only json_loads_flat example_env
            (initial (framed_doc (repeat 120 60) (lit "It has shipped.")
                        (repeat 120 60))))
     = Ok tt.
Proof. repeat split; reflexivity. Qed.

Lemma replace_char_nonempty old new s :
  nonempty (replace_char old new s) = nonempty s.
Proof. destruct s; reflexivity. Qed.

(** X3. A template that [validate] lets through has an account and a
    language code, provided the default account, if it is needed, has a
    name. *)
Theorem validate_sets_account_and_language :
  forall U jl env st st',
    default_account env <> Some [] ->
    validate U jl env st = (Ok tt, st') ->
    truthy (whatsapp_account (doc st')) = true
    /\ truthy (language_code (doc st')) = true.
Proof.
  intros U jl env st st' Hdef H. apply validate_ok_steps in H.
  destruct H as (st1 & st2 & st3 & st4 & H1 & H2 & H3 & H4 & _ & _ & _ & _ & H9).
  destruct (update_if_allowed_returns U env st4) as [_ Hd].
  rewrite H9 in Hd. simpl in Hd. rewrite Hd. clear H9 Hd.
  assert (A1 : truthy (whatsapp_account (doc st1)) = true).
  { unfold set_whatsapp_account, bind, gets, throw, raise in H1.
    destruct (truthy (whatsapp_account (doc st))) eqn:T; simpl in H1.
    - injection H1 as <-. exact T.
    - destruct (default_account env) as [[|c t]|] eqn:E; try discriminate;
        [now elim Hdef|]. injection H1 as <-. reflexivity. }
  assert (L2 : truthy (language_code (doc st2)) = true).
  { unfold set_language_code, bind, gets in H2.
    destruct (negb (truthy (language_code (doc st1))) || language_changed env)
      eqn:C; cbn [when_] in H2.
    - injection H2 as <-. simpl.
      destruct (language_lookup env) as [[|c t]|]; reflexivity.
    - injection H2 as <-. apply orb_false_iff in C. destruct C as [C _].
      now apply negb_false_iff in C. }
  assert (K2 : keeps whatsapp_account (set_language_code env)) by keeps_all.
  assert (K3 : keeps whatsapp_account (check_template_name U)) by keeps_all.
  assert (K4 : keeps whatsapp_account (upload_sample env)) by keeps_all.
  assert (J3 : keeps language_code (check_template_name U)) by keeps_all.
  assert (J4 : keeps language_code (upload_sample env)) by keeps_all.
  specialize (K2 st1). specialize (K3 st2). specialize (K4 st3).
  specialize (J3 st2). specialize (J4 st3).
  rewrite H2 in K2. rewrite H3 in K3, J3. rewrite H4 in K4, J4.
  simpl in *. split; congruence.
Qed.

(** X3's witness: a template without account in a site whose default
    account is "Main". *)
Lemma validate_sets_account_and_language_witness :
  truthy (whatsapp_account
            (doc (snd (validate ascii_only json_loads_flat example_env
                         (initial (with_whatsapp_account None
                            (example_doc true (lit "Hello") None None None)))))))
  = true.
Proof.
  exact (proj1 (validate_sets_account_and_language ascii_only json_loads_flat
                  example_env
                  (initial (with_whatsapp_account None
                     (example_doc true (lit "Hello") None None None)))
                  (snd (validate ascii_only json_loads_flat example_env
                          (initial (with_whatsapp_account None
                             (example_doc true (lit "Hello") None None None)))))
                  ltac:(discriminate) eq_refl)).
Defined.

(** Two continuations that agree on the result and on the document. *)
Lemma bind_agree (m k k' : M vstate unit) st :
  (forall st1, fst (k st1) = fst (k' st1)
               /\ doc (snd (k st1)) = doc (snd (k' st1))) ->
  fst (bind m (fun _ => k) st) = fst (bind m (fun _ => k') st)
  /\ doc (snd (bind m (fun _ => k) st)) = doc (snd (bind m (fun _ => k') st)).
Proof.
  intros H. unfold bind. destruct (m st) as [[[]|e] st1]; auto.
Qed.

(** X4. Whether the remote update succeeds or fails has no influence on
    what [validate] returns nor on the document it leaves: a failed
    update is logged and never aborts the save. *)
Theorem validate_ignores_update_failure :
  forall U jl env o st,
    fst (validate U jl (with_update_outcome o env) st)
    = fst (validate U jl env st)
    /\ doc (snd (validate U jl (with_update_outcome o env) st))
       = doc (snd (validate U jl env st)).
Proof.
  intros U jl env o st.
  change (validate U jl (with_update_outcome o env))
    with (bind (set_whatsapp_account env) (fun _ =>
          bind (set_language_code env) (fun _ =>
          bind (check_template_name U) (fun _ =>
          bind (upload_sample env) (fun _ =>
          bind check_body_limit (fun _ =>
          bind check_header_limit (fun _ =>
          bind check_footer_limit (fun _ =>
          bind (check_sample_values U jl) (fun _ =>
          update_if_allowed U (with_update_outcome o env)))))))))).
  unfold validate.
  do 8 (apply bind_agree; intros ?).
  destruct (update_if_allowed_returns U env st7) as [-> ->].
  destruct (update_if_allowed_returns U (with_update_outcome o env) st7)
    as [-> ->].
  split; reflexivity.
Qed.

(** The failed update leaves its trace in the error log. *)
Example validate_logs_update_failure :
  error_log (snd (validate ascii_only json_loads_flat
    (with_update_outcome (FailsAfterCall (OtherError (lit "timeout"))) example_env)
    (initial (example_doc false (lit "Hi {{1}}") (Some (lit "Ann"))
                (Some (lit "871")) None))))
  = [(lit "WhatsApp Template Update", OtherError (lit "timeout"))].
Proof. reflexivity. Qed.

(** X5. A template that [validate] lets through has a name whose
    sanitized form matches [^[a-z][a-z0-9_]*$]. *)
Theorem validate_accepts_valid_names_only :
  forall U jl env st st' name,
    validate U jl env st = (Ok tt, st') ->
    template_name (doc st) = Some name -> name <> [] ->
    matches_name_pattern (sanitize_template_name U name) = true.
Proof.
  intros U jl env st st' name H Hn Hne. apply validate_ok_steps in H.
  destruct H as (st1 & st2 & st3 & st4 & H1 & H2 & H3 & _).
  assert (K1 : keeps template_name (set_whatsapp_account env)) by keeps_all.
  assert (K2 : keeps template_name (set_language_code env)) by keeps_all.
  specialize (K1 st). specialize (K2 st1). rewrite H1 in K1. rewrite H2 in K2.
  simpl in K1, K2.
  unfold check_template_name, bind, gets, throw, raise in H3.
  rewrite K2, K1, Hn in H3. destruct name as [|c t]; [congruence|].
  cbv zeta in H3.
  destruct (matches_name_pattern (sanitize_template_name U (c :: t)));
    [reflexivity|].
  match type of H3 with
  | context [when_ ?b ?m] => destruct b; discriminate
  end.
Qed.

(** X5's witness: the template named "greeting". *)
Lemma validate_accepts_valid_names_only_witness :
  matches_name_pattern (sanitize_template_name ascii_only (lit "greeting")) = true.
Proof.
  apply (validate_accepts_valid_names_only ascii_only json_loads_flat example_env
           (initial (example_doc true (lit "Hello") None None None))
           (initial (example_doc true (lit "Hello") None None None))
           (lit "greeting") eq_refl eq_refl).
  discriminate.
Defined.

(** X6. A name whose cleaned form starts with a digit is always refused:
    the sanitizer puts an underscore in front, which the pattern does not
    allow. *)
Theorem validate_refuses_digit_names :
  forall U jl env st name d rest,
    template_name (doc st) = Some name -> name <> [] ->
    cleaned_name U name = d :: rest -> is_09 d = true ->
    aborts (validate U jl env) st.
Proof.
  intros U jl env st name d rest Hn Hne Hc Hd.
  assert (K1 : keeps template_name (set_whatsapp_account env)) by keeps_all.
  assert (K2 : keeps template_name (set_language_code env)) by keeps_all.
  assert (Hs : sanitize_template_name U name = UNDERSCORE :: d :: rest).
  { unfold sanitize_template_name. destruct name as [|c t]; [congruence|].
    cbn [nonempty negb]. rewrite Hc.
    destruct (TemplatesFacts.cleaned_name_head U _ _ _ Hc) as (Hw & Hu & _).
    destruct (TemplatesFacts.isdigit_word U d Hw Hu) as [-> _].
    rewrite Hd. reflexivity. }
  unfold validate, aborts, bind.
  specialize (K1 st).
  destruct (set_whatsapp_account env st) as [[[]|e1] st1]; [|eauto].
  specialize (K2 st1).
  destruct (set_language_code env st1) as [[[]|e2] st2]; [|eauto].
  simpl in K1, K2.
  assert (H3 : check_template_name U st2
               = (Raise (ValidationError (lit "Invalid Template Name")),
                  snd (check_template_name U st2))).
  { unfold check_template_name, bind, gets, throw, raise.
    rewrite K2, K1, Hn. destruct name as [|c t]; [congruence|].
    cbv zeta. rewrite Hs.
    match goal with
    | |- context [when_ ?b ?m] => destruct b
    end; reflexivity. }
  rewrite H3. eauto.
Qed.

(** X6's witness: the name "2024 sale". *)
Lemma validate_refuses_digit_names_witness :
  aborts (validate ascii_only json_loads_flat example_env)
    (initial (named_doc (lit "2024 sale") (lit "Sale"))).
Proof.
  apply (validate_refuses_digit_names ascii_only json_loads_flat example_env
           (initial (named_doc (lit "2024 sale") (lit "Sale")))
           (lit "2024 sale") 50 (lit "024_sale") eq_refl).
  - discriminate.
  - reflexivity.
  - reflexivity.
Defined.

End ValidateFacts.

Module WebhookMoreFacts.
Import Json Webhook WebhookSpec.
Local Open Scope string_scope.
Local Open Scope list_scope.

(** ** Writing, step by step *)

Section Writes.
Variable P : record -> Prop.

Lemma writes_ret {A} (a : A) : writes P (ret a).
Proof. intros st. exists []. now rewrite app_nil_r. Qed.

Lemma writes_raise {A} e : writes P (@raise store A e).
Proof. intros st. exists []. now rewrite app_nil_r. Qed.

Lemma writes_lift {A} (r : result A) : writes P (lift r).
Proof. intros st. exists []. now rewrite app_nil_r. Qed.

Lemma writes_emit r : P r -> writes P (emit r).
Proof. intros H st. exists [r]. auto. Qed.

Lemma writes_bind {A B} (m : M store A) (k : A -> M store B) :
  writes P m -> (forall a, writes P (k a)) -> writes P (bind m k).
Proof.
  intros Hm Hk st. unfold bind. destruct (Hm st) as (a1 & E1 & F1).
  destruct (m st) as [[a|e] st1]; simpl in E1; subst st1.
  - destruct (Hk a (st ++ a1)) as (a2 & E2 & F2).
    exists (a1 ++ a2). rewrite E2, app_assoc. split; auto.
    apply Forall_app. auto.
  - exists a1. auto.
Qed.

Lemma writes_when b (m : M store unit) : writes P m -> writes P (when_ b m).
Proof. destruct b; simpl; auto using writes_ret. Qed.

Lemma writes_try_except {A} (m : M store A) h :
  writes P m -> (forall e, writes P (h e)) -> writes P (try_except m h).
Proof.
  intros Hm Hh st. unfold try_except. destruct (Hm st) as (a1 & E1 & F1).
  destruct (m st) as [[a|e] st1]; simpl in E1; subst st1.
  - exists a1. auto.
  - destruct (Hh e (st ++ a1)) as (a2 & E2 & F2).
    exists (a1 ++ a2). rewrite E2, app_assoc. split; auto.
    apply Forall_app. auto.
Qed.

Lemma writes_for_each {A} (f : A -> M store unit) l :
  (forall x, writes P (f x)) -> writes P (for_each f l).
Proof.
  intros Hf. induction l as [|x l IH]; simpl.
  - apply writes_ret.
  - apply writes_bind; auto.
Qed.

End Writes.

Lemma writes_impl (P Q : record -> Prop) {A} (m : M store A) :
  (forall r, P r -> Q r) -> writes P m -> writes Q m.
Proof.
  intros H Hm st. destruct (Hm st) as (added & E & F).
  exists added. split; auto. eapply Forall_impl; eauto.
Qed.

Ltac writes_step side :=
  first
    [ apply writes_bind; [|intros ?]
    | apply writes_when
    | apply writes_lift
    | apply writes_ret
    | apply writes_raise
    | apply writes_try_except; [|intros ?]
    | apply writes_emit; side
    | match goal with
      | |- writes _ (if ?b then _ else _) => destruct b
      | |- writes _ (match ?x with _ => _ end) => destruct x
      end ].

(** X7. Whatever an incoming message looks like, [handle_message] stores
    nothing but incoming WhatsApp Message documents carrying the account
    and the sender's profile name (and, for a media message, the file and
    its attachment to the message). *)
Theorem handle_message_tags_account :
  forall env account sender message,
    writes (tagged account sender) (handle_message env account sender message).
Proof.
  intros env account sender message.
  unfold handle_message, incoming.
  repeat writes_step ltac:(simpl; intuition).
Qed.

(** ** Raising without a trace *)









Lemma raised_by_lift {A} (r : result A) st e st' :
  lift r st = (Raise e, st') -> st' = st /\ r = Raise e.
Proof. unfold lift. intros [= -> <-]. auto. Qed.







(** ** The status branch *)

Lemma writes_update_template_status env data :
  writes not_structure_error (update_template_status env data).
Proof.
  unfold update_template_status.
  repeat writes_step ltac:(discriminate).
Qed.

(** X9. A template status notification never makes the handler raise,
    whatever its content: every error inside [update_template_status] ends
    in the error log. *)
Theorem update_template_status_never_raises :
  forall env data st,
    fst (update_template_status env data st) = Ok tt.
Proof.
  intros env data st. unfold update_template_status, try_except.
  match goal with
  | |- fst (match ?m st with _ => _ end) = _ =>
      destruct (m st) as [[[]|e] st1]; reflexivity
  end.
Qed.

(** X10. [update_message_status] is all or nothing: it returns after
    updating exactly one message, or it raises (no [statuses], an empty
    list, a status without id, an unknown message) and has written
    nothing. *)
Theorem update_message_status_all_or_nothing :
  forall env data st,
    (exists name status conversation,
       update_message_status env data st
       = (Ok tt, st ++ [MessageStatus name status conversation]))
    \/ (exists e, update_message_status env data st = (Raise e, st)).
Proof.
  intros env data st. unfold update_message_status, bind, lift.
  destruct (and_then (getitem data "statuses") _) as [id|e];
    [|right; eexists; reflexivity].
  destruct (and_then (getitem data "statuses") _) as [status|e];
    [|right; eexists; reflexivity].
  destruct (and_then (getitem data "statuses") _) as [conversation|e];
    [|right; eexists; reflexivity].
  destruct (message_name env id) as [name|];
    [|right; eexists; reflexivity].
  left. do 3 eexists. reflexivity.
Qed.

Lemma writes_update_message_status env data :
  writes not_structure_error (update_message_status env data).
Proof.
  unfold update_message_status.
  repeat writes_step ltac:(discriminate).
Qed.

Lemma writes_update_status env data :
  writes not_structure_error (update_status env data).
Proof.
  unfold update_status.
  repeat first
    [ apply writes_update_template_status
    | apply writes_update_message_status
    | writes_step ltac:(discriminate) ].
Qed.

(** X11. Only a change of the field "messages" can make [update_status]
    raise: for a dict with any other field it returns. *)
Theorem update_status_raises_only_for_messages :
  forall env fields st,
    (forall field, get_key (JDict fields) "field" = Ok field ->
                   is_str field "messages" = false) ->
    fst (update_status env (JDict fields) st) = Ok tt.
Proof.
  intros env fields st H.
  assert (G : forall key, exists v, get_key (JDict fields) key = Ok v).
  { intros key. unfold get_key, get_or.
    destruct (lookup (lit key) fields); eauto. }
  unfold update_status, bind, lift.
  destruct (json_truthy (JDict fields)); [|reflexivity]. cbn [negb].
  destruct (G "field") as (field & E). rewrite E, (H field E).
  destruct (is_str field "message_template_status_update"); [|reflexivity].
  destruct (G "value") as (value & Ev). rewrite Ev.
  destruct (json_truthy value); [|reflexivity].
  apply update_template_status_never_raises.
Qed.

(** X11's witness: an account update, which the handler ignores. *)
Lemma update_status_raises_only_for_messages_witness :
  fst (update_status example_env
         (JDict [(lit "field", JStr (lit "account_update"));
                 (lit "value", JDict [])]) [])
  = Ok tt.
Proof.
  apply (update_status_raises_only_for_messages example_env
           [(lit "field", JStr (lit "account_update")); (lit "value", JDict [])]
           []).
  intros field [= <-]. reflexivity.
Defined.

(** ** post *)

(** X12. [post] stores the raw payload before anything else, also when
    it raises afterwards; and it only ever appends to the store. *)
Theorem post_logs_raw_payload_first :
  forall env data st,
    exists rest, snd (post env data st) = st ++ raw_log data :: rest.
Proof.
  intros env data st. unfold post.
  assert (W : forall k : M store unit,
            writes (fun _ => True) k ->
            exists rest,
              snd (bind (emit (raw_log data)) (fun _ => k) st)
              = st ++ raw_log data :: rest).
  { intros k Hk. unfold bind, emit, modify.
    destruct (Hk (st ++ [raw_log data])) as (added & E & _).
    exists added. rewrite E, <- app_assoc. reflexivity. }
  apply W.
  repeat first
    [ apply writes_for_each; intros ?
    | apply (writes_impl (tagged a1 a0)); [intros; exact I|];
      apply handle_message_tags_account
    | apply (writes_impl not_structure_error); [intros; exact I|];
      apply writes_update_status
    | writes_step ltac:(exact I)
    | unfold handle_changes ].
Qed.

(** X13. When the envelope of the payload can be read but its phone
    number id is empty or belongs to no account, [post] stores the raw
    payload and nothing else.  It returns, unless the scan for the
    sender's profile name (lines 50-58), which comes before the account is
    looked up, raises: then that error leaves [post]. *)
Theorem post_ignores_unknown_account :
  forall env data st messages phone_id,
    read_envelope data = Ok (messages, phone_id) ->
    (json_truthy phone_id = false \/ get_whatsapp_account env phone_id = None) ->
    snd (post env data st) = st ++ [raw_log data]
    /\ fst (post env data st)
       = match sender_profile_name data with
         | Ok _ => Ok tt
         | Raise e => Raise e
         end.
Proof.
  intros env data st messages phone_id He Ha.
  unfold post, bind, emit, modify, lift. rewrite He.
  destruct (sender_profile_name data) as [sender|e]; [|split; reflexivity].
  destruct Ha as [->| Ha]; [split; reflexivity|].
  rewrite Ha. destruct (json_truthy phone_id); split; reflexivity.
Qed.

(** X13's witness: a status notification for the phone id "999". *)
Lemma post_ignores_unknown_account_witness :
  post example_env
    (envelope (JDict [(lit "metadata",
                       JDict [(lit "phone_number_id", JStr (lit "999"))])]))
    []
  = (Ok tt,
     [raw_log
        (envelope (JDict [(lit "metadata",
                           JDict [(lit "phone_number_id", JStr (lit "999"))])]))]).
Proof.
  destruct (post_ignores_unknown_account example_env
              (envelope (JDict [(lit "metadata",
                                 JDict [(lit "phone_number_id",
                                         JStr (lit "999"))])]))
              [] (JList []) (JStr (lit "999")) eq_refl
              (or_intror eq_refl)) as [Hs Hf].
  apply injective_projections; [exact Hf|exact Hs].
Defined.

(** The other case: the envelope reads and has no phone id, and a second
    entry that is no object makes the scan for the sender raise. *)
Example post_unknown_account_scan_raises :
  post example_env
    (JDict [(lit "entry",
             JList [JDict [(lit "changes",
                            JList [JDict [(lit "value", JDict [])]])];
                    JStr (lit "oops")])])
    []
  = (Raise AttributeError,
     [raw_log
        (JDict [(lit "entry",
                 JList [JDict [(lit "changes",
                                JList [JDict [(lit "value", JDict [])]])];
                        JStr (lit "oops")])])]).
Proof. reflexivity. Qed.

Lemma writes_bind_lift (P : record -> Prop) {A B} (r : result A)
    (k : A -> M store B) :
  (forall a, r = Ok a -> writes P (k a)) -> writes P (bind (lift r) k).
Proof.
  intros H st. unfold bind, lift. destruct r as [a|e].
  - apply H. reflexivity.
  - exists []. now rewrite app_nil_r.
Qed.

(** X14. [post] never writes the "Webhook structure error" entry of lines
    183-191: where it reaches those guarded reads, the same reads have
    already succeeded at line 46, so a payload of the wrong shape raises
    there instead of being logged here. *)
Theorem post_never_logs_structure_error :
  forall env data, writes not_structure_error (post env data).
Proof.
  intros env data. unfold post.
  apply writes_bind; [apply writes_emit; discriminate|intros _].
  apply writes_bind_lift. intros [messages phone_id] He.
  apply writes_bind_lift. intros sender _.
  destruct (json_truthy phone_id) eqn:T; [|apply writes_ret].
  destruct (get_whatsapp_account env phone_id) as [account|];
    [|apply writes_ret].
  destruct (json_truthy messages).
  - apply writes_bind_lift. intros items _.
    apply writes_for_each. intros message.
    apply (writes_impl (tagged account sender)).
    + intros [] H; try contradiction; discriminate.
    + apply handle_message_tags_account.
  - destruct (WebhookFacts.changes_readable_when_reached data messages phone_id He T)
      as (changes & Hc).
    unfold handle_changes. rewrite Hc.
    apply writes_when, writes_update_status.
Qed.

End WebhookMoreFacts.

Module NotifyMoreFacts.
Import Json Notify NotifySpec.
Local Open Scope string_scope.
Local Open Scope list_scope.

(** X15. Without an account, or without its token, [notify] raises at
    once: no request is sent and nothing is written, not even an outcome
    record. *)
Theorem notify_without_account_writes_nothing :
  forall env self data doc_data template_account st e,
    (resolve_account env template_account = Raise e
     \/ exists acc, resolve_account env template_account = Ok acc
                    /\ token acc = Raise e) ->
    notify env self data doc_data template_account st = (Raise e, st).
Proof.
  intros env self data doc_data template_account st e H.
  unfold notify, bind, lift.
  destruct H as [->|(acc & -> & ->)]; reflexivity.
Qed.

(** X15's witness: a site without default outgoing account. *)
Lemma notify_without_account_writes_nothing_witness :
  notify {| account_named := fun _ => None; default_outgoing := None;
            make_post_request := Answered true JNull;
            save_message := Ok tt; property_field := Ok None;
            describe := fun _ => []; render := fun _ => [] |}
    example_notification example_data JNull None start
  = (Raise (ValidationError
              (lit "Please set a default outgoing WhatsApp Account")),
     start).
Proof.
  apply (notify_without_account_writes_nothing
           {| account_named := fun _ => None; default_outgoing := None;
              make_post_request := Answered true JNull;
              save_message := Ok tt; property_field := Ok None;
              describe := fun _ => []; render := fun _ => [] |}
           example_notification example_data JNull None start).
  left. reflexivity.
Defined.

(** X16. A request that fails and leaves no response that tests true is
    not fatal: [notify] returns, having shown the failure with [str(e)]
    and written one outcome record with [str(e)]; no message document is
    saved. *)
Theorem notify_failure_is_not_fatal :
  forall env self data doc_data template_account st acc tok e kept,
    resolve_account env template_account = Ok acc ->
    token acc = Ok tok ->
    make_post_request env = Failed e kept ->
    (kept = None \/ exists r, kept = Some r /\ truth r = false) ->
    notify env self data doc_data template_account st
    = (Ok tt, after_failure st kept self (JStr (describe env e))).
Proof.
  intros env self data doc_data template_account st acc tok e kept
    Hacc Htok Hpost Hkept.
  unfold notify, bind, lift. rewrite Hacc, Htok.
  unfold send, attempt, bind, call_provider. rewrite Hpost.
  cbn [set_flag modify raise bind integration_request].
  unfold bind. cbn [set_flag modify raise integration_request].
  assert (Hf : failure_message env kept e = (Ok tt, JStr (describe env e))).
  { unfold failure_message.
    destruct Hkept as [->|(r & -> & ->)]; reflexivity. }
  rewrite Hf. unfold bind, log_outcome, emit, modify, after_failure. simpl.
  rewrite <- app_assoc. reflexivity.
Qed.

(** X16's witness: the connection fails before any answer. *)
Lemma notify_failure_is_not_fatal_witness :
  notify (example_env (Failed (OtherError (lit "timeout")) None))
    example_notification example_data JNull None start
  = (Ok tt,
     after_failure start None example_notification
       (JStr (describe (example_env (Failed (OtherError (lit "timeout")) None))
                (OtherError (lit "timeout"))))).
Proof.
  apply (notify_failure_is_not_fatal
           (example_env (Failed (OtherError (lit "timeout")) None))
           example_notification example_data JNull None start
           example_account (lit "secret") (OtherError (lit "timeout")) None
           eq_refl eq_refl eq_refl).
  left. reflexivity.
Defined.

(** ** Message documents *)

Section Adds.
Variable P : record -> Prop.

Lemma adds_ret {A} (a : A) : adds P (ret a).
Proof. intros st. exists []. now rewrite app_nil_r. Qed.

Lemma adds_raise {A} e : adds P (@raise state A e).
Proof. intros st. exists []. now rewrite app_nil_r. Qed.

Lemma adds_gets {A} (g : state -> A) : adds P (gets g).
Proof. intros st. exists []. now rewrite app_nil_r. Qed.

Lemma adds_lift {A} (r : result A) : adds P (lift r).
Proof. intros st. exists []. now rewrite app_nil_r. Qed.

Lemma adds_set_content_type v : adds P (set_content_type v).
Proof. intros st. exists []. simpl. now rewrite app_nil_r. Qed.

Lemma adds_set_flag v : adds P (set_flag v).
Proof. intros st. exists []. simpl. now rewrite app_nil_r. Qed.

Lemma adds_emit r : P r -> adds P (emit r).
Proof. intros H st. exists [r]. auto. Qed.

Lemma adds_bind {A B} (m : M state A) (k : A -> M state B) :
  adds P m -> (forall a, adds P (k a)) -> adds P (bind m k).
Proof.
  intros Hm Hk st. unfold bind. destruct (Hm st) as (a1 & E1 & F1).
  destruct (m st) as [[a|e] st1]; simpl in E1.
  - destruct (Hk a st1) as (a2 & E2 & F2).
    exists (a1 ++ a2). rewrite E2, E1, app_assoc. split; auto.
    apply Forall_app. auto.
  - exists a1. auto.
Qed.

Lemma adds_bind_lift {A B} (r : result A) (k : A -> M state B) :
  (forall a, r = Ok a -> adds P (k a)) -> adds P (bind (lift r) k).
Proof.
  intros H st. unfold bind, lift. destruct r as [a|e].
  - apply H. reflexivity.
  - exists []. now rewrite app_nil_r.
Qed.

Lemma adds_bind_ret {A B} (a : A) (k : A -> M state B) :
  adds P (k a) -> adds P (bind (ret a) k).
Proof. intros H st. apply H. Qed.

Lemma adds_bind_assoc {A B C} (m : M state A) (f : A -> M state B)
    (k : B -> M state C) :
  adds P (bind m (fun a => bind (f a) k)) -> adds P (bind (bind m f) k).
Proof.
  intros H st. specialize (H st). unfold bind in *.
  destruct (m st) as [[a|e] st1]; auto.
Qed.

Lemma adds_when b (m : M state unit) : adds P m -> adds P (when_ b m).
Proof. destruct b; simpl; auto using adds_ret. Qed.

End Adds.

Lemma adds_impl (P Q : record -> Prop) {A} (m : M state A) :
  (forall r, P r -> Q r) -> adds P m -> adds Q m.
Proof.
  intros H Hm st. destruct (Hm st) as (added & E & F).
  exists added. split; auto. eapply Forall_impl; eauto.
Qed.

Ltac adds_step side :=
  first
    [ apply adds_bind_assoc
    | apply adds_bind_lift; intros ? ?
    | apply adds_bind_ret
    | apply adds_when
    | apply adds_ret
    | apply adds_raise
    | apply adds_gets
    | apply adds_lift
    | apply adds_set_content_type
    | apply adds_set_flag
    | apply adds_emit; side
    | match goal with
      | |- adds _ (bind (if ?b then _ else _) _) => destruct b
      | |- adds _ (if ?b then _ else _) => destruct b
      | |- adds _ (match ?x with _ => _ end) => destruct x
      end
    | apply adds_bind; [|intros ?] ].

Lemma record_message_adds env self data doc_data acc response :
  adds (carries_id response acc)
    (record_message env self data doc_data acc response).
Proof.
  unfold record_message.
  repeat adds_step ltac:(first [ exact I | idtac ]).
  all: simpl.
  all: try exact (adds_ret _ tt).
  all: match goal with
       | H : Ok _ = Ok _ |- _ => injection H as <-
       | _ => idtac
       end.
  all: match goal with H : and_then _ _ = Ok ?id |- _ => exists id end.
  all: unfold message_id_of; split; [assumption|].
  all: simpl; tauto.
Qed.

Lemma attempt_adds env self data doc_data acc :
  adds (from_provider env) (attempt env self data doc_data acc).
Proof.
  unfold attempt, call_provider.
  destruct (make_post_request env) as [t body|r returned|e kept] eqn:E.
  - apply adds_bind_assoc, adds_bind; [apply adds_set_flag|intros _].
    apply adds_bind_ret.
    apply (adds_impl (carries_id body acc)); [|apply record_message_adds].
    intros [] H; try exact I. destruct H as (id & H1 & H2 & _).
    exists t, body, id. auto.
  - apply adds_bind_assoc, adds_bind; [apply adds_set_flag|intros _].
    apply adds_bind_ret.
    eapply adds_impl; [|apply record_message_adds].
    intros [] H; try exact I. destruct H as (id & H1 & _).
    destruct returned; discriminate.
  - intros st. exists []. unfold bind, set_flag, modify, raise. simpl.
    now rewrite app_nil_r.
Qed.

Lemma send_adds env self data doc_data acc :
  adds (from_provider env) (send env self data doc_data acc).
Proof.
  intros st. unfold send.
  destruct (attempt_adds env self data doc_data acc st) as (added & E & F).
  destruct (attempt env self data doc_data acc st) as [[[]|e] st1];
    simpl in E.
  - assert (H : adds (from_provider env) (log_success self)).
    { unfold log_success, log_outcome.
      apply adds_bind; [apply adds_gets|intros [r|]]; [|apply adds_raise].
      destruct (json_body r); [apply adds_emit; exact I|apply adds_raise]. }
    destruct (H st1) as (added' & E' & F').
    exists (added ++ added'). rewrite E', E, app_assoc. split; auto.
    apply Forall_app. auto.
  - destruct (failure_message env (integration_request st1) e)
      as [[[]|x] error_message].
    + assert (H : adds (from_provider env)
                    (bind (emit (Msgprint "Failed to trigger whatsapp message"
                                   error_message))
                       (fun _ => log_outcome self
                                   (JDict [(lit "error", error_message)])))).
      { unfold log_outcome. repeat adds_step ltac:(exact I). }
      destruct (H st1) as (added' & E' & F').
      exists (added ++ added'). rewrite E', E, app_assoc. split; auto.
      apply Forall_app. auto.
    + assert (H : adds (from_provider env)
                    (bind (log_outcome self
                             (JDict [(lit "error", error_message)]))
                       (fun _ => @raise state unit x))).
      { unfold log_outcome. repeat adds_step ltac:(exact I). }
      destruct (H st1) as (added' & E' & F').
      exists (added ++ added'). rewrite E', E, app_assoc. split; auto.
      apply Forall_app. auto.
Qed.

(** X17. [notify] saves a message document only after the provider has
    answered with a message id, and the document carries that id: a
    failed request, or an answer without [messages[0].id], leaves no
    message document. *)
Theorem notify_saves_only_accepted_messages :
  forall env self data doc_data template_account st fields,
    In (MessageDoc fields)
       (records (snd (notify env self data doc_data template_account st))) ->
    In (MessageDoc fields) (records st)
    \/ exists t body id,
         make_post_request env = Answered t body
         /\ message_id_of body = Ok id
         /\ In ("message_id", id) fields.
Proof.
  intros env self data doc_data template_account st fields H.
  assert (A : adds (from_provider env)
                (notify env self data doc_data template_account)).
  { unfold notify.
    apply adds_bind_lift. intros acc _.
    apply adds_bind_lift. intros tok _.
    apply send_adds. }
  destruct (A st) as (added & E & F). rewrite E in H.
  apply in_app_or in H. destruct H as [H|H]; [now left|right].
  rewrite Forall_forall in F. exact (F _ H).
Qed.

(** X17's witness: the request of the example is accepted as "wamid.1". *)
Lemma notify_saves_only_accepted_messages_witness :
  exists t body id,
    make_post_request (example_env (Answered true accepted)) = Answered t body
    /\ message_id_of body = Ok id
    /\ In ("message_id", id)
         [("doctype", JStr (lit "WhatsApp Message"));
          ("type", JStr (lit "Outgoing"));
          ("message",
           JStr (lit "{'name': 'order_ready', 'language': {'code': 'en'}, 'components': []}"));
          ("to", JStr (lit "15550001111"));
          ("message_type", JStr (lit "Template"));
          ("message_id", JStr (lit "wamid.1"));
          ("content_type", JStr (lit "text")); ("use_template", JNum 1);
          ("template", JStr (lit "order_ready"));
          ("template_parameters", JNull);
          ("whatsapp_account", JStr (lit "Main"))].
Proof.
  destruct (notify_saves_only_accepted_messages
              (example_env (Answered true accepted))
              example_notification example_data JNull None start
              [("doctype", JStr (lit "WhatsApp Message"));
               ("type", JStr (lit "Outgoing"));
               ("message",
                JStr (lit "{'name': 'order_ready', 'language': {'code': 'en'}, 'components': []}"));
               ("to", JStr (lit "15550001111"));
               ("message_type", JStr (lit "Template"));
               ("message_id", JStr (lit "wamid.1"));
               ("content_type", JStr (lit "text")); ("use_template", JNum 1);
               ("template", JStr (lit "order_ready"));
               ("template_parameters", JNull);
               ("whatsapp_account", JStr (lit "Main"))]
              (or_introl eq_refl)) as [[]|H].
  exact H.
Defined.

End NotifyMoreFacts.

Module TemplateMethodsFacts.
Import PyStr Json Templates TemplateMethods PyStrFacts.
Local Open Scope N_scope.

(** ** The length limits of the sample values *)

Lemma validate_lengths_from_spec d l : forall idx,
  validate_lengths_from d idx l = Ok tt <->
  (forall i v, nth_error l i = Some v ->
     N.of_nat (List.length v) <= limit_of d (idx + N.of_nat i)).
Proof.
  induction l as [|value rest IH]; intros idx; cbn [validate_lengths_from].
  - split; [intros _ [|i] v H; discriminate | reflexivity].
  - unfold limit_of in *. split.
    + intros H [|i] v Hv.
      * cbn in Hv. injection Hv as <-. rewrite N.add_0_r.
        destruct (header_has_param d idx);
          destruct (_ <? _) eqn:E; try discriminate;
          apply N.ltb_ge in E; exact E.
      * cbn [nth_error] in Hv.
        assert (Hr : validate_lengths_from d (idx + 1) rest = Ok tt)
          by (destruct (header_has_param d idx); destruct (_ <? _);
              try discriminate; exact H).
        replace (idx + N.of_nat (S i)) with (idx + 1 + N.of_nat i) by lia.
        now apply (proj1 (IH _) Hr i v).
    + intros H.
      pose proof (H 0%nat value eq_refl) as H0. rewrite N.add_0_r in H0.
      assert (Hr : validate_lengths_from d (idx + 1) rest = Ok tt).
      { apply IH. intros i v Hv. specialize (H (S i) v Hv).
        replace (idx + 1 + N.of_nat i) with (idx + N.of_nat (S i)) by lia.
        exact H. }
      destruct (header_has_param d idx);
        (destruct (_ <? _) eqn:E; [apply N.ltb_lt in E; lia | assumption]).
Qed.

Lemma validate_lengths_from_outcome d l : forall idx,
  validate_lengths_from d idx l = Ok tt
  \/ validate_lengths_from d idx l
     = Raise (ValidationError (lit "Character Limit Exceeded")).
Proof.
  induction l as [|value rest IH]; intros idx; cbn [validate_lengths_from];
    auto.
  destruct (header_has_param d idx); destruct (_ <? _); auto.
Qed.

(** X18.  [_validate_sample_value_lengths] accepts a list of sample values
    exactly when every value is within the limit of its parameter: 60
    characters when the text header uses the parameter, 1000 otherwise.
    Any other list raises a validation error titled "Character Limit
    Exceeded". *)
Theorem sample_value_lengths_checked :
  forall d sample_list,
    (_validate_sample_value_lengths d sample_list = Ok tt <->
     (forall i value, nth_error sample_list i = Some value ->
        N.of_nat (List.length value) <= limit_of d (N.of_nat (S i))))
    /\ (_validate_sample_value_lengths d sample_list = Ok tt
        \/ _validate_sample_value_lengths d sample_list
           = Raise (ValidationError (lit "Character Limit Exceeded"))).
Proof.
  intros d l. unfold _validate_sample_value_lengths. split.
  - rewrite validate_lengths_from_spec. split; intros H i v Hv.
    + replace (N.of_nat (S i)) with (1 + N.of_nat i) by lia. now apply H.
    + replace (1 + N.of_nat i) with (N.of_nat (S i)) by lia. now apply H.
  - apply validate_lengths_from_outcome.
Qed.

(** ** The body text *)

Lemma replace_crlf_absent s : ~ In CR s -> replace_crlf s = s.
Proof.
  induction s as [|c t IH]; intros H; auto.
  cbn [replace_crlf]. destruct t as [|c' t']; auto.
  assert (Ec : (c =? CR) = false).
  { apply N.eqb_neq. intros ->. apply H. now left. }
  rewrite Ec. cbn [andb]. f_equal. apply IH. intros Hin. apply H. now right.
Qed.

Lemma rstrip_by_last p s : forall pre c,
  rstrip_by p s = pre ++ [c] -> p c = false.
Proof.
  induction s as [|d t IH]; intros pre c.
  - destruct pre; discriminate.
  - rewrite rstrip_by_cons.
    destruct (rstrip_by p t) as [|e u] eqn:E; simpl nonempty; cbv iota.
    + destruct (p d) eqn:Ed.
      * destruct pre; discriminate.
      * destruct pre as [|x [|y pre]]; try discriminate.
        intros [= ->]. exact Ed.
    + destruct pre as [|x pre]; [discriminate|].
      intros [= _ Hu]. now apply (IH pre c).
Qed.

(** X19.  The body text sent to the provider holds no carriage return and
    does not end with a line feed, and normalising it again changes
    nothing. *)
Theorem body_text_normalised :
  forall template,
    ~ In CR (body_text template)
    /\ (forall pre, body_text template <> pre ++ [NL])
    /\ body_text (Some (body_text template)) = body_text template.
Proof.
  intros template.
  assert (Hcr : ~ In CR (body_text template)).
  { unfold body_text. intros H. apply rstrip_by_incl in H.
    destruct template as [[|c t]|]; try contradiction.
    revert H. apply NotificationFacts.replace_char_absent. discriminate. }
  split; [exact Hcr|]. split.
  - intros pre H. unfold body_text in H.
    apply rstrip_by_last in H. discriminate.
  - unfold body_text at 1.
    destruct (body_text template) as [|c t] eqn:E; auto.
    rewrite replace_crlf_absent, NotificationFacts.replace_char_id
      by exact Hcr.
    rewrite <- E. unfold body_text. apply rstrip_by_idem.
Qed.

(** ** The example values *)

Lemma generated_samples_length n :
  N.of_nat (List.length (generated_samples n)) = n.
Proof.
  unfold generated_samples. rewrite length_map, length_seq. lia.
Qed.

(** X20.  When the body has parameters, the example that [update_template]
    sends holds exactly as many values as the parameter count: missing
    values are filled with "Sample", extra ones are dropped, and the values
    given come first, in order.  A body without parameters gets no
    example. *)
Theorem update_example_has_param_count :
  forall U jl d,
    let param_count := get_parameter_count U (template d) in
    let given := _parse_sample_values jl (sample_values d) (Some param_count) in
    (param_count = 0 -> update_example U jl d = None)
    /\ (0 < param_count ->
        exists sample_list,
          update_example U jl d = Some sample_list
          /\ N.of_nat (List.length sample_list) = param_count
          /\ (truthy (sample_values d) = true ->
              firstn (List.length given) sample_list
              = firstn (N.to_nat param_count) given)).
Proof.
  intros U jl d param_count given. unfold update_example.
  fold param_count. fold given. split.
  - intros ->. reflexivity.
  - intros Hpos. apply N.ltb_lt in Hpos. rewrite Hpos. apply N.ltb_lt in Hpos.
    destruct (truthy (sample_values d)).
    + destruct (Nat.ltb_spec (List.length given) (N.to_nat param_count)) as [L|L].
      * eexists. split; [reflexivity|]. split.
        -- rewrite length_app, repeat_length. lia.
        -- intros _. rewrite firstn_app, Nat.sub_diag, firstn_all.
           cbn [firstn]. rewrite app_nil_r.
           symmetry. apply firstn_all2. lia.
      * destruct (Nat.ltb_spec (N.to_nat param_count) (List.length given)) as [G|G].
        -- eexists. split; [reflexivity|]. split.
           ++ rewrite length_firstn. lia.
           ++ intros _. apply firstn_all2. rewrite length_firstn. lia.
        -- eexists. split; [reflexivity|]. split; [lia|].
           intros _. rewrite firstn_all. symmetry. apply firstn_all2. lia.
    + eexists. split; [reflexivity|]. split.
      * apply generated_samples_length.
      * discriminate.
Qed.

(** X21.  An example that [after_insert] builds from the sample values has
    exactly as many values as the parameter count, each within the limit of
    its parameter; otherwise [after_insert] raises a validation error,
    "Sample Values Mismatch" for a wrong count and "Character Limit
    Exceeded" for a value that is too long. *)
Theorem insert_example_checked :
  forall U jl d,
    truthy (sample_values d) = true ->
    0 < get_parameter_count U (template d) ->
    (exists sample_list,
       insert_example U jl d = Ok (Some sample_list)
       /\ N.of_nat (List.length sample_list)
          = get_parameter_count U (template d)
       /\ forall i value, nth_error sample_list i = Some value ->
            N.of_nat (List.length value) <= limit_of d (N.of_nat (S i)))
    \/ insert_example U jl d
       = Raise (ValidationError (lit "Sample Values Mismatch"))
    \/ insert_example U jl d
       = Raise (ValidationError (lit "Character Limit Exceeded")).
Proof.
  intros U jl d Hs Hpos. unfold insert_example.
  apply N.ltb_lt in Hpos. rewrite Hpos, Hs.
  set (given := _parse_sample_values jl (sample_values d) _).
  destruct (N.eqb_spec (N.of_nat (List.length given))
              (get_parameter_count U (template d))) as [E|E]; cbn [negb].
  - destruct (sample_value_lengths_checked d given) as [Hiff [Hok|Hbad]].
    + left. exists given. rewrite Hok. split; [reflexivity|]. split; [exact E|].
      now apply Hiff.
    + right; right. rewrite Hbad. reflexivity.
  - right; left. reflexivity.
Qed.

(** X21's witness: "{{1}} owes {{2}}" with the samples "Ann|5 EUR". *)
Lemma insert_example_checked_witness :
  insert_example ascii_only json_loads_flat
    (example_doc true (lit "{{1}} owes {{2}}") (Some (lit "Ann|5 EUR"))
       None None)
  = Ok (Some [lit "Ann"; lit "5 EUR"]).
Proof.
  destruct (insert_example_checked ascii_only json_loads_flat
              (example_doc true (lit "{{1}} owes {{2}}")
                 (Some (lit "Ann|5 EUR")) None None)
              eq_refl eq_refl) as [[l [H _]]|[H|H]];
    [ rewrite H; vm_compute in H; symmetry; exact H
    | vm_compute in H; discriminate H
    | vm_compute in H; discriminate H ].
Defined.

(** X22.  For a template that [validate] lets through, the example sent
    to the provider is the list of sample values as parsed: [update_template]
    neither fills nor cuts it, and [after_insert] never finds a wrong count;
    it can only still refuse a value that is too long.  A body without
    parameters gets no example. *)
Theorem validated_samples_are_the_example :
  forall U jl env st st',
    validate U jl env st = (Ok tt, st') ->
    let d := doc st' in
    let param_count := get_parameter_count U (template d) in
    let given := _parse_sample_values jl (sample_values d) (Some param_count) in
    (param_count = 0
     /\ update_example U jl d = None
     /\ insert_example U jl d = Ok None)
    \/ (0 < param_count
        /\ update_example U jl d = Some given
        /\ (insert_example U jl d = Ok (Some given)
            \/ insert_example U jl d
               = Raise (ValidationError (lit "Character Limit Exceeded")))).
Proof.
  intros U jl env st st' H d param_count given.
  apply ValidateFacts.validate_ok_steps in H.
  destruct H as (st1 & st2 & st3 & st4 & _ & _ & _ & _ & _ & _ & _ & H8 & H9).
  destruct (ValidateFacts.update_if_allowed_returns U env st4) as [_ Hd].
  rewrite H9 in Hd. cbn [snd] in Hd.
  assert (Ed : d = doc st4) by exact Hd. clearbody d. subst d.
  unfold check_sample_values, bind, gets in H8. cbv zeta in H8.
  fold param_count in H8. fold given in H8.
  unfold update_example, insert_example. cbv zeta.
  fold param_count. fold given.
  destruct (N.ltb_spec 0 param_count) as [Hpos|Hzero].
  - right. split; [exact Hpos|].
    rewrite (TemplatesFacts.positive_count_truthy U _ Hpos) in H8.
    cbn [when_] in H8.
    destruct (truthy (sample_values (doc st4))); [|discriminate H8].
    cbn [negb] in H8 |- *.
    destruct (N.eqb_spec (N.of_nat (List.length given)) param_count) as [E|E];
      [|discriminate H8]. cbn [negb].
    split.
    + rewrite <- E, Nat2N.id, Nat.ltb_irrefl. reflexivity.
    + destruct (sample_value_lengths_checked (doc st4) given) as [_ [Hok|Hbad]].
      * left. rewrite Hok. reflexivity.
      * right. rewrite Hbad. reflexivity.
  - left. assert (param_count = 0) by lia. auto.
Qed.

(** X22's witness: "{{1}} owes {{2}}" with the samples "Ann|5 EUR". *)
Lemma validated_samples_are_the_example_witness :
  update_example ascii_only json_loads_flat
    (example_doc true (lit "{{1}} owes {{2}}") (Some (lit "Ann|5 EUR"))
       None None)
  = Some [lit "Ann"; lit "5 EUR"].
Proof.
  destruct (validated_samples_are_the_example ascii_only json_loads_flat
              example_env
              (initial (example_doc true (lit "{{1}} owes {{2}}")
                          (Some (lit "Ann|5 EUR")) None None))
              (initial (example_doc true (lit "{{1}} owes {{2}}")
                          (Some (lit "Ann|5 EUR")) None None))
              eq_refl) as [[H _]|[_ [H _]]].
  - vm_compute in H. discriminate H.
  - exact H.
Defined.

(** ** Looking the template up at the provider *)

Lemma find_template_sound d items : forall t,
  find_template d items = Ok (Some t) ->
  In t items
  /\ exists name language,
       get_key t "name" = Ok name
       /\ equals_field name (actual_name d) = true
       /\ get_key t "language" = Ok language
       /\ equals_field language (language_code d) = true.
Proof.
  induction items as [|item rest IH]; intros t; cbn [find_template].
  - discriminate.
  - destruct (get_key item "name") as [name|e] eqn:En; [|discriminate].
    destruct (equals_field name (actual_name d)) eqn:Hn.
    + destruct (get_key item "language") as [language|e] eqn:El;
        [|discriminate].
      destruct (equals_field language (language_code d)) eqn:Hl.
      * intros [= <-]. split; [now left|]. eauto 6.
      * intros H. destruct (IH t H) as [Hin Hm]. split; [now right|exact Hm].
    + intros H. destruct (IH t H) as [Hin Hm]. split; [now right|exact Hm].
Qed.

Lemma find_template_cons_dict d fields rest :
  find_template d (JDict fields :: rest) =
  if equals_field
       (match lookup (lit "name") fields with Some v => v | None => JNull end)
       (actual_name d)
     && equals_field
          (match lookup (lit "language") fields with
           | Some v => v
           | None => JNull
           end)
          (language_code d)
  then Ok (Some (JDict fields))
  else find_template d rest.
Proof.
  cbn [find_template]. unfold get_key, get_or.
  destruct (lookup (lit "name") fields);
    destruct (equals_field _ (actual_name d)); cbn [andb]; auto;
    destruct (lookup (lit "language") fields); reflexivity.
Qed.

Lemma find_template_complete d items :
  (forall x, In x items -> exists fields, x = JDict fields) ->
  forall x name language,
    In x items ->
    get_key x "name" = Ok name ->
    equals_field name (actual_name d) = true ->
    get_key x "language" = Ok language ->
    equals_field language (language_code d) = true ->
    exists t, find_template d items = Ok (Some t).
Proof.
  induction items as [|item rest IH]; intros Hd x name language Hin Hn En Hl El.
  - contradiction.
  - destruct (Hd item (or_introl eq_refl)) as [fields ->].
    rewrite find_template_cons_dict.
    destruct (equals_field _ (actual_name d) && _) eqn:C; [eauto|].
    destruct Hin as [<-|Hin].
    + exfalso. unfold get_key, get_or in Hn, Hl.
      destruct (lookup (lit "name") fields);
        destruct (lookup (lit "language") fields);
        injection Hn as Hn; injection Hl as Hl; subst name language;
        rewrite En, El in C; discriminate C.
    + apply (IH (fun y Hy => Hd y (or_intror Hy)) x name language);
        assumption.
Qed.

(** X23.  The template that [_check_template_exists_on_whatsapp] returns is
    an item of the provider's listing whose name is the document's actual
    name and whose language is its language code.  When the listing is a
    list of objects and holds such an item, a template is returned. *)
Theorem existing_template_is_a_listed_match :
  forall d listing,
    (forall t,
       _check_template_exists_on_whatsapp d listing = Some t ->
       exists response data items name language,
         listing = Ok response
         /\ get_or response "data" (JList []) = Ok data
         /\ iterate data = Ok items
         /\ In t items
         /\ get_key t "name" = Ok name
         /\ equals_field name (actual_name d) = true
         /\ get_key t "language" = Ok language
         /\ equals_field language (language_code d) = true)
    /\ (forall response items x name language,
          listing = Ok response ->
          get_or response "data" (JList []) = Ok (JList items) ->
          (forall y, In y items -> exists fields, y = JDict fields) ->
          In x items ->
          get_key x "name" = Ok name ->
          equals_field name (actual_name d) = true ->
          get_key x "language" = Ok language ->
          equals_field language (language_code d) = true ->
          exists t, _check_template_exists_on_whatsapp d listing = Some t).
Proof.
  intros d listing. unfold _check_template_exists_on_whatsapp. split.
  - intros t H. destruct listing as [response|e]; [|discriminate H].
    cbn [and_then] in H.
    destruct (get_or response "data" (JList [])) as [data|e] eqn:Ed;
      [|discriminate H].
    cbn [and_then] in H.
    destruct (iterate data) as [items|e] eqn:Ei; [|discriminate H].
    cbn [and_then] in H.
    destruct (find_template d items) as [[found|]|e] eqn:F; try discriminate H.
    injection H as ->.
    destruct (find_template_sound d items t F)
      as [Hin (name & language & Hn & En & Hl & El)].
    exists response, data, items, name, language.
    repeat split; assumption.
  - intros response items x name language -> Hdata Hd Hin Hn En Hl El.
    cbn [and_then]. rewrite Hdata. cbn [and_then iterate].
    destruct (find_template_complete d items Hd x name language Hin Hn En Hl El)
      as [t ->].
    eauto.
Qed.

(** An example: the second listed template has the name and the language. *)
Example existing_template_example :
  _check_template_exists_on_whatsapp
    (with_actual_name (Some (lit "greeting"))
       (example_doc true (lit "Hello") None None None))
    (Ok (JDict [(lit "data",
                 JList [JDict [(lit "name", JStr (lit "greeting"));
                               (lit "language", JStr (lit "fr"));
                               (lit "id", JStr (lit "1"))];
                        JDict [(lit "name", JStr (lit "greeting"));
                               (lit "language", JStr (lit "en"));
                               (lit "id", JStr (lit "2"))]])]))
  = Some (JDict [(lit "name", JStr (lit "greeting"));
                 (lit "language", JStr (lit "en"));
                 (lit "id", JStr (lit "2"))]).
Proof. reflexivity. Qed.

End TemplateMethodsFacts.

Module TemplateLifecycleFacts.
Import PyStr Json Templates TemplateMethods TemplateLifecycle.
Local Open Scope py_scope.

(** ** Relations that every step preserves *)

Section Preserves.
Variable R : lstate -> lstate -> Prop.
Hypothesis R_refl : forall st, R st st.
Hypothesis R_trans : forall a b c, R a b -> R b c -> R a c.

Lemma preserves_ret {A} (a : A) : preserves R (ret a).
Proof. intros st. apply R_refl. Qed.

Lemma preserves_raise {A} e : preserves R (@raise lstate A e).
Proof. intros st. apply R_refl. Qed.

Lemma preserves_lift {A} (r : result A) : preserves R (lift r).
Proof. intros st. apply R_refl. Qed.

Lemma preserves_gets {A} (f : lstate -> A) : preserves R (gets f).
Proof. intros st. apply R_refl. Qed.

Lemma preserves_bind {A B} (m : M lstate A) (k : A -> M lstate B) :
  preserves R m -> (forall a, preserves R (k a)) -> preserves R (bind m k).
Proof.
  intros Hm Hk st. unfold bind. specialize (Hm st).
  destruct (m st) as [[a|e] st1]; cbn [snd] in *; auto.
  eapply R_trans; [exact Hm|]. apply Hk.
Qed.

Lemma preserves_try_except {A} (m : M lstate A) h :
  preserves R m -> (forall e, preserves R (h e)) ->
  preserves R (try_except m h).
Proof.
  intros Hm Hh st. unfold try_except. specialize (Hm st).
  destruct (m st) as [[a|e] st1]; cbn [snd] in *; auto.
  eapply R_trans; [exact Hm|]. apply Hh.
Qed.

Lemma preserves_if {A} (b : bool) (m1 m2 : M lstate A) :
  preserves R m1 -> preserves R m2 -> preserves R (if b then m1 else m2).
Proof. destruct b; auto. Qed.

End Preserves.

Lemma extends_refl P st : extends P st st.
Proof. exists []. split; [now rewrite app_nil_r|constructor]. Qed.

Lemma extends_trans P a b c : extends P a b -> extends P b c -> extends P a c.
Proof.
  intros [l1 [E1 F1]] [l2 [E2 F2]]. exists (l1 ++ l2). split.
  - rewrite E2, E1, app_assoc. reflexivity.
  - apply Forall_app. auto.
Qed.

Lemma untouched_refl st : untouched st st.
Proof. repeat split. apply extends_refl. Qed.

Lemma untouched_trans a b c : untouched a b -> untouched b c -> untouched a c.
Proof.
  intros (I1 & D1 & E1) (I2 & D2 & E2). repeat split; try congruence.
  eapply extends_trans; eauto.
Qed.

Lemma untouched_emit ev : not_create ev -> preserves untouched (emit ev).
Proof.
  intros H st. repeat split. exists [ev]. split; [reflexivity|].
  constructor; [exact H|constructor].
Qed.

Lemma untouched_set_flag r : preserves untouched (set_flag r).
Proof.
  intros st. split; [reflexivity|]. split; [reflexivity|].
  exists []. split; [symmetry; apply app_nil_r|constructor].
Qed.

Lemma untouched_assign_status v : preserves untouched (assign_status v).
Proof.
  intros st. split; [reflexivity|]. split; [reflexivity|].
  exists []. split; [symmetry; apply app_nil_r|constructor].
Qed.

Lemma untouched_request ev o :
  not_create ev -> preserves untouched (request ev o).
Proof.
  intros H. unfold request.
  repeat first
    [ apply (preserves_bind untouched untouched_trans); [|intros ?]
    | apply untouched_emit; exact H
    | apply untouched_set_flag
    | apply (preserves_lift untouched untouched_refl) ].
Qed.

Ltac untouched_step :=
  first
    [ apply (preserves_bind untouched untouched_trans); [|intros ?]
    | apply (preserves_try_except untouched untouched_trans); [|intros ?]
    | apply (preserves_lift untouched untouched_refl)
    | apply (preserves_gets untouched untouched_refl)
    | apply (preserves_ret untouched untouched_refl)
    | apply (preserves_raise untouched untouched_refl)
    | apply untouched_request; reflexivity
    | apply untouched_emit; reflexivity
    | apply untouched_set_flag
    | apply untouched_assign_status
    | match goal with
      | |- preserves _ (match ?x with _ => _ end) => destruct x
      end ].

Lemma untouched_sync_existing env :
  preserves untouched (_sync_existing_template env).
Proof. unfold _sync_existing_template. repeat untouched_step. Qed.

Lemma sync_existing_returns env st :
  fst (_sync_existing_template env st) = Ok tt.
Proof.
  unfold _sync_existing_template, try_except.
  match goal with
  | |- fst (match ?m st with _ => _ end) = _ =>
      destruct (m st) as [[[]|e] st1]; reflexivity
  end.
Qed.

(** X24.  For a template that already has an id, [after_insert] never asks
    the provider to create it: no creation request is made, the id is not
    assigned again (at most the status is refreshed), and no error leaves
    the method (a failed synchronisation is only logged).  The same holds
    when the [skip_whatsapp_api] flag is set. *)
Theorem after_insert_never_recreates :
  forall U jl env buttons st,
    truthy (provider_id (ldoc st)) = true \/ skip_whatsapp_api env = true ->
    fst (after_insert U jl env buttons st) = Ok tt
    /\ untouched st (snd (after_insert U jl env buttons st)).
Proof.
  intros U jl env buttons st H.
  destruct (skip_whatsapp_api env) eqn:S.
  - unfold after_insert. rewrite S.
    split; [reflexivity|apply untouched_refl].
  - destruct H as [H|H]; [|discriminate H].
    assert (E : after_insert U jl env buttons st
                = _sync_existing_template env st).
    { unfold after_insert. rewrite S. unfold bind, gets. rewrite H.
      reflexivity. }
    rewrite E.
    split; [apply sync_existing_returns|apply untouched_sync_existing].
Qed.

(** X24's witness: a template imported with the id "42". *)
Lemma after_insert_never_recreates_witness :
  fst (after_insert ascii_only json_loads_flat example_env []
         (start (example_doc true (lit "Hello") None (Some (lit "42")) None)))
  = Ok tt.
Proof.
  exact (proj1 (after_insert_never_recreates ascii_only json_loads_flat
                  example_env []
                  (start (example_doc true (lit "Hello") None
                            (Some (lit "42")) None))
                  (or_introl eq_refl))).
Defined.

(** ** Creating the template *)



(** The state in which the template is looked up at the provider. *)
Lemma after_insert_new U jl env buttons st :
  skip_whatsapp_api env = false ->
  truthy (provider_id (ldoc st)) = false ->
  get_settings env = Ok tt ->
  let d1 := with_actual_name (registered_name U (ldoc st)) (ldoc st) in
  let st2 :=
    {| ldoc := d1; assigned_id := assigned_id st;
       assigned_status := assigned_status st;
       integration_request := left_in_flag (list_request env);
       events := events st ++ [ListTemplates (actual_name d1)] |} in
  after_insert U jl env buttons st =
  match _check_template_exists_on_whatsapp d1 (returned (list_request env)) with
  | Some template =>
      if json_truthy template
      then _sync_from_whatsapp_template env template st2
      else create_template U jl env buttons st2
  | None => create_template U jl env buttons st2
  end.
Proof.
  intros S H G d1 st2.
  cbv [after_insert bind gets set_actual_name modify lift check_exists emit
       set_flag ret].
  rewrite S, H, G.
  cbn [ldoc assigned_id assigned_status integration_request events].
  subst d1 st2.
  destruct (_check_template_exists_on_whatsapp _ _) as [t|];
    [destruct (json_truthy t)|]; reflexivity.
Qed.

Lemma found_template_is_dict d listing t :
  _check_template_exists_on_whatsapp d listing = Some t ->
  exists fields, t = JDict fields.
Proof.
  unfold _check_template_exists_on_whatsapp. intros H.
  destruct listing as [response|e]; [|discriminate H]. cbn [and_then] in H.
  destruct (get_or response "data" (JList [])) as [data|e]; [|discriminate H].
  cbn [and_then] in H.
  destruct (iterate data) as [items|e]; [|discriminate H].
  cbn [and_then] in H.
  destruct (find_template d items) as [[found|]|e] eqn:F; try discriminate H.
  injection H as ->.
  destruct (TemplateMethodsFacts.find_template_sound d items t F)
    as [_ (name & _ & Hn & _)].
  destruct t; try discriminate Hn. eauto.
Qed.

(** X25.  When the provider already lists a template with the name and the
    language, [after_insert] adopts it instead of creating a second one: no
    creation request is made, the document takes the listed id and status
    ("PENDING" when the listing gives none), and the method ends as the
    database update does. *)
Theorem after_insert_adopts_listed_template :
  forall U jl env buttons st template,
    skip_whatsapp_api env = false ->
    truthy (provider_id (ldoc st)) = false ->
    get_settings env = Ok tt ->
    _check_template_exists_on_whatsapp
      (with_actual_name (registered_name U (ldoc st)) (ldoc st))
      (returned (list_request env)) = Some template ->
    json_truthy template = true ->
    fst (after_insert U jl env buttons st) = db_update env
    /\ extends not_create st (snd (after_insert U jl env buttons st))
    /\ (exists id,
          get_key template "id" = Ok id
          /\ assigned_id (snd (after_insert U jl env buttons st)) = Some id)
    /\ (exists listed,
          get_or template "status" (JStr (lit "PENDING")) = Ok listed
          /\ assigned_status (snd (after_insert U jl env buttons st))
             = Some listed).
Proof.
  intros U jl env buttons st template S H G F T.
  rewrite (after_insert_new U jl env buttons st S H G). cbv zeta.
  rewrite F, T.
  destruct (found_template_is_dict _ _ _ F) as [fields ->].
  unfold _sync_from_whatsapp_template, bind, lift, assign_id, assign_status,
    emit, modify, get_key, get_or.
  assert (Hext : forall (a b : lstate) l,
            events b = events a ++ l -> Forall not_create l ->
            extends not_create a b) by (intros a b l E Fl; exists l; auto).
  destruct (lookup (lit "id") fields) as [id|];
    destruct (lookup (lit "status") fields) as [listed|];
    cbn [fst snd];
    destruct (db_update env) as [[]|e];
    cbn [fst snd events assigned_id assigned_status].
  all: split; [reflexivity|].
  all: split;
    [ eapply Hext; [cbn [events]; rewrite <- ?app_assoc; reflexivity|];
      repeat constructor
    | split; eexists; split; reflexivity ].
Qed.

(** X25's witness: the provider lists "greeting" in "en" with the id 7. *)
Lemma after_insert_adopts_listed_template_witness :
  assigned_id
    (snd (after_insert ascii_only json_loads_flat
            (listing_env [listed_greeting])
            []
            (start (example_doc true (lit "Hello") None None None))))
  = Some (JStr (lit "7")).
Proof.
  destruct (after_insert_adopts_listed_template ascii_only json_loads_flat
              (listing_env [listed_greeting])
              []
              (start (example_doc true (lit "Hello") None None None))
              listed_greeting
              eq_refl eq_refl eq_refl eq_refl eq_refl)
    as (_ & _ & (id & Hid & Ha) & _).
  rewrite Ha. injection Hid as <-. reflexivity.
Defined.







(** An example: a new template "greeting" that the provider does not list
    is created once, and takes the id and the status of the answer. *)
Example after_insert_creates_example :
  let r := after_insert ascii_only json_loads_flat example_env []
             (start (example_doc true (lit "Hello") None None None)) in
  fst r = Ok tt
  /\ assigned_id (snd r) = Some (JStr (lit "42"))
  /\ assigned_status (snd r) = Some (JStr (lit "PENDING"))
  /\ events (snd r)
     = [ListTemplates (Some (lit "greeting"));
        CreateTemplate
          (JDict [(lit "name", JStr (lit "greeting"));
                  (lit "language", JStr (lit "en"));
                  (lit "category", JStr (lit "UTILITY"));
                  (lit "components",
                   JList [JDict [(lit "type", JStr (lit "body"));
                                 (lit "text", JStr (lit "Hello"))]])]);
        DbUpdate].
Proof. vm_compute. repeat split. Qed.

(** ** on_trash *)

(** X27.  With the settings at hand, [on_trash] makes one request to
    delete the template, under its actual name, and lets the local deletion
    go on exactly when the provider accepted the request or answered that
    it has no such template ("Message Template Not Found"); every other
    failure raises.  A request that fails without leaving any response
    raises an [AttributeError], not a validation error. *)
Theorem on_trash_outcome :
  forall env st,
    get_settings env = Ok tt ->
    (fst (on_trash env st) = Ok tt <->
     (exists answer, returned (delete_request env) = Ok answer)
     \/ template_not_found (left_in_flag (delete_request env)) = true)
    /\ (exists l, events (snd (on_trash env st))
                  = events st ++ DeleteTemplate (actual_name (ldoc st)) :: l
                  /\ Forall (fun ev => ev = Msgprint "Deleted locally") l)
    /\ (forall e, delete_request env = Notify.Failed e None ->
                  fst (on_trash env st) = Raise AttributeError).
Proof.
  intros env st G.
  unfold on_trash, bind, lift, gets, try_except, request, emit, set_flag,
    modify, ret, raise, returned, left_in_flag, template_not_found.
  rewrite G.
  destruct (delete_request env) as [t body|r0 text|e kept];
    cbn [fst snd events integration_request ldoc].
  - split; [split; eauto|]. split; [|discriminate].
    exists []. split; [reflexivity|constructor].
  - split; [split; eauto|]. split; [|discriminate].
    exists []. split; [reflexivity|constructor].
  - assert (Hno : forall P : Prop,
              (exists answer : json, @Raise json e = Ok answer) \/ P <-> P).
    { intros P. split; [intros [[a Ha]|HP]; [discriminate Ha|exact HP]|auto]. }
    rewrite Hno.
    destruct kept as [r|]; cbn -[lit].
    2: { split; [split; discriminate|].
         split; [exists []; split; [reflexivity|constructor]|reflexivity]. }
    destruct (Notify.json_body r) as [[| | | | |fields]|]; cbn -[lit];
      try (split; [split; discriminate|];
           split; [exists []; split; [reflexivity|constructor]|discriminate]).
    destruct (lookup (lit "error") fields) as [[| | | | |res]|]; cbn -[lit];
      try (split; [split; discriminate|];
           split; [exists []; split; [reflexivity|constructor]|discriminate]).
    destruct (lookup (lit "error_user_title") res) as [title|]; cbn -[lit];
      try (split; [split; discriminate|];
           split; [exists []; split; [reflexivity|constructor]|discriminate]).
    change (match title with
            | JStr x => str_eqb x (lit "Message Template Not Found")
            | _ => false
            end)
      with (is_str title "Message Template Not Found").
    destruct (is_str title "Message Template Not Found"); cbn -[lit].
    + split; [split; reflexivity|]. split; [|discriminate].
      eexists. split; [rewrite <- app_assoc; reflexivity|].
      repeat constructor.
    + split; [split; discriminate|].
      split; [exists []; split; [reflexivity|constructor]|discriminate].
Qed.

(** X27's witness: the provider accepts the request. *)
Lemma on_trash_outcome_witness :
  fst (on_trash example_env
         (start (example_doc true (lit "Hello") None None None)))
  = Ok tt.
Proof.
  apply (proj1 (on_trash_outcome example_env
                  (start (example_doc true (lit "Hello") None None None))
                  eq_refl)).
  left. eexists. reflexivity.
Defined.

End TemplateLifecycleFacts.

Module SendTemplateFacts.
Import PyStr Json Notification SendTemplate.
Local Open Scope py_scope.

(** ** The parameters *)

Lemma sanitized_acceptable v : acceptable (sanitize_whatsapp_param v).
Proof.
  unfold acceptable.
  destruct (NotificationFacts.sanitize_cases v) as [->|[-> Hne]].
  - repeat split; try discriminate; try (cbn; intuition discriminate).
  - split; [exact Hne|].
    repeat split;
      try (apply NotificationFacts.cleaned_no_control; cbn; tauto).
    apply NotificationFacts.cleaned_short_runs.
Qed.

Lemma dash_acceptable : acceptable (lit "-").
Proof.
  unfold acceptable.
  repeat split; try discriminate; cbn; intuition discriminate.
Qed.

Lemma field_parameter_acceptable env f st p st' :
  field_parameter env f st = (Ok p, st') -> acceptable_param p.
Proof.
  unfold field_parameter.
  destruct (field_value_of env f) as [value|e].
  - intros [= <- _]. eexists. split; [reflexivity|apply sanitized_acceptable].
  - destruct (field_identifier f); [|discriminate].
    intros [= <- _]. eexists. split; [reflexivity|apply dash_acceptable].
Qed.

Lemma field_parameters_acceptable env fs : forall st ps st',
  field_parameters env fs st = (Ok ps, st') ->
  List.length ps = List.length fs /\ Forall acceptable_param ps.
Proof.
  induction fs as [|f rest IH]; intros st ps st'; cbn [field_parameters].
  - intros [= <- _]. split; [reflexivity|constructor].
  - unfold bind at 1.
    destruct (field_parameter env f st) as [[p|e] st1] eqn:Ep; [|discriminate].
    unfold bind at 1.
    destruct (field_parameters env rest st1) as [[ps'|e] st2] eqn:Er;
      [|discriminate].
    intros [= <- _].
    destruct (IH _ _ _ Er) as [Hl Hf].
    split; [cbn; now rewrite Hl|].
    constructor; [eapply field_parameter_acceptable; eauto|exact Hf].
Qed.

Lemma field_parameters_total env fs : forall st,
  Forall named fs -> exists ps, fst (field_parameters env fs st) = Ok ps.
Proof.
  induction fs as [|f rest IH]; intros st Hn; cbn [field_parameters].
  - eexists. reflexivity.
  - inversion Hn as [|? ? [ident Hf] Hrest]; subst.
    unfold bind at 1. unfold field_parameter. rewrite Hf.
    destruct (field_value_of env f) as [value|e].
    + unfold ret at 1. unfold bind at 1.
      destruct (IH st Hrest) as [ps Hps].
      destruct (field_parameters env rest st) as [[ps'|e'] st2];
        [eexists; reflexivity|discriminate Hps].
    + unfold bind at 1, emit at 1, modify at 1, ret at 1. unfold bind at 1.
      match goal with
      | |- context [field_parameters env rest ?s] =>
          destruct (IH s Hrest) as [ps Hps];
          destruct (field_parameters env rest s) as [[ps'|e'] st2];
            [eexists; reflexivity|discriminate Hps]
      end.
Qed.

(** X28.  Every text that [send_template_message] puts into the body
    parameters is one the provider accepts: it is not empty and holds no
    line break, no tab and no five spaces in a row, whether it comes from
    the data script or from the fields (a field that fails gives "-").
    The fields give one parameter each, and they always give them when
    the handler finds, for every field, a name or an expression to report
    a failure under ([field_name or expression] is not [None]). *)
Theorem body_parameters_acceptable :
  forall env self st,
    (forall ps st',
       build_parameters env self st = (Ok (Some ps), st') ->
       Forall acceptable_param ps
       /\ (truthy (template_data_script self) = false ->
           List.length ps = List.length (fields self)))
    /\ (truthy (template_data_script self) = false ->
        fields self <> [] ->
        Forall named (fields self) ->
        exists ps, fst (build_parameters env self st) = Ok (Some ps)).
Proof.
  intros env self st. unfold build_parameters. split.
  - intros ps st'.
    destruct (truthy (template_data_script self)).
    + unfold bind, script_parameters.
      destruct (script_result env) as [[values|]|e]; try discriminate.
      intros [= <- _]. split; [|discriminate].
      apply Forall_forall. intros p Hp. apply in_map_iff in Hp.
      destruct Hp as [v [<- _]].
      eexists. split; [reflexivity|apply sanitized_acceptable].
    + destruct (fields self) as [|f rest] eqn:Ef; [discriminate|].
      unfold bind.
      destruct (field_parameters env (f :: rest) st) as [[ps'|e] st1] eqn:Ep;
        [|discriminate].
      intros [= <- _].
      destruct (field_parameters_acceptable _ _ _ _ _ Ep) as [Hl Hf].
      split; [exact Hf|intros _; exact Hl].
  - intros -> Hne Hn.
    destruct (fields self) as [|f rest] eqn:Ef; [now elim Hne|].
    unfold bind.
    destruct (field_parameters_total env (f :: rest) st Hn) as [ps Hps].
    destruct (field_parameters env (f :: rest) st) as [[ps'|e] st1];
      [eexists; reflexivity|discriminate Hps].
Qed.

(** An example: the second field fails and gives "-". *)
Example body_parameters_example :
  fst (build_parameters
         {| condition_holds := Ok true;
            stored_template := stored_template example_env;
            path_phone := path_phone example_env;
            script_result := script_result example_env;
            eval_expression := fun _ => Raise (OtherError (lit "NameError"));
            field_value :=
              fun _ => Ok (PStr (lit "  Ann" ++ [NL] ++ lit "Lee "));
            describe := describe example_env;
            print_link := print_link example_env;
            custom_link := custom_link example_env;
            doc_get := doc_get example_env;
            notify_outcome := Ok tt |}
         (example_notification
            [{| field_type := Holds (Some (lit "Field"));
                expression := Holds None;
                field_name := Holds (Some (lit "customer_name")) |};
             {| field_type := Holds (Some (lit "Expression"));
                expression := Holds (Some (lit "doc.total / 0"));
                field_name := Holds None |}])
         start)
  = Ok (Some [text_param (lit "Ann Lee"); text_param (lit "-")]).
Proof. reflexivity. Qed.

(** ** The errors logged for the fields *)

Lemma snd_bind_ret {A B} (m : M sstate A) (g : A -> B) st :
  snd ((x <- m ;; ret (g x)) st) = snd (m st).
Proof. unfold bind, ret. destruct (m st) as [[a|e] s]; reflexivity. Qed.

Lemma truncate_length limit keep s :
  keep + 3 <= limit -> List.length (truncate limit keep s) <= limit.
Proof.
  intros H. unfold truncate.
  destruct (Nat.ltb_spec limit (List.length s)) as [L|L]; [|exact L].
  rewrite length_app, length_firstn. cbn [List.length lit]. lia.
Qed.

Lemma field_error_text_length env ident e :
  List.length (field_error_text env ident e) <= 135.
Proof.
  unfold field_error_text. rewrite !length_app.
  pose proof (truncate_length 30 27 ident ltac:(lia)).
  pose proof (truncate_length 80 77 (describe env e) ltac:(lia)).
  cbn [List.length lit]. lia.
Qed.

(** X29.  Building the parameters from the fields only ever adds error
    entries to the log, and the text of each has at most 135 characters,
    however long the field's expression and the error message are: it
    stays under the 140 characters that the code's comment gives as the
    limit. *)
Theorem field_errors_are_short :
  forall env fs st,
    exists l,
      log (snd (field_parameters env fs st)) = log st ++ l
      /\ Forall (short_error 135) l
      /\ List.length l <= List.length fs.
Proof.
  intros env fs. induction fs as [|f rest IH]; intros st;
    cbn [field_parameters].
  - exists []. split; [symmetry; apply app_nil_r|]. split; [constructor|].
    cbn. lia.
  - unfold bind at 1. unfold field_parameter.
    destruct (field_value_of env f) as [value|e].
    + unfold ret at 1. rewrite snd_bind_ret.
      destruct (IH st) as [l [E [F L]]].
      exists l. split; [exact E|]. split; [exact F|cbn; lia].
    + destruct (field_identifier f) as [ident|].
      * unfold bind at 1, emit at 1, modify at 1, ret at 1.
        rewrite snd_bind_ret.
        match goal with
        | |- context [field_parameters env rest ?s] =>
            destruct (IH s) as [l [E [F L]]]
        end.
        cbn [log] in E.
        eexists. split; [rewrite E, <- app_assoc; reflexivity|].
        split; [constructor; [apply field_error_text_length|exact F]
               |cbn; lia].
      * exists []. split; [symmetry; apply app_nil_r|].
        split; [constructor|cbn; lia].
Qed.

(** ** What is sent *)












(** A notification without script and without fields sends nothing: the
    method raises when it reads the parameters. *)
Example send_without_parameters :
  send_template_message ascii_only example_env (example_notification [])
    None None false start
  = (Raise (OtherError (lit "UnboundLocalError")), start).
Proof. reflexivity. Qed.

(** A template without header type sends nothing either. *)
Example send_without_header_type :
  fst (send_template_message ascii_only example_env
         (example_notification
            [{| field_type := Missing; expression := Missing;
                field_name := Holds (Some (lit "customer_name")) |}])
         None (Some (example_template None)) false start)
  = Raise AttributeError.
Proof. reflexivity. Qed.

(** With a text header and one field, the message goes out. *)
Example send_with_field :
  send_template_message ascii_only example_env
    (example_notification
       [{| field_type := Missing; expression := Missing;
           field_name := Holds (Some (lit "customer_name")) |}])
    None None false start
  = (Ok tt,
     {| content_type := Some (lit "text");
        log :=
          [Notify
             (message_data (lit "15550001111")
                (example_template (Some (lit "TEXT")))
                [JDict [(lit "type", JStr (lit "body"));
                        (lit "parameters",
                         JList [text_param (lit "Ann")])]])
             (Some (lit "Main"))] |}).
Proof. reflexivity. Qed.

End SendTemplateFacts.
